(** * The BNM announcement ingestion pipeline

    A shallow embedding of the FastAPI cron service under [backend/app]:

    - [services/scraper.py]      [scrape_bnm_announcements]
    - [services/storage.py]      [check_document_exists], [store_document_pages]
    - [utils/pdf_handler.py]     [download_pdf]
    - [services/ocr.py]          [extract_text_from_pdf]
    - [services/embeddings.py]   [generate_embeddings_batch],
                                 [generate_embedding_single]
    - [api/routes/bnm_cron.py]   [process_new_document], [run_daily_scrape],
                                 [trigger_bnm_scrape], [get_cron_status]

    and, in module [Standalone], of the processor of the one-file copy of
    the service, [backend_bnm_cron.py].

    Python code that can raise is written in a state-and-exception monad
    over an explicit [World] (download directory, database table, the global
    [cron_status] dictionary, the clock and a log of collaborator calls).
    A state change made before an exception is raised stays, as in Python.
    The external collaborators (the rendered site, the browser download, the
    OCR webhook, the OpenAI endpoint, the Supabase client) are the fields of
    an environment record [Env]; each may answer or raise, and its answer may
    depend on the world at the time of the call. *)

From Stdlib Require Import Ascii String ZArith DecimalString Lia.
From stdpp Require Import base strings list gmap.

Local Open Scope string_scope.

(** ** Python strings

    A [str] is modelled by [string], one [ascii] per character: the model
    covers text whose code points are below 256. *)

Module PyStr.

(** [c.isspace()] on the code points below 256. *)
Definition isspace (c : ascii) : bool :=
  let n := nat_of_ascii c in
  (((9 <=? n) && (n <=? 13)) || ((28 <=? n) && (n <=? 32))
   || (n =? 133) || (n =? 160))%nat.

Fixpoint lstrip (s : string) : string :=
  match s with
  | EmptyString => EmptyString
  | String c r => if isspace c then lstrip r else s
  end.

Fixpoint rstrip (s : string) : string :=
  match s with
  | EmptyString => EmptyString
  | String c r =>
      match rstrip r with
      | EmptyString => if isspace c then EmptyString else String c EmptyString
      | r' => String c r'
      end
  end.

(** [s.strip()] *)
Definition strip (s : string) : string := rstrip (lstrip s).

(** [len(s)] *)
Definition len (s : string) : nat := String.length s.

(** [s.startswith(p)] *)
Definition startswith (p s : string) : bool := String.prefix p s.

(** [s.endswith(p)] *)
Definition endswith (p s : string) : bool :=
  String.prefix (String.rev p) (String.rev s).

(** [s.replace(a, b)] for one-character [a] and [b]. *)
Fixpoint replace (a b : ascii) (s : string) : string :=
  match s with
  | EmptyString => EmptyString
  | String c r => String (if Ascii.eqb c a then b else c) (replace a b r)
  end.

(** [s[:n]] *)
Fixpoint slice_to (n : nat) (s : string) : string :=
  match n, s with
  | S n', String c r => String c (slice_to n' r)
  | _, _ => EmptyString
  end.

(** [s.split('/')[-1]]: what follows the last slash, the whole string
    when there is none.  [seg] is the segment read so far. *)
Fixpoint last_segment_from (seg s : string) : string :=
  match s with
  | EmptyString => seg
  | String c r =>
      if Ascii.eqb c "/" then last_segment_from EmptyString r
      else last_segment_from (seg ++ String c EmptyString) r
  end.

Definition last_segment (s : string) : string :=
  last_segment_from EmptyString s.

(** [str(n)] for an integer. *)
Definition of_Z (z : Z) : string := NilZero.string_of_int (Z.to_int z).
Definition of_nat (n : nat) : string := of_Z (Z.of_nat n).

(** ['a' * n] *)
Fixpoint repeat (c : ascii) (n : nat) : string :=
  match n with
  | O => EmptyString
  | S k => String c (repeat c k)
  end.

End PyStr.

Definition newline : ascii := Ascii.ascii_of_nat 10.
Definition space : ascii := Ascii.ascii_of_nat 32.

(** ** Python values

    [response.json()] yields an arbitrary JSON value; the pipeline reads it
    with [.get], [len], [+], [.strip] and iteration, each of which raises on
    a value of the wrong shape.  JSON numbers are modelled as integers. *)

#[local] Unset Elimination Schemes.
Inductive json : Type :=
| JNull
| JBool (b : bool)
| JNum (z : Z)
| JStr (s : string)
| JArr (items : list json)
| JObj (fields : list (string * json)).
#[local] Set Elimination Schemes.

Inductive exn : Type :=
| Exception (msg : string)
| HTTPException (status_code : nat) (detail : string).

(** [str(e)] *)
Definition str_of_exn (e : exn) : string :=
  match e with
  | Exception msg => msg
  | HTTPException code detail => PyStr.of_nat code ++ ": " ++ detail
  end.

Inductive result (A : Type) : Type :=
| Ok (a : A)
| Raise (e : exn).
Arguments Ok {A} a.
Arguments Raise {A} e.

Module Py.

(** [bool(v)] *)
Definition truthy (v : json) : bool :=
  match v with
  | JNull => false
  | JBool b => b
  | JNum z => negb (z =? 0)%Z
  | JStr s => negb (String.eqb s "")
  | JArr items => match items with [] => false | _ => true end
  | JObj fields => match fields with [] => false | _ => true end
  end.

Fixpoint assoc (k : string) (fields : list (string * json)) : option json :=
  match fields with
  | [] => None
  | (k', v) :: rest => if String.eqb k k' then Some v else assoc k rest
  end.

(** [d.get(k, dflt)]: only a dict has [get]. *)
Definition get (d : json) (k : string) (dflt : json) : result json :=
  match d with
  | JObj fields => Ok (default dflt (assoc k fields))
  | _ => Raise (Exception "AttributeError: object has no attribute 'get'")
  end.

(** [len(v)] *)
Definition len (v : json) : result nat :=
  match v with
  | JStr s => Ok (PyStr.len s)
  | JArr items => Ok (length items)
  | JObj fields => Ok (length fields)
  | _ => Raise (Exception "TypeError: object has no len()")
  end.

(** [v + n] for an integer [n]; a bool is an int in Python. *)
Definition add (v : json) (n : Z) : result Z :=
  match v with
  | JNum z => Ok (z + n)%Z
  | JBool b => Ok ((if b then 1 else 0) + n)%Z
  | _ => Raise (Exception "TypeError: unsupported operand type(s) for +")
  end.

Fixpoint chars (s : string) : list json :=
  match s with
  | EmptyString => []
  | String c r => JStr (String c EmptyString) :: chars r
  end.

(** The items [for x in v] visits: the elements of a list, the keys of a
    dict, the characters of a string. *)
Definition iter (v : json) : result (list json) :=
  match v with
  | JArr items => Ok items
  | JObj fields => Ok (map (fun kv => JStr (fst kv)) fields)
  | JStr s => Ok (chars s)
  | _ => Raise (Exception "TypeError: object is not iterable")
  end.

End Py.

(** ** Data *)

(** An embedding vector.  The pipeline never looks inside one; its float
    components are stood for by integers. *)
Definition vector : Type := list Z.

(** One row of the DataFrame the scraper returns. *)
Module Announcement.
Record t : Type := make {
  date : string;
  title : string;
  type : string;
  links : list string;
}.
End Announcement.

(** One element of [new_docs]: [(date, title, doc_type, pdf_url)]. *)
Definition WorkItem : Type := (string * string * string * string)%type.

(** One element of [page_data_list]. *)
Module PageData.
Record t : Type := make {
  page_number : Z;
  content : string;
  original_text : json;
  page_info : json;
}.
End PageData.

Module SourceMetadata.
Record t : Type := make {
  scraped_date : string;
  scraped_title : string;
  scraped_type : string;
  source : string;
  source_url : string;
  scraped_at : nat;
}.
End SourceMetadata.

Module Metadata.
Record t : Type := make {
  date : string;
  title : string;
  type : string;
  page_number : Z;
  total_pages : nat;
  model : json;
  header : json;
  footer : json;
  dimensions : json;
  tables_count : nat;
  images_count : nat;
  hyperlinks_count : nat;
  processed_at : nat;
}.
End Metadata.

(** The [data] dictionary inserted into [bnm_announcements]. *)
Module Row.
Record t : Type := make {
  date : string;
  title : string;
  type : string;
  pdf_url : string;
  page_number : Z;
  content : string;
  original_text : json;
  source_metadata : SourceMetadata.t;
  metadata : Metadata.t;
  embedding : vector;
}.
End Row.

(** The global [cron_status] dictionary.  Instants are clock readings; their
    ISO-8601 rendering is not modelled. *)
Module CronStatus.
Record t : Type := make {
  last_run : option nat;
  status : string;
  new_documents : nat;
  processed : nat;
  failed : nat;
  message : string;
}.
End CronStatus.

(** [cron_status] as the module initialises it. *)
Definition cron_status_init : CronStatus.t :=
  CronStatus.make None "idle" 0 0 0 "Not run yet".

(** The log: every call of a leaf component (recorded with the arguments it
    is called with, as its first step), every [unlink], every pause and
    every line printed, in the order they happen. *)
Inductive Event : Type :=
| CallScrape
| CallExists (title date : string)
| CallDownload (url : string)
| CallOcr (path : string)
| CallEmbed (texts : list string)
| CallInsert (row : Row.t)
| CallUnlink (path : string)
| CallSleep (seconds : nat)
| Print (line : string).

(** The download directory is private to the service: a file appears in it
    only through [download_pdf] and leaves it only through [unlink]. *)
Record World : Type := mkWorld {
  files : gset string;
  table : list Row.t;
  cron_status : CronStatus.t;
  clock : nat;
  trace : list Event;
}.

(** One [<tr>] of the rendered table: the three cell texts and the [href]s
    found in the title cell. *)
Definition SiteRow : Type := (string * string * string * list string)%type.

(** The collaborators.  [Raise] stands for a network error, a timeout, a
    non-2xx answer or an answer of the wrong shape.

    - [site_table]: the rows of [table#filta] as the browser renders them;
    - [browser_launch_error]: a failure before the download is attempted
      (creating the directory, launching the browser);
    - [browser_download]: the download saved to disk, as its size in bytes;
    - [ocr_webhook]: the parsed JSON body of the webhook's answer;
    - [openai_embeddings]: the vectors returned for the cleaned texts;
    - [supabase_select_error], [supabase_insert_error]: the error, if any,
      of executing a query; what a query that executes returns or writes is
      decided by the table in the world. *)
Record Env : Type := mkEnv {
  site_table : World -> result (list SiteRow);
  browser_launch_error : World -> option exn;
  browser_download : string -> World -> result nat;
  ocr_webhook : string -> World -> result json;
  openai_embeddings : list string -> World -> result (list vector);
  supabase_select_error : string -> string -> World -> option exn;
  supabase_insert_error : Row.t -> World -> option exn;
}.

(** ** The monad *)

Definition M (A : Type) : Type := World -> result A * World.

Definition ret {A} (a : A) : M A := fun w => (Ok a, w).

Definition raise {A} (e : exn) : M A := fun w => (Raise e, w).

Definition bind {A B} (m : M A) (f : A -> M B) : M B :=
  fun w =>
    match m w with
    | (Ok a, w') => f a w'
    | (Raise e, w') => (Raise e, w')
    end.

(** [try: m  except Exception as e: h e] *)
Definition try_except {A} (m : M A) (h : exn -> M A) : M A :=
  fun w =>
    match m w with
    | (Ok a, w') => (Ok a, w')
    | (Raise e, w') => h e w'
    end.

Definition lift {A} (r : result A) : M A := fun w => (r, w).

Definition ask {A} (f : World -> A) : M A := fun w => (Ok (f w), w).

Definition ask_result {A} (f : World -> result A) : M A := fun w => (f w, w).

Definition modify (f : World -> World) : M unit := fun w => (Ok tt, f w).

Declare Scope py_scope.
Delimit Scope py_scope with py.
Bind Scope py_scope with M.
Notation "x <- c1 ;; c2" := (bind c1 (fun x => c2))
  (at level 100, c1 at next level, right associativity) : py_scope.
Notation "c1 ;; c2" := (bind c1 (fun _ => c2))
  (at level 100, right associativity) : py_scope.

Local Open Scope py_scope.

Definition emit (ev : Event) : M unit :=
  modify (fun w => mkWorld (files w) (table w) (cron_status w) (clock w)
                           (trace w ++ [ev])).

(** [print(line)] *)
Definition print (line : string) : M unit := emit (Print line).

Definition set_files (f : gset string -> gset string) : M unit :=
  modify (fun w => mkWorld (f (files w)) (table w) (cron_status w) (clock w)
                           (trace w)).

Definition set_table (f : list Row.t -> list Row.t) : M unit :=
  modify (fun w => mkWorld (files w) (f (table w)) (cron_status w) (clock w)
                           (trace w)).

Definition set_cron_status (f : CronStatus.t -> CronStatus.t) : M unit :=
  modify (fun w => mkWorld (files w) (table w) (f (cron_status w)) (clock w)
                           (trace w)).

(** [datetime.now()] *)
Definition now : M nat := ask clock.

(** [await asyncio.sleep(seconds)] *)
Definition sleep (seconds : nat) : M unit :=
  emit (CallSleep seconds) ;;
  modify (fun w => mkWorld (files w) (table w) (cron_status w)
                           (clock w + seconds) (trace w)).

(** [path.unlink()]: raises when the file is not there. *)
Definition unlink (path : string) : M unit :=
  emit (CallUnlink path) ;;
  present <- ask (fun w => bool_decide (path ∈ files w)) ;;
  if present : bool then set_files (fun fs => fs ∖ {[ path ]})
  else raise (Exception ("FileNotFoundError: " ++ path)).

(** ** Configuration ([config.py]) *)

Definition DOWNLOAD_DIR : string := "temp_bnm_downloads".
Definition BATCH_EMBEDDING_SIZE : nat := 10.
Definition SITE_ORIGIN : string := "https://www.bnm.gov.my".

(** The literal [8000] of [embeddings.py]. *)
Definition MAX_TEXT_CHARS : nat := Z.to_nat 8000.

Section Pipeline.

Variable E : Env.

(** *** [services/scraper.py] *)

Definition announcement_of_row (tr : SiteRow) : Announcement.t :=
  let '(date, title, type, hrefs) := tr in
  Announcement.make date title type
    (map (fun href => if PyStr.startswith "http" href then href
                      else SITE_ORIGIN ++ href) hrefs).

(** The DataFrame is the list of its rows; [df.empty] is [df = []]. *)
Definition scrape_bnm_announcements : M (list Announcement.t) :=
  try_except
    (emit CallScrape ;;
     rows <- ask_result (site_table E) ;;
     ret (map announcement_of_row rows))
    (fun e =>
       print ("[ERROR] Scraping failed: " ++ str_of_exn e) ;;
       ret []).

(** *** [services/storage.py] *)

Definition row_matches (title date : string) (r : Row.t) : bool :=
  String.eqb (Row.title r) title && String.eqb (Row.date r) date.

(** [select("id").eq("title", title).eq("date", date).limit(1).execute()] *)
Definition supabase_select (title date : string) : M (list Row.t) :=
  err <- ask (supabase_select_error E title date) ;;
  match err with
  | Some e => raise e
  | None => ask (fun w => take 1 (List.filter (row_matches title date) (table w)))
  end.

Definition check_document_exists (title date : string) : M bool :=
  try_except
    (emit (CallExists title date) ;;
     data <- supabase_select title date ;;
     ret (0 <? length data)%nat)
    (fun _ => ret false).

(** [insert(data).execute()] *)
Definition supabase_insert (data : Row.t) : M unit :=
  emit (CallInsert data) ;;
  err <- ask (supabase_insert_error E data) ;;
  match err with
  | Some e => raise e
  | None => set_table (fun rows => (rows ++ [data])%list)
  end.

Section StoreDocumentPages.

Variables (date title doc_type pdf_url : string).
Variable pages_data : list PageData.t.
Variable ocr_data : json.

(** The body of the [try] inside the loop. *)
Definition store_page (page_data : PageData.t) (embedding : vector) : M unit :=
  scraped_at <- now ;;
  let source_metadata :=
    SourceMetadata.make date title doc_type "BNM Website - FastAPI Cron"
      "https://www.bnm.gov.my/banking-islamic-banking" scraped_at in
  let page_info := PageData.page_info page_data in
  model <- lift (Py.get ocr_data "model" (JStr "mistral-ocr")) ;;
  header <- lift (Py.get page_info "header" (JStr "")) ;;
  footer <- lift (Py.get page_info "footer" (JStr "")) ;;
  dimensions <- lift (Py.get page_info "dimensions" (JObj [])) ;;
  tables <- lift (Py.get page_info "tables" (JArr [])) ;;
  tables_count <- lift (Py.len tables) ;;
  images <- lift (Py.get page_info "images" (JArr [])) ;;
  images_count <- lift (Py.len images) ;;
  hyperlinks <- lift (Py.get page_info "hyperlinks" (JArr [])) ;;
  hyperlinks_count <- lift (Py.len hyperlinks) ;;
  processed_at <- now ;;
  let metadata :=
    Metadata.make date title doc_type (PageData.page_number page_data)
      (length pages_data) model header footer dimensions
      tables_count images_count hyperlinks_count processed_at in
  let data :=
    Row.make date title doc_type pdf_url (PageData.page_number page_data)
      (PageData.content page_data) (PageData.original_text page_data)
      source_metadata metadata embedding in
  supabase_insert data.

(** [for page_data, embedding in zip(pages_data, embeddings)], with
    [pages_stored] the counter so far. *)
Fixpoint store_loop (pairs : list (PageData.t * vector)) (pages_stored : nat)
  : M nat :=
  match pairs with
  | [] => ret pages_stored
  | (page_data, embedding) :: rest =>
      stored <-
        try_except
          (store_page page_data embedding ;;
           ret (S pages_stored))
          (fun e =>
             print ("[ERROR] Failed to store page "
                      ++ PyStr.of_Z (PageData.page_number page_data)
                      ++ ": " ++ str_of_exn e) ;;
             ret pages_stored) ;;
      store_loop rest stored
  end.

Definition store_document_pages (embeddings : list vector) : M nat :=
  store_loop (combine pages_data embeddings) 0.

End StoreDocumentPages.

(** *** [utils/pdf_handler.py] *)

(** [async with async_playwright() ... launch(...)] *)
Definition browser_launch : M unit :=
  err <- ask (browser_launch_error E) ;;
  match err with
  | Some e => raise e
  | None => ret tt
  end.

Definition download_pdf (url : string) : M (option string) :=
  try_except
    (emit (CallDownload url) ;;
     browser_launch ;;
     try_except
       (size <- ask_result (browser_download E url) ;;
        let filename := PyStr.last_segment url in
        let filename :=
          if PyStr.endswith ".pdf" filename then filename
          else filename ++ ".pdf" in
        let filepath := DOWNLOAD_DIR ++ "/" ++ filename in
        set_files (fun fs => {[ filepath ]} ∪ fs) ;;
        if (size <? 1000)%nat then
          unlink filepath ;;
          ret None
        else ret (Some filepath))
       (fun e =>
          print ("[ERROR] Download failed: " ++ str_of_exn e) ;;
          ret None))
    (fun e =>
       print ("[ERROR] PDF handler error: " ++ str_of_exn e) ;;
       ret None).

(** *** [services/ocr.py]

    Python's [None] is [JNull]. *)

Definition open_file (path : string) : M unit :=
  present <- ask (fun w => bool_decide (path ∈ files w)) ;;
  if present : bool then ret tt
  else raise (Exception ("FileNotFoundError: " ++ path)).

Definition extract_text_from_pdf (pdf_path : string) : M json :=
  try_except
    (emit (CallOcr pdf_path) ;;
     open_file pdf_path ;;
     ocr_data <- ask_result (ocr_webhook E pdf_path) ;;
     ret (match ocr_data with
          | JArr (first :: _) => first
          | _ => ocr_data
          end))
    (fun e =>
       print ("[ERROR] OCR extraction failed: " ++ str_of_exn e) ;;
       ret JNull).

(** *** [services/embeddings.py] *)

Definition clean_text (text : string) : string :=
  let cleaned := PyStr.strip (PyStr.replace newline space text) in
  if (MAX_TEXT_CHARS <? PyStr.len cleaned)%nat
  then PyStr.slice_to MAX_TEXT_CHARS cleaned
  else cleaned.

Definition generate_embeddings_batch (texts : list string) : M (list vector) :=
  emit (CallEmbed texts) ;;
  let cleaned_texts := map clean_text texts in
  ask_result (openai_embeddings E cleaned_texts).

(** [response.data[0].embedding] raises [IndexError] on an empty answer. *)
Definition generate_embedding_single (text : string) : M vector :=
  emit (CallEmbed [text]) ;;
  let text := clean_text text in
  data <- ask_result (openai_embeddings E [text]) ;;
  match data with
  | first :: _ => ret first
  | [] => raise (Exception "IndexError: list index out of range")
  end.

(** *** [api/routes/bnm_cron.py] *)

(** The body of [for page in pages]: [None] is [continue], [Some d] is
    the dictionary appended to [page_data_list]. *)
Definition page_entry (ocr_data page : json) : result (option PageData.t) :=
  match Py.get page "index" (JNum 0) with
  | Raise e => Raise e
  | Ok index =>
  match Py.add index 1 with
  | Raise e => Raise e
  | Ok page_number =>
  match Py.get page "markdown" (JStr "") with
  | Raise e => Raise e
  | Ok markdown_content =>
      if negb (Py.truthy markdown_content) then Ok None
      else
        match markdown_content with
        | JStr s =>
            if (PyStr.len (PyStr.strip s) <? 50)%nat then Ok None
            else
              match Py.get ocr_data "extractedText" (JStr "") with
              | Raise e => Raise e
              | Ok original_text =>
                  Ok (Some (PageData.make page_number s original_text page))
              end
        | _ => Raise (Exception "AttributeError: object has no attribute 'strip'")
        end
  end end end.

Fixpoint page_loop (ocr_data : json) (pages : list json)
    (page_data_list : list PageData.t) : result (list PageData.t) :=
  match pages with
  | [] => Ok page_data_list
  | page :: rest =>
      match page_entry ocr_data page with
      | Raise e => Raise e
      | Ok None => page_loop ocr_data rest page_data_list
      | Ok (Some d) => page_loop ocr_data rest (page_data_list ++ [d])%list
      end
  end.

(** [range(0, n, step)] *)
Definition py_range (n step : nat) : list nat :=
  map (fun k => k * step) (seq 0 ((n + step - 1) / step)).

(** [for i in range(0, len(page_data_list), BATCH_EMBEDDING_SIZE)], over
    the start indices still to visit. *)
Fixpoint embed_loop (page_data_list : list PageData.t) (starts : list nat)
    (all_embeddings : list vector) : M (list vector) :=
  match starts with
  | [] => ret all_embeddings
  | i :: rest =>
      let batch := take BATCH_EMBEDDING_SIZE (drop i page_data_list) in
      let texts := map PageData.content batch in
      embeddings <- generate_embeddings_batch texts ;;
      embed_loop page_data_list rest (all_embeddings ++ embeddings)%list
  end.

Definition process_new_document (date title doc_type pdf_url : string)
  : M bool :=
  try_except
    (pdf_path <- download_pdf pdf_url ;;
     match pdf_path with
     | None => ret false
     | Some pdf_path =>
         ocr_data <- extract_text_from_pdf pdf_path ;;
         if negb (Py.truthy ocr_data) then
           unlink pdf_path ;;
           ret false
         else
           pages <- lift (Py.get ocr_data "pages" (JArr [])) ;;
           items <- lift (Py.iter pages) ;;
           page_data_list <- lift (page_loop ocr_data items []) ;;
           match page_data_list with
           | [] =>
               unlink pdf_path ;;
               ret false
           | _ =>
               all_embeddings <-
                 embed_loop page_data_list
                   (py_range (length page_data_list) BATCH_EMBEDDING_SIZE) [] ;;
               pages_stored <-
                 store_document_pages date title doc_type pdf_url
                   page_data_list ocr_data all_embeddings ;;
               unlink pdf_path ;;
               ret (0 <? pages_stored)%nat
           end
     end)
    (fun e =>
       print ("[ERROR] Processing failed: " ++ str_of_exn e) ;;
       ret false).

Definition bump_new_documents (st : CronStatus.t) : CronStatus.t :=
  CronStatus.make (CronStatus.last_run st) (CronStatus.status st)
    (CronStatus.new_documents st + 1) (CronStatus.processed st)
    (CronStatus.failed st) (CronStatus.message st).

Definition bump_processed (st : CronStatus.t) : CronStatus.t :=
  CronStatus.make (CronStatus.last_run st) (CronStatus.status st)
    (CronStatus.new_documents st) (CronStatus.processed st + 1)
    (CronStatus.failed st) (CronStatus.message st).

Definition bump_failed (st : CronStatus.t) : CronStatus.t :=
  CronStatus.make (CronStatus.last_run st) (CronStatus.status st)
    (CronStatus.new_documents st) (CronStatus.processed st)
    (CronStatus.failed st + 1) (CronStatus.message st).

Definition finish (status message : string) (st : CronStatus.t) : CronStatus.t :=
  CronStatus.make (CronStatus.last_run st) status
    (CronStatus.new_documents st) (CronStatus.processed st)
    (CronStatus.failed st) message.

(** The body of [for idx, row in df.iterrows()]. *)
Definition discover (row : Announcement.t) (new_docs : list WorkItem)
  : M (list WorkItem) :=
  let date := Announcement.date row in
  let title := Announcement.title row in
  let doc_type := Announcement.type row in
  let links := Announcement.links row in
  found <- check_document_exists title date ;;
  if found : bool then ret new_docs
  else
    set_cron_status bump_new_documents ;;
    let pdf_links := List.filter (PyStr.endswith ".pdf") links in
    ret (new_docs
           ++ map (fun pdf_url => (date, title, doc_type, pdf_url)) pdf_links)%list.

Fixpoint discover_loop (df : list Announcement.t) (new_docs : list WorkItem)
  : M (list WorkItem) :=
  match df with
  | [] => ret new_docs
  | row :: rest =>
      new_docs <- discover row new_docs ;;
      discover_loop rest new_docs
  end.

(** The body of [for date, title, doc_type, pdf_url in new_docs]. *)
Definition process_item (item : WorkItem) : M unit :=
  let '(date, title, doc_type, pdf_url) := item in
  try_except
    (success <- process_new_document date title doc_type pdf_url ;;
     (if success : bool then set_cron_status bump_processed
      else set_cron_status bump_failed) ;;
     sleep 2)
    (fun e =>
       print ("[ERROR] " ++ str_of_exn e) ;;
       set_cron_status bump_failed).

Fixpoint process_loop (new_docs : list WorkItem) : M unit :=
  match new_docs with
  | [] => ret tt
  | item :: rest => process_item item ;; process_loop rest
  end.

Definition summary (st : CronStatus.t) : string :=
  "Processed " ++ PyStr.of_nat (CronStatus.processed st)
    ++ " new documents, " ++ PyStr.of_nat (CronStatus.failed st) ++ " failed".

Definition run_daily_scrape : M unit :=
  started <- now ;;
  set_cron_status (fun st =>
    CronStatus.make (Some started) "running" 0 0 0 (CronStatus.message st)) ;;
  try_except
    (df <- scrape_bnm_announcements ;;
     match df with
     | [] =>
         set_cron_status (finish "completed" "No data scraped from BNM website")
     | _ =>
         new_docs <- discover_loop df [] ;;
         process_loop new_docs ;;
         set_cron_status (fun st => finish "completed" (summary st) st)
     end)
    (fun e =>
       set_cron_status (finish "error" ("Error: " ++ str_of_exn e))).

(** A background task: a function queued to run after the response is
    sent. *)
Inductive Task : Type := Task_run_daily_scrape.

Record CronResponse : Type := mkCronResponse {
  response_status : string;
  response_message : string;
  job_id : option nat;
}.

(** [background_tasks] is the caller's queue; the function returns it as
    it leaves it.  Raising 409 is the first component being [Raise]. *)
Definition trigger_bnm_scrape (background_tasks : list Task) (w : World)
  : result CronResponse * list Task * World :=
  if String.eqb (CronStatus.status (cron_status w)) "running" then
    (Raise (HTTPException 409 "Cron job already running"), background_tasks, w)
  else
    (Ok (mkCronResponse "started" "BNM scraping job started in background"
           (Some (clock w))),
     (background_tasks ++ [Task_run_daily_scrape])%list, w).

Definition get_cron_status : M CronStatus.t := ask cron_status.

End Pipeline.

(** ** The standalone service ([backend_bnm_cron.py])

    The one-file copy of the service.  Its scraper, existence check
    ([check_if_exists]) and embedding function ([get_embeddings_batch]) have
    the bodies of [scrape_bnm_announcements], [check_document_exists] and
    [generate_embeddings_batch]; its downloader and OCR step catch with a
    bare [except] and print nothing; its processor stores the pages itself
    and returns [True] once it has been through them. *)

Module Standalone.

Section Cron.

Variable E : Env.

Definition BNM_URL : string := "https://www.bnm.gov.my/banking-islamic-banking".

Definition download_pdf (url : string) : M (option string) :=
  try_except
    (emit (CallDownload url) ;;
     browser_launch E ;;
     try_except
       (size <- ask_result (browser_download E url) ;;
        let filename := PyStr.last_segment url in
        let filename :=
          if PyStr.endswith ".pdf" filename then filename
          else filename ++ ".pdf" in
        let filepath := DOWNLOAD_DIR ++ "/" ++ filename in
        set_files (fun fs => {[ filepath ]} ∪ fs) ;;
        if (size <? 1000)%nat then
          unlink filepath ;;
          ret None
        else ret (Some filepath))
       (fun _ => ret None))
    (fun _ => ret None).

Definition extract_text_from_pdf (pdf_path : string) : M json :=
  try_except
    (emit (CallOcr pdf_path) ;;
     open_file pdf_path ;;
     ocr_data <- ask_result (ocr_webhook E pdf_path) ;;
     ret (match ocr_data with
          | JArr (first :: _) => first
          | _ => ocr_data
          end))
    (fun _ => ret JNull).

Definition get_embeddings_batch (texts : list string) : M (list vector) :=
  generate_embeddings_batch E texts.

(** The body of the [try] inside the storing loop; [pages] is
    [ocr_data.get('pages', [])]. *)
Definition store_page (date title doc_type pdf_url : string)
    (pages ocr_data : json) (page_data : PageData.t) (embedding : vector)
  : M unit :=
  scraped_at <- now ;;
  let source_metadata :=
    SourceMetadata.make date title doc_type "BNM Website - Daily Cron"
      BNM_URL scraped_at in
  let page_info := PageData.page_info page_data in
  total_pages <- lift (Py.len pages) ;;
  model <- lift (Py.get ocr_data "model" (JStr "mistral-ocr")) ;;
  header <- lift (Py.get page_info "header" (JStr "")) ;;
  footer <- lift (Py.get page_info "footer" (JStr "")) ;;
  dimensions <- lift (Py.get page_info "dimensions" (JObj [])) ;;
  tables <- lift (Py.get page_info "tables" (JArr [])) ;;
  tables_count <- lift (Py.len tables) ;;
  images <- lift (Py.get page_info "images" (JArr [])) ;;
  images_count <- lift (Py.len images) ;;
  hyperlinks <- lift (Py.get page_info "hyperlinks" (JArr [])) ;;
  hyperlinks_count <- lift (Py.len hyperlinks) ;;
  processed_at <- now ;;
  let metadata :=
    Metadata.make date title doc_type (PageData.page_number page_data)
      total_pages model header footer dimensions
      tables_count images_count hyperlinks_count processed_at in
  let data :=
    Row.make date title doc_type pdf_url (PageData.page_number page_data)
      (PageData.content page_data) (PageData.original_text page_data)
      source_metadata metadata embedding in
  supabase_insert E data.

(** [for page_data, embedding in zip(page_data_list, all_embeddings)] *)
Fixpoint store_loop (date title doc_type pdf_url : string)
    (pages ocr_data : json) (pairs : list (PageData.t * vector)) : M unit :=
  match pairs with
  | [] => ret tt
  | (page_data, embedding) :: rest =>
      try_except
        (store_page date title doc_type pdf_url pages ocr_data
           page_data embedding)
        (fun e => print ("[ERROR] Failed to store page: " ++ str_of_exn e)) ;;
      store_loop date title doc_type pdf_url pages ocr_data rest
  end.

Definition process_new_document (date title doc_type pdf_url : string)
  : M bool :=
  try_except
    (pdf_path <- download_pdf pdf_url ;;
     match pdf_path with
     | None => ret false
     | Some pdf_path =>
         ocr_data <- extract_text_from_pdf pdf_path ;;
         if negb (Py.truthy ocr_data) then
           unlink pdf_path ;;
           ret false
         else
           pages <- lift (Py.get ocr_data "pages" (JArr [])) ;;
           items <- lift (Py.iter pages) ;;
           page_data_list <- lift (page_loop ocr_data items []) ;;
           match page_data_list with
           | [] =>
               unlink pdf_path ;;
               ret false
           | _ =>
               let batch_size := 10 in
               all_embeddings <-
                 embed_loop E page_data_list
                   (py_range (length page_data_list) batch_size) [] ;;
               store_loop date title doc_type pdf_url pages ocr_data
                 (combine page_data_list all_embeddings) ;;
               unlink pdf_path ;;
               ret true
           end
     end)
    (fun e =>
       print ("[ERROR] Processing failed: " ++ str_of_exn e) ;;
       ret false).

End Cron.

End Standalone.

(** ** Reading the log *)

Definition inserts (tr : list Event) : list Row.t :=
  omap (fun ev => match ev with CallInsert r => Some r | _ => None end) tr.

Definition embed_calls (tr : list Event) : list (list string) :=
  omap (fun ev => match ev with CallEmbed ts => Some ts | _ => None end) tr.

Definition unlinks (tr : list Event) : list string :=
  omap (fun ev => match ev with CallUnlink p => Some p | _ => None end) tr.

Definition downloads (tr : list Event) : list string :=
  omap (fun ev => match ev with CallDownload u => Some u | _ => None end) tr.

Definition exists_calls (tr : list Event) : list (string * string) :=
  omap (fun ev => match ev with CallExists t d => Some (t, d) | _ => None end) tr.

Definition prints (tr : list Event) : list string :=
  omap (fun ev => match ev with Print l => Some l | _ => None end) tr.

(** A row built from page [p] and vector [v]. *)
Definition row_of (p : PageData.t) (v : vector) (r : Row.t) : Prop :=
  Row.page_number r = PageData.page_number p
  /\ Row.content r = PageData.content p
  /\ Row.original_text r = PageData.original_text p
  /\ Row.embedding r = v.

(** A page object that passes the content filter of [process_new_document]. *)
Definition passes_filter (page : json) : bool :=
  match Py.get page "markdown" (JStr "") with
  | Ok (JStr s) => negb (String.eqb s "") && (50 <=? PyStr.len (PyStr.strip s))%nat
  | _ => false
  end.

(** The path [download_pdf] saves the download of [url] to. *)
Definition download_path (url : string) : string :=
  let filename := PyStr.last_segment url in
  let filename :=
    if PyStr.endswith ".pdf" filename then filename else filename ++ ".pdf" in
  DOWNLOAD_DIR ++ "/" ++ filename.

(** A row that carries the identity [store_document_pages] was called
    with, for a document of [total] retained pages. *)
Definition row_stamped (date title doc_type pdf_url : string) (total : nat)
    (r : Row.t) : Prop :=
  Row.date r = date /\ Row.title r = title /\ Row.type r = doc_type
  /\ Row.pdf_url r = pdf_url
  /\ Metadata.date (Row.metadata r) = date
  /\ Metadata.title (Row.metadata r) = title
  /\ Metadata.type (Row.metadata r) = doc_type
  /\ Metadata.page_number (Row.metadata r) = Row.page_number r
  /\ Metadata.total_pages (Row.metadata r) = total
  /\ SourceMetadata.scraped_date (Row.source_metadata r) = date
  /\ SourceMetadata.scraped_title (Row.source_metadata r) = title
  /\ SourceMetadata.scraped_type (Row.source_metadata r) = doc_type
  /\ SourceMetadata.source (Row.source_metadata r) = "BNM Website - FastAPI Cron".

(** The state [run_daily_scrape] starts its work in: the status says
    [running], the counters are reset. *)
Definition run_started (w : World) : World :=
  mkWorld (files w) (table w)
    (CronStatus.make (Some (clock w)) "running" 0 0 0
       (CronStatus.message (cron_status w)))
    (clock w) (trace w).

(** The download directory, the payload of [url] left aside. *)
Definition other_files (url : string) (w : World) : gset string :=
  files w ∖ {[ download_path url ]}.

(** The world after the embedding endpoint has been called with [calls],
    one after the other: the calls are logged and nothing else changes. *)
Definition after_embed_calls (w : World) (calls : list (list string)) : World :=
  mkWorld (files w) (table w) (cron_status w) (clock w)
    (trace w ++ map CallEmbed calls).

(** The work items of an announcement: one per link ending in [.pdf],
    in the order of the links. *)
Definition work_items (a : Announcement.t) : list WorkItem :=
  map (fun pdf_url =>
         (Announcement.date a, Announcement.title a, Announcement.type a,
          pdf_url))
      (List.filter (PyStr.endswith ".pdf") (Announcement.links a)).

(** The announcements of [df] for which the existence check answered
    [False], [founds] being its answers in the order of [df]. *)
Definition reported_new (df : list Announcement.t) (founds : list bool)
  : list Announcement.t :=
  map fst (List.filter (fun af => negb (snd af)) (combine df founds)).

(** The [markdown] of a page object; the empty string when there is none
    or it is not a string. *)
Definition markdown_of (page : json) : string :=
  match Py.get page "markdown" (JStr "") with
  | Ok (JStr s) => s
  | _ => ""
  end.

(** A page object as the OCR collaborator describes it: a dict whose
    [index], when present, is a number and whose [markdown], when present,
    is a string (or a falsy value such as [null]). *)
Definition page_well_formed (page : json) : bool :=
  match page with
  | JObj fields =>
      match default (JNum 0) (Py.assoc "index" fields) with
      | JNum _ | JBool _ =>
          match default (JStr "") (Py.assoc "markdown" fields) with
          | JStr _ => true
          | markdown => negb (Py.truthy markdown)
          end
      | _ => false
      end
  | _ => false
  end.

(** ** Scenarios

    Concrete collaborators and worlds the properties are tried on. *)

Module Scenario.

(** The service just started: nothing downloaded, nothing stored. *)
Definition world0 : World := mkWorld ∅ [] cron_status_init 0 [].

(** A page object whose markdown is [chars] letters. *)
Definition page (index : Z) (chars : nat) : json :=
  JObj [("index", JNum index);
        ("markdown", JStr (PyStr.repeat "a"%char chars))].

Definition ocr_answer (pages : list json) : json :=
  JArr [JObj [("pages", JArr pages);
              ("extractedText", JStr "full text");
              ("model", JStr "mistral-ocr-latest")]].

(** Three pages, the middle one a character short of the filter. *)
Definition pages_filtered : list json := [page 0 60; page 1 49; page 2 50].

(** Three pages that all pass the filter. *)
Definition pages_kept : list json := [page 0 60; page 1 70; page 2 50].

(** One announcement with two PDF links and a link that is not a PDF. *)
Definition two_pdfs : list SiteRow :=
  [("01 Jan 2025", "Policy A", "Policy Document",
    ["/docs/one.pdf"; "https://www.bnm.gov.my/docs/two.pdf"; "/docs/page.html"])].

(** One announcement with a single PDF link. *)
Definition one_pdf : list SiteRow :=
  [("02 Jan 2025", "Policy B", "Policy Document", ["/docs/b.pdf"])].


(** An embedding endpoint that answers one vector per text, in order. *)
Definition embed_each (texts : list string) : list vector :=
  map (fun text => [Z.of_nat (PyStr.len text)]) texts.

(** Every collaborator answers. *)
Definition healthy (site : list SiteRow) (pages : list json) : Env :=
  mkEnv (fun _ => Ok site) (fun _ => None) (fun _ _ => Ok 2048)
        (fun _ _ => Ok (ocr_answer pages))
        (fun texts _ => Ok (embed_each texts))
        (fun _ _ _ => None) (fun _ _ => None).

(** As [healthy], but the embedding endpoint cannot be reached. *)
Definition openai_down (site : list SiteRow) (pages : list json) : Env :=
  mkEnv (fun _ => Ok site) (fun _ => None) (fun _ _ => Ok 2048)
        (fun _ _ => Ok (ocr_answer pages))
        (fun _ _ => Raise (Exception "APIConnectionError"))
        (fun _ _ _ => None) (fun _ _ => None).

(** As [healthy], but only the insert of page 2 goes through. *)
Definition flaky_store (site : list SiteRow) (pages : list json) : Env :=
  mkEnv (fun _ => Ok site) (fun _ => None) (fun _ _ => Ok 2048)
        (fun _ _ => Ok (ocr_answer pages))
        (fun texts _ => Ok (embed_each texts))
        (fun _ _ _ => None)
        (fun row _ => if (Row.page_number row =? 2)%Z then None
                      else Some (Exception "APIError: insert failed")).

(** As [healthy], but the browser cannot fetch the file. *)
Definition browser_down (site : list SiteRow) (pages : list json) : Env :=
  mkEnv (fun _ => Ok site) (fun _ => None)
        (fun _ _ => Raise (Exception "TimeoutError"))
        (fun _ _ => Ok (ocr_answer pages))
        (fun texts _ => Ok (embed_each texts))
        (fun _ _ _ => None) (fun _ _ => None).

(** As [healthy], but the OCR webhook cannot be reached. *)
Definition ocr_down (site : list SiteRow) : Env :=
  mkEnv (fun _ => Ok site) (fun _ => None) (fun _ _ => Ok 2048)
        (fun _ _ => Raise (Exception "ConnectionError"))
        (fun texts _ => Ok (embed_each texts))
        (fun _ _ _ => None) (fun _ _ => None).

(** As [healthy], but the announcement page cannot be scraped. *)
Definition site_down : Env :=
  mkEnv (fun _ => Raise (Exception "TimeoutError")) (fun _ => None)
        (fun _ _ => Ok 2048)
        (fun _ _ => Ok (ocr_answer pages_kept))
        (fun texts _ => Ok (embed_each texts))
        (fun _ _ _ => None) (fun _ _ => None).

(** As [healthy], but no insert goes through. *)
Definition store_down (site : list SiteRow) (pages : list json) : Env :=
  mkEnv (fun _ => Ok site) (fun _ => None) (fun _ _ => Ok 2048)
        (fun _ _ => Ok (ocr_answer pages))
        (fun texts _ => Ok (embed_each texts))
        (fun _ _ _ => None)
        (fun _ _ => Some (Exception "APIError: insert failed")).

End Scenario.

(** * Properties *)

(** ** Reasoning about monadic code *)

(** [m] never raises. *)
Definition no_raise {A} (m : M A) : Prop :=
  forall w, exists a, fst (m w) = Ok a.

(** [m] leaves the part [f] of the world as it found it. *)
Definition keeps {A X} (f : World -> X) (m : M A) : Prop :=
  forall w, f (snd (m w)) = f w.

(** [m] changes the part [f] of the world by [g]. *)
Definition effect {A X} (f : World -> X) (g : X -> X) (m : M A) : Prop :=
  forall w, f (snd (m w)) = g (f w).

Section MonadLaws.

Context {A B X : Type} (f : World -> X).

Lemma keeps_ret (a : A) : keeps f (ret a).
Proof. intros w. reflexivity. Qed.

Lemma keeps_raise (e : exn) : keeps f (@raise A e).
Proof. intros w. reflexivity. Qed.

Lemma keeps_lift (r : result A) : keeps f (lift r).
Proof. intros w. reflexivity. Qed.

Lemma keeps_ask (g : World -> A) : keeps f (ask g).
Proof. intros w. reflexivity. Qed.

Lemma keeps_ask_result (g : World -> result A) : keeps f (ask_result g).
Proof. intros w. reflexivity. Qed.

Lemma keeps_bind (m : M A) (k : A -> M B) :
  keeps f m -> (forall a, keeps f (k a)) -> keeps f (bind m k).
Proof.
  intros Hm Hk w. unfold bind. specialize (Hm w).
  destruct (m w) as [[a|e] w1]; simpl in *.
  - rewrite Hk. exact Hm.
  - exact Hm.
Qed.

Lemma keeps_try (m : M A) (h : exn -> M A) :
  keeps f m -> (forall e, keeps f (h e)) -> keeps f (try_except m h).
Proof.
  intros Hm Hh w. unfold try_except. specialize (Hm w).
  destruct (m w) as [[a|e] w1]; simpl in *.
  - exact Hm.
  - rewrite Hh. exact Hm.
Qed.

Lemma no_raise_ret (a : A) : no_raise (ret a).
Proof. intros w. exists a. reflexivity. Qed.

Lemma no_raise_try (m : M A) (h : exn -> M A) :
  (forall e, no_raise (h e)) -> no_raise (try_except m h).
Proof.
  intros Hh w. unfold try_except.
  destruct (m w) as [[a|e] w1].
  - exists a. reflexivity.
  - apply Hh.
Qed.

Lemma no_raise_bind (m : M A) (k : A -> M B) :
  no_raise m -> (forall a, no_raise (k a)) -> no_raise (bind m k).
Proof.
  intros Hm Hk w. unfold bind. destruct (Hm w) as [a Ha].
  destruct (m w) as [[a'|e] w1]; simpl in Ha; [|discriminate].
  apply Hk.
Qed.

End MonadLaws.

Lemma no_raise_modify (g : World -> World) : no_raise (modify g).
Proof. intros w. exists tt. reflexivity. Qed.

Lemma no_raise_ask {A} (g : World -> A) : no_raise (ask g).
Proof. intros w. exists (g w). reflexivity. Qed.

Lemma no_raise_emit (ev : Event) : no_raise (emit ev).
Proof. apply no_raise_modify. Qed.

(** Running a bind, one step at a time. *)
Lemma bind_ok {A B} (m : M A) (k : A -> M B) w a w1 :
  m w = (Ok a, w1) -> bind m k w = k a w1.
Proof. intros H. unfold bind. rewrite H. reflexivity. Qed.

Lemma bind_raise {A B} (m : M A) (k : A -> M B) w e w1 :
  m w = (Raise e, w1) -> bind m k w = (Raise e, w1).
Proof. intros H. unfold bind. rewrite H. reflexivity. Qed.

(** The projections the pipeline's parts are framed by. *)
Lemma keeps_emit_files ev : keeps files (emit ev).
Proof. intros w. reflexivity. Qed.

Lemma keeps_emit_table ev : keeps table (emit ev).
Proof. intros w. reflexivity. Qed.

Lemma keeps_emit_status ev : keeps cron_status (emit ev).
Proof. intros w. reflexivity. Qed.

Lemma keeps_set_files_table g : keeps table (set_files g).
Proof. intros w. reflexivity. Qed.

Lemma keeps_set_files_status g : keeps cron_status (set_files g).
Proof. intros w. reflexivity. Qed.

Lemma keeps_set_table_files g : keeps files (set_table g).
Proof. intros w. reflexivity. Qed.

Lemma keeps_set_table_status g : keeps cron_status (set_table g).
Proof. intros w. reflexivity. Qed.

Lemma keeps_set_status_files g : keeps files (set_cron_status g).
Proof. intros w. reflexivity. Qed.

Lemma keeps_set_status_table g : keeps table (set_cron_status g).
Proof. intros w. reflexivity. Qed.

Create HintDb frame discriminated.

#[export] Hint Resolve keeps_emit_files keeps_emit_table keeps_emit_status
  keeps_set_files_table keeps_set_files_status keeps_set_table_files
  keeps_set_table_status keeps_set_status_files keeps_set_status_table : frame.

(** Walks down a monadic term, splitting binds and handlers and casing on
    the scrutinee of a branch. *)
Ltac frame_step :=
  lazymatch goal with
  | |- keeps _ (bind _ _) => apply keeps_bind; [ | intros ? ]
  | |- keeps _ (try_except _ _) => apply keeps_try; [ | intros ? ]
  | |- keeps _ (ret _) => apply keeps_ret
  | |- keeps _ (raise _) => apply keeps_raise
  | |- keeps _ (lift _) => apply keeps_lift
  | |- keeps _ (ask _) => apply keeps_ask
  | |- keeps _ (ask_result _) => apply keeps_ask_result
  | |- keeps _ (if ?b then _ else _) => destruct b
  | |- keeps _ (match ?x with _ => _ end) => destruct x
  | |- keeps _ (let _ := _ in _) => cbv zeta
  end.

Ltac frame := repeat first [ frame_step | solve [ eauto with frame ] ].

Local Open Scope nat_scope.
Local Open Scope list_scope.

(** ** The trigger *)

(** C4. Triggered while [cron_status["status"] == "running"], the endpoint
    raises HTTP 409, queues no task and leaves every field of [cron_status]
    (and the rest of the world) as it was; triggered in any other status it
    queues [run_daily_scrape] and answers with status "started", a job
    identifier and a message. *)
Theorem trigger_gate (background_tasks : list Task) (w : World) :
  (CronStatus.status (cron_status w) = "running"%string ->
     trigger_bnm_scrape background_tasks w
     = (Raise (HTTPException 409 "Cron job already running"),
        background_tasks, w))
  /\ (CronStatus.status (cron_status w) <> "running"%string ->
        exists job message,
          trigger_bnm_scrape background_tasks w
          = (Ok (mkCronResponse "started" message (Some job)),
             background_tasks ++ [Task_run_daily_scrape], w)).
Proof.
  unfold trigger_bnm_scrape. split.
  - intros ->. reflexivity.
  - intros H. apply String.eqb_neq in H. rewrite H. eauto.
Qed.

(** ** The existence check *)

Lemma length_take_1_filter {A} (p : A -> bool) (l : list A) :
  (0 <? length (take 1 (List.filter p l))) = existsb p l.
Proof.
  induction l as [|a l IH]; [reflexivity|].
  simpl. destruct (p a); simpl; [reflexivity|exact IH].
Qed.

Lemma check_document_exists_run (E : Env) (title date : string) (w : World) :
  let w1 := snd (emit (CallExists title date) w) in
  check_document_exists E title date w
  = (Ok (match supabase_select_error E title date w1 with
         | Some _ => false
         | None => existsb (row_matches title date) (table w)
         end), w1).
Proof.
  unfold check_document_exists, supabase_select, try_except, bind, ask, emit,
    modify, raise, ret.
  cbn [fst snd].
  match goal with |- context [supabase_select_error E title date ?x] =>
    destruct (supabase_select_error E title date x) end.
  - reflexivity.
  - cbn [table]. rewrite length_take_1_filter. reflexivity.
Qed.

Lemma row_matches_spec (title date : string) (r : Row.t) :
  row_matches title date r = true <-> Row.title r = title /\ Row.date r = date.
Proof.
  unfold row_matches. rewrite andb_true_iff, !String.eqb_eq. reflexivity.
Qed.

(** C5. [check_document_exists] never raises.  When the query raises it
    returns [False]; when the query answers it returns [True] exactly when
    the table holds a row with that title and that date. *)
Theorem exists_fail_open (E : Env) (title date : string) (w : World) :
  exists b,
    fst (check_document_exists E title date w) = Ok b
    /\ (forall e,
          supabase_select_error E title date
            (snd (emit (CallExists title date) w)) = Some e ->
          b = false)
    /\ (supabase_select_error E title date
          (snd (emit (CallExists title date) w)) = None ->
        (b = true <->
         exists r, In r (table w) /\ Row.title r = title /\ Row.date r = date)).
Proof.
  rewrite check_document_exists_run. cbn [fst].
  eexists. split; [reflexivity|]. split.
  - intros e ->. reflexivity.
  - intros ->. rewrite existsb_exists.
    split; intros [r [Hin Hr]]; exists r; split; auto;
      [apply row_matches_spec in Hr | apply row_matches_spec]; exact Hr.
Qed.

(** ** Frames: what each component leaves alone *)

Lemma omap_snoc {A B} (f : A -> option B) (l : list A) (a : A) :
  omap f (l ++ [a]) = omap f l ++ match f a with Some b => [b] | None => [] end.
Proof. rewrite omap_app. simpl. destruct (f a); reflexivity. Qed.

(** An event of another kind does not show in an observer of the log. *)
Ltac frame_prim :=
  solve [ intros ?; reflexivity
        | intros ?; cbn [snd emit modify trace];
          unfold downloads, inserts, embed_calls, unlinks, exists_calls, prints;
          rewrite omap_snoc; cbn; rewrite ?app_nil_r; reflexivity ].

Ltac frames := repeat first [ frame_step | solve [ eauto with frame ] | frame_prim ].

Section Frames.

Variable E : Env.

Lemma keeps_unlink_table p : keeps table (unlink p).
Proof. unfold unlink. frames. Qed.

Lemma keeps_unlink_status p : keeps cron_status (unlink p).
Proof. unfold unlink. frames. Qed.

Lemma keeps_unlink_downloads p : keeps (fun w => downloads (trace w)) (unlink p).
Proof. unfold unlink, set_files. frames. Qed.

Lemma keeps_sleep_table n : keeps table (sleep n).
Proof. unfold sleep. frames. Qed.

Lemma keeps_sleep_status n : keeps cron_status (sleep n).
Proof. unfold sleep. frames. Qed.

Lemma keeps_sleep_downloads n : keeps (fun w => downloads (trace w)) (sleep n).
Proof. unfold sleep. frames. Qed.

Lemma keeps_scrape_table : keeps table (scrape_bnm_announcements E).
Proof. unfold scrape_bnm_announcements, print. frames. Qed.

Lemma keeps_scrape_status : keeps cron_status (scrape_bnm_announcements E).
Proof. unfold scrape_bnm_announcements, print. frames. Qed.

Lemma keeps_exists_table t d : keeps table (check_document_exists E t d).
Proof. unfold check_document_exists, supabase_select. frames. Qed.

Lemma keeps_exists_status t d : keeps cron_status (check_document_exists E t d).
Proof. unfold check_document_exists, supabase_select. frames. Qed.

Lemma keeps_download_table url : keeps table (download_pdf E url).
Proof.
  unfold download_pdf, browser_launch, print. frames.
  apply keeps_unlink_table.
Qed.

Lemma keeps_download_status url : keeps cron_status (download_pdf E url).
Proof.
  unfold download_pdf, browser_launch, print. frames.
  apply keeps_unlink_status.
Qed.

Lemma keeps_extract_table p : keeps table (extract_text_from_pdf E p).
Proof. unfold extract_text_from_pdf, open_file, print. frames. Qed.

Lemma keeps_extract_files p : keeps files (extract_text_from_pdf E p).
Proof. unfold extract_text_from_pdf, open_file, print. frames. Qed.

Lemma keeps_extract_status p : keeps cron_status (extract_text_from_pdf E p).
Proof. unfold extract_text_from_pdf, open_file, print. frames. Qed.

Lemma keeps_extract_downloads p :
  keeps (fun w => downloads (trace w)) (extract_text_from_pdf E p).
Proof. unfold extract_text_from_pdf, open_file, print. frames. Qed.

Lemma keeps_embed_batch {X} (f : World -> X) texts :
  (forall ev, keeps f (emit ev)) -> keeps f (generate_embeddings_batch E texts).
Proof. intros H. unfold generate_embeddings_batch. frames. Qed.

End Frames.

Section Loops.

Variable E : Env.

Lemma keeps_embed_loop {X} (f : World -> X) pdl starts acc :
  (forall ev, keeps f (emit ev)) -> keeps f (embed_loop E pdl starts acc).
Proof.
  intros H. revert acc.
  induction starts as [|i rest IH]; intros acc; simpl.
  - apply keeps_ret.
  - apply keeps_bind; [apply keeps_embed_batch, H | intros a; apply IH].
Qed.

Lemma keeps_store_page_files d t ty u pd ocr p v :
  keeps files (store_page E d t ty u pd ocr p v).
Proof. unfold store_page, supabase_insert, now. frames. Qed.

Lemma keeps_store_page_status d t ty u pd ocr p v :
  keeps cron_status (store_page E d t ty u pd ocr p v).
Proof. unfold store_page, supabase_insert, now. frames. Qed.

Lemma keeps_store_page_downloads d t ty u pd ocr p v :
  keeps (fun w => downloads (trace w)) (store_page E d t ty u pd ocr p v).
Proof. unfold store_page, supabase_insert, now, set_table. frames. Qed.

Lemma keeps_store_loop {X} (f : World -> X) d t ty u pd ocr pairs n :
  (forall p v, keeps f (store_page E d t ty u pd ocr p v)) ->
  (forall line, keeps f (print line)) ->
  keeps f (store_loop E d t ty u pd ocr pairs n).
Proof.
  intros Hp Hpr. revert n.
  induction pairs as [|[p v] rest IH]; intros n; simpl.
  - apply keeps_ret.
  - apply keeps_bind; [|intros a; apply IH].
    apply keeps_try; [|intros e].
    + apply keeps_bind; [apply Hp|intros ?; apply keeps_ret].
    + apply keeps_bind; [apply Hpr|intros ?; apply keeps_ret].
Qed.

Lemma no_raise_print line : no_raise (print line).
Proof. apply no_raise_emit. Qed.

Lemma no_raise_handler {A} (line : string) (a : A) :
  no_raise (print line ;; ret a).
Proof.
  apply no_raise_bind; [apply no_raise_print | intros; apply no_raise_ret].
Qed.

Lemma no_raise_scrape : no_raise (scrape_bnm_announcements E).
Proof. apply no_raise_try. intros e. apply no_raise_handler. Qed.

Lemma no_raise_exists t d : no_raise (check_document_exists E t d).
Proof. apply no_raise_try. intros e. apply no_raise_ret. Qed.

Lemma no_raise_download url : no_raise (download_pdf E url).
Proof. apply no_raise_try. intros e. apply no_raise_handler. Qed.

Lemma no_raise_extract p : no_raise (extract_text_from_pdf E p).
Proof. apply no_raise_try. intros e. apply no_raise_handler. Qed.

Lemma no_raise_process d t ty u : no_raise (process_new_document E d t ty u).
Proof. apply no_raise_try. intros e. apply no_raise_handler. Qed.

Lemma no_raise_store_loop d t ty u pd ocr pairs n :
  no_raise (store_loop E d t ty u pd ocr pairs n).
Proof.
  revert n. induction pairs as [|[p v] rest IH]; intros n; simpl.
  - apply no_raise_ret.
  - apply no_raise_bind; [|intros a; apply IH].
    apply no_raise_try. intros e. apply no_raise_handler.
Qed.

End Loops.

(** ** Running the components *)

Section Runs.

Variable E : Env.

Lemma supabase_insert_run (data : Row.t) (w : World) :
  let w1 := snd (emit (CallInsert data) w) in
  supabase_insert E data w
  = match supabase_insert_error E data w1 with
    | Some e => (Raise e, w1)
    | None => (Ok tt, mkWorld (files w1) (table w1 ++ [data]) (cron_status w1)
                        (clock w1) (trace w1))
    end.
Proof.
  unfold supabase_insert, bind, ask, emit, modify, raise, set_table.
  cbn [fst snd].
  match goal with |- context [supabase_insert_error E data ?x] =>
    destruct (supabase_insert_error E data x) end; reflexivity.
Qed.

Lemma bind_lift {A B} (r : result A) (k : A -> M B) w :
  bind (lift r) k w = match r with Ok a => k a w | Raise e => (Raise e, w) end.
Proof. destruct r; reflexivity. Qed.

Lemma bind_ask {A B} (g : World -> A) (k : A -> M B) w :
  bind (ask g) k w = k (g w) w.
Proof. reflexivity. Qed.

Lemma bind_modify {B} (g : World -> World) (k : unit -> M B) w :
  bind (modify g) k w = k tt (g w).
Proof. reflexivity. Qed.

Lemma store_page_run d t ty u pd ocr p v w :
  let r := fst (store_page E d t ty u pd ocr p v w) in
  let w' := snd (store_page E d t ty u pd ocr p v w) in
  files w' = files w /\ prints (trace w') = prints (trace w)
  /\ exists tried,
       inserts (trace w') = inserts (trace w) ++ tried
       /\ Forall (row_of p v) tried
       /\ match r with
          | Ok _ => exists row, tried = [row] /\ table w' = table w ++ [row]
          | Raise _ => table w' = table w
          end.
Proof.
  cbv zeta. remember (store_page E d t ty u pd ocr p v w) as run eqn:Hrun.
  unfold store_page, now in Hrun. cbv zeta in Hrun. rewrite bind_ask in Hrun.
  repeat (rewrite bind_lift in Hrun;
          match type of Hrun with
          | context [match ?x with Ok _ => _ | Raise _ => _ end] => destruct x
          end;
          [ | rewrite Hrun; cbn [fst snd];
              split; [reflexivity|]; split; [reflexivity|];
              exists []; rewrite app_nil_r; repeat split; constructor ]).
  rewrite bind_ask, supabase_insert_run in Hrun. cbv zeta in Hrun.
  match type of Hrun with context [supabase_insert_error E ?d ?x] =>
    destruct (supabase_insert_error E d x); set (row := d) in * end;
    rewrite Hrun; cbn [fst snd files table trace emit modify];
    (split; [reflexivity|]);
    (split; [unfold prints; rewrite omap_snoc; cbn; apply app_nil_r|]);
    exists [row]; unfold inserts; rewrite omap_snoc; cbn;
    (split; [reflexivity|]);
    (split; [constructor; [repeat split|constructor]|]).
  - reflexivity.
  - exists row. split; reflexivity.
Qed.

Lemma store_loop_run d t ty u pd ocr pairs :
  forall n w,
  exists rows tried w',
    store_loop E d t ty u pd ocr pairs n w = (Ok (n + length rows), w')
    /\ table w' = table w ++ rows
    /\ files w' = files w
    /\ inserts (trace w') = inserts (trace w) ++ tried
    /\ Forall (fun row => exists p v, In (p, v) pairs /\ row_of p v row) tried
    /\ length (prints (trace w'))
       = length (prints (trace w)) + (length pairs - length rows)
    /\ length rows <= length pairs.
Proof.
  induction pairs as [|[p v] rest IH]; intros n w.
  - exists [], [], w. simpl. rewrite Nat.add_0_r, !app_nil_r.
    repeat split; auto.
  - simpl store_loop. unfold bind at 1. unfold try_except.
    unfold bind at 1.
    pose proof (store_page_run d t ty u pd ocr p v w) as Hsp.
    cbv zeta in Hsp.
    destruct (store_page E d t ty u pd ocr p v w) as [[[]|e] w1];
      cbn [fst snd] in Hsp;
      destruct Hsp as (Hf & Hp & tried1 & Hi & Hrow & Ht).
    + destruct Ht as (row & -> & Ht). unfold ret at 1.
      destruct (IH (S n) w1) as (rows & tried & w' & Hrun & Htab & Hfil & Hins & Hall & Hpr & Hlen).
      exists (row :: rows), (row :: tried), w'.
      rewrite Hrun, Htab, Ht, Hfil, Hf, Hins, Hi, Hpr, Hp, <- !app_assoc.
      cbn [length app]. repeat split; try reflexivity; try lia.
      * do 2 f_equal. lia.
      * constructor.
        -- inversion Hrow; subst. exists p, v. split; [left; reflexivity|assumption].
        -- eapply Forall_impl; [exact Hall|]. cbv beta.
           intros r (p' & v' & Hin & Hr). exists p', v'. split; [right|]; assumption.
    + unfold bind at 1, print, emit, modify, ret. cbn [fst snd].
      match goal with |- context [store_loop E d t ty u pd ocr rest n ?x] =>
        set (w2 := x) end.
      destruct (IH n w2) as (rows & tried & w' & Hrun & Htab & Hfil & Hins & Hall & Hpr & Hlen).
      exists rows, (tried1 ++ tried), w'.
      assert (Hp2 : prints (trace w2) = prints (trace w) ++ [("[ERROR] Failed to store page "
                        ++ PyStr.of_Z (PageData.page_number p)
                        ++ ": " ++ str_of_exn e)%string]).
      { subst w2. cbn [trace]. unfold prints. rewrite omap_snoc. cbn.
        fold (prints (trace w1)). rewrite Hp. reflexivity. }
      assert (Hi2 : inserts (trace w2) = inserts (trace w) ++ tried1).
      { subst w2. cbn [trace]. unfold inserts. rewrite omap_snoc. cbn.
        rewrite app_nil_r. exact Hi. }
      rewrite Hrun, Htab, Hfil, Hins, Hi2, Hpr, Hp2, <- !app_assoc.
      subst w2. cbn [table files]. rewrite Ht, Hf, length_app.
      cbn [length]. repeat split; try reflexivity; try lia.
      apply Forall_app. split.
      * eapply Forall_impl; [exact Hrow|]. cbv beta.
        intros r Hr. exists p, v. split; [left; reflexivity|assumption].
      * eapply Forall_impl; [exact Hall|]. cbv beta.
        intros r (p' & v' & Hin & Hr). exists p', v'. split; [right|]; assumption.
Qed.

Lemma unlink_present p w :
  p ∈ files w ->
  exists w',
    unlink p w = (Ok tt, w')
    /\ table w' = table w
    /\ files w' = files w ∖ {[ p ]}
    /\ unlinks (trace w') = unlinks (trace w) ++ [p].
Proof.
  intros Hin. unfold unlink, bind, emit, modify, ask, set_files.
  cbn [fst snd files]. rewrite (bool_decide_eq_true_2 _ Hin).
  eexists. split; [reflexivity|]. cbn [table files trace].
  repeat split. unfold unlinks. rewrite omap_snoc. reflexivity.
Qed.

End Runs.

Section Stages.

Variable E : Env.

Lemma download_pdf_run url w :
  exists o w1,
    download_pdf E url w = (Ok o, w1)
    /\ table w1 = table w
    /\ (forall p, o = Some p -> p ∈ files w1).
Proof.
  pose proof (keeps_download_table E url w) as Ht.
  unfold download_pdf, try_except, browser_launch in *.
  repeat progress
    (unfold bind, emit, modify, ask, ask_result, raise, ret, print, set_files,
       unlink in *;
     cbn [fst snd files] in * ).
  match goal with |- context [browser_launch_error E ?x] =>
    destruct (browser_launch_error E x) end.
  { eexists _, _. split; [reflexivity|]. split; [exact Ht|]. discriminate. }
  match goal with |- context [browser_download E url ?x] =>
    destruct (browser_download E url x) as [size|e] end.
  2:{ eexists _, _. split; [reflexivity|]. split; [exact Ht|]. discriminate. }
  destruct (size <? 1000).
  - cbn [fst snd files] in *.
    rewrite bool_decide_eq_true_2 in * by set_solver.
    eexists _, _. split; [reflexivity|]. split; [exact Ht|]. discriminate.
  - eexists _, _. split; [reflexivity|]. split; [exact Ht|].
    intros p [= <-]. cbn [files]. set_solver.
Qed.

Lemma extract_run p w :
  exists j w1,
    extract_text_from_pdf E p w = (Ok j, w1)
    /\ table w1 = table w /\ files w1 = files w.
Proof.
  destruct (no_raise_extract E p w) as [j Hj].
  pose proof (keeps_extract_table E p w) as Ht.
  pose proof (keeps_extract_files E p w) as Hf.
  destruct (extract_text_from_pdf E p w) as [r w1]. cbn [fst snd] in *.
  subst r. eauto.
Qed.

Lemma cleanup_exit p w :
  p ∈ files w ->
  exists w1, (unlink p ;; ret false) w = (Ok false, w1) /\ table w1 = table w.
Proof.
  intros Hin. destruct (unlink_present p w Hin) as (w1 & Hu & Ht & _).
  exists w1. rewrite (bind_ok _ _ _ _ _ Hu). split; [reflexivity|exact Ht].
Qed.

Lemma handler_exit line w :
  exists w1, (print line ;; ret false) w = (Ok false, w1) /\ table w1 = table w.
Proof. eexists. split; reflexivity. Qed.

(** The processor writes rows only through [store_document_pages], and
    answers [True] exactly when at least one row was written. *)
Lemma process_new_document_run d t ty u w :
  exists rows,
    table (snd (process_new_document E d t ty u w)) = table w ++ rows
    /\ fst (process_new_document E d t ty u w) = Ok (0 <? length rows).
Proof.
  unfold process_new_document, try_except.
  destruct (download_pdf_run u w) as (o & w1 & Hd & Ht1 & Hf1).
  rewrite (bind_ok _ _ _ _ _ Hd).
  destruct o as [p|].
  2:{ exists []. rewrite app_nil_r. cbn. split; [exact Ht1|reflexivity]. }
  specialize (Hf1 p eq_refl).
  destruct (extract_run p w1) as (j & w2 & He & Ht2 & Hf2).
  rewrite (bind_ok _ _ _ _ _ He).
  assert (Hin : p ∈ files w2) by (rewrite Hf2; exact Hf1).
  assert (Ht : table w2 = table w) by congruence.
  clear Hd He Ht1 Ht2 Hf1 Hf2 w1.
  destruct (Py.truthy j); cbn [negb].
  2:{ destruct (cleanup_exit p w2 Hin) as (w3 & -> & Ht3).
      exists []. rewrite app_nil_r. cbn. split; [congruence|reflexivity]. }
  rewrite bind_lift.
  destruct (Py.get j "pages" (JArr [])) as [pages|e].
  2:{ destruct (handler_exit ("[ERROR] Processing failed: " ++ str_of_exn e)%string w2)
        as (w3 & -> & Ht3).
      exists []. rewrite app_nil_r. cbn. split; [congruence|reflexivity]. }
  rewrite bind_lift.
  destruct (Py.iter pages) as [items|e].
  2:{ destruct (handler_exit ("[ERROR] Processing failed: " ++ str_of_exn e)%string w2)
        as (w3 & -> & Ht3).
      exists []. rewrite app_nil_r. cbn. split; [congruence|reflexivity]. }
  rewrite bind_lift.
  destruct (page_loop j items []) as [pdl|e].
  2:{ destruct (handler_exit ("[ERROR] Processing failed: " ++ str_of_exn e)%string w2)
        as (w3 & -> & Ht3).
      exists []. rewrite app_nil_r. cbn. split; [congruence|reflexivity]. }
  destruct pdl as [|pd0 pdl].
  { destruct (cleanup_exit p w2 Hin) as (w3 & -> & Ht3).
    exists []. rewrite app_nil_r. cbn. split; [congruence|reflexivity]. }
  set (P := pd0 :: pdl).
  pose proof (keeps_embed_loop E table P
                (py_range (length P) BATCH_EMBEDDING_SIZE) [] keeps_emit_table w2) as Ht3.
  pose proof (keeps_embed_loop E files P
                (py_range (length P) BATCH_EMBEDDING_SIZE) [] keeps_emit_files w2) as Hf3.
  destruct (embed_loop E P (py_range (length P) BATCH_EMBEDDING_SIZE) [] w2)
    as [[vs|e] w3] eqn:Hemb; cbn [fst snd] in Ht3, Hf3.
  2:{ rewrite (bind_raise _ _ _ _ _ Hemb).
      destruct (handler_exit ("[ERROR] Processing failed: " ++ str_of_exn e)%string w3)
        as (w4 & -> & Ht4).
      exists []. rewrite app_nil_r. cbn. split; [congruence|reflexivity]. }
  rewrite (bind_ok _ _ _ _ _ Hemb).
  unfold store_document_pages.
  destruct (store_loop_run E d t ty u P j (combine P vs) 0 w3)
    as (rows & tried & w4 & Hst & Ht4 & Hf4 & _).
  rewrite (bind_ok _ _ _ _ _ Hst).
  assert (Hin4 : p ∈ files w4) by (rewrite Hf4, Hf3; exact Hin).
  destruct (unlink_present p w4 Hin4) as (w5 & Hu & Ht5 & _).
  rewrite (bind_ok _ _ _ _ _ Hu).
  exists rows. cbn. split; [congruence|reflexivity].
Qed.

End Stages.

(** ** Storing pages *)

Lemma combine_take_length {A B} (l1 : list A) (l2 : list B) :
  combine l1 l2 = combine (take (length l2) l1) l2.
Proof.
  revert l2. induction l1 as [|a l1 IH]; intros [|b l2]; simpl; try reflexivity.
  f_equal. apply IH.
Qed.

Lemma In_combine_lookup {A B} (l1 : list A) (l2 : list B) a b :
  In (a, b) (combine l1 l2) ->
  exists i, l1 !! i = Some a /\ l2 !! i = Some b.
Proof.
  revert l2. induction l1 as [|x l1 IH]; intros [|y l2]; simpl; try tauto.
  intros [[= -> ->]|Hin].
  - exists 0. split; reflexivity.
  - destruct (IH l2 Hin) as (i & H1 & H2). exists (S i). split; assumption.
Qed.

(** C3. [store_document_pages] never raises and tries every zipped page on
    its own: each one ends as a row written or as an error line printed, so
    a failed insert does not stop the inserts after it; the value returned
    is the number of rows written.  [process_new_document] writes rows only
    there and answers [True] exactly when that number is above zero.  With
    three pages of which only page 2 can be inserted, all three inserts are
    attempted, one row is written and the run counts the document as
    processed, not failed. *)
Theorem store_counts_rows_and_any_row_is_success
    (E : Env) (date title doc_type pdf_url : string)
    (pages_data : list PageData.t) (ocr_data : json)
    (embeddings : list vector) (w : World) :
  (exists rows w',
     store_document_pages E date title doc_type pdf_url pages_data ocr_data
       embeddings w = (Ok (length rows), w')
     /\ table w' = table w ++ rows
     /\ length rows + (length (prints (trace w')) - length (prints (trace w)))
        = length (combine pages_data embeddings))
  /\ (exists rows,
        table (snd (process_new_document E date title doc_type pdf_url w))
        = table w ++ rows
        /\ fst (process_new_document E date title doc_type pdf_url w)
           = Ok (0 <? length rows))
  /\ (let w' := snd (run_daily_scrape
                       (Scenario.flaky_store Scenario.one_pdf Scenario.pages_kept)
                       Scenario.world0) in
      length (inserts (trace w')) = 3
      /\ length (table w') = 1
      /\ CronStatus.processed (cron_status w') = 1
      /\ CronStatus.failed (cron_status w') = 0).
Proof.
  split; [|split].
  - unfold store_document_pages.
    destruct (store_loop_run E date title doc_type pdf_url pages_data ocr_data
                (combine pages_data embeddings) 0 w)
      as (rows & tried & w' & Hrun & Htab & _ & _ & _ & Hpr & Hlen).
    exists rows, w'. split; [exact Hrun|]. split; [exact Htab|]. lia.
  - apply process_new_document_run.
  - vm_compute. repeat split; reflexivity.
Qed.

(** C10. [store_document_pages] pairs pages and vectors by position: every
    insert it attempts is built from a page and the vector at the same
    index, present in both lists; the loop is the loop over the first
    [len(embeddings)] pages, so the pages beyond are never tried and
    nothing is printed for them; and the count returned is at most the
    shorter of the two lengths. *)
Theorem store_zips_pages_with_vectors
    (E : Env) (date title doc_type pdf_url : string)
    (pages_data : list PageData.t) (ocr_data : json)
    (embeddings : list vector) (w : World) :
  exists rows tried w',
    store_document_pages E date title doc_type pdf_url pages_data ocr_data
      embeddings w = (Ok (length rows), w')
    /\ table w' = table w ++ rows
    /\ inserts (trace w') = inserts (trace w) ++ tried
    /\ Forall (fun row =>
                 exists i p v,
                   pages_data !! i = Some p /\ embeddings !! i = Some v
                   /\ row_of p v row) tried
    /\ store_document_pages E date title doc_type pdf_url pages_data ocr_data
         embeddings w
       = store_loop E date title doc_type pdf_url pages_data ocr_data
           (combine (take (length embeddings) pages_data) embeddings) 0 w
    /\ length (prints (trace w')) - length (prints (trace w))
       <= Nat.min (length pages_data) (length embeddings)
    /\ length rows <= Nat.min (length pages_data) (length embeddings).
Proof.
  unfold store_document_pages.
  destruct (store_loop_run E date title doc_type pdf_url pages_data ocr_data
              (combine pages_data embeddings) 0 w)
    as (rows & tried & w' & Hrun & Htab & _ & Hins & Hall & Hpr & Hlen).
  rewrite length_combine in *.
  exists rows, tried, w'. repeat split; try assumption; try lia.
  - eapply Forall_impl; [exact Hall|]. cbv beta.
    intros row (p & v & Hin & Hrow).
    destruct (In_combine_lookup _ _ _ _ Hin) as (i & Hp & Hv).
    exists i, p, v. repeat split; try assumption; apply Hrow.
  - rewrite <- combine_take_length. reflexivity.
Qed.

(** ** Batching the embedding calls *)

Lemma chunks_concat {A} (B : nat) (l : list A) (m k : nat) :
  concat (map (fun j => take B (drop (j * B) l)) (seq k m))
  = take (m * B) (drop (k * B) l).
Proof.
  revert k. induction m as [|m IH]; intros k; simpl.
  - reflexivity.
  - rewrite IH. replace (S k * B) with (k * B + B) by lia.
    rewrite <- drop_drop. apply take_take_drop.
Qed.

Lemma ceil_div_covers (n B : nat) : 0 < B -> n <= (n + B - 1) / B * B.
Proof.
  intros HB.
  pose proof (Nat.div_mod_eq (n + B - 1) B) as Hd.
  pose proof (Nat.mod_upper_bound (n + B - 1) B) as Hm.
  nia.
Qed.

Lemma Forall2_map_left {A B C} (R : B -> C -> Prop) (f : A -> B) l vs :
  Forall2 R (map f l) vs -> Forall2 (fun x v => R (f x) v) l vs.
Proof.
  revert vs. induction l as [|a l IH]; intros vs H; inversion H; subst;
    constructor; auto.
Qed.

Section Batches.

Variable E : Env.
Variable R : string -> vector -> Prop.
Hypothesis openai_answers :
  forall texts w, exists vs,
    openai_embeddings E texts w = Ok vs /\ Forall2 R texts vs.

Lemma generate_embeddings_batch_run texts w :
  generate_embeddings_batch E texts w
  = (openai_embeddings E (map clean_text texts) (snd (emit (CallEmbed texts) w)),
     snd (emit (CallEmbed texts) w)).
Proof. reflexivity. Qed.

Lemma embed_loop_run (P : list PageData.t) (m : nat) :
  forall k acc w,
  exists vs w',
    embed_loop E P (map (fun j => j * BATCH_EMBEDDING_SIZE) (seq k m)) acc w
    = (Ok (acc ++ vs), w')
    /\ Forall2 (fun p v => R (clean_text (PageData.content p)) v)
         (take (m * BATCH_EMBEDDING_SIZE) (drop (k * BATCH_EMBEDDING_SIZE) P)) vs
    /\ embed_calls (trace w')
       = embed_calls (trace w)
         ++ map (fun j => take BATCH_EMBEDDING_SIZE
                            (drop (j * BATCH_EMBEDDING_SIZE)
                               (map PageData.content P))) (seq k m).
Proof.
  induction m as [|m IH]; intros k acc w.
  - exists [], w. simpl. rewrite !app_nil_r. repeat split. constructor.
  - cbn [seq map embed_loop].
    set (batch := take BATCH_EMBEDDING_SIZE (drop (k * BATCH_EMBEDDING_SIZE) P)).
    unfold bind. rewrite generate_embeddings_batch_run.
    set (w1 := snd (emit (CallEmbed (map PageData.content batch)) w)).
    destruct (openai_answers (map clean_text (map PageData.content batch)) w1)
      as (vs1 & -> & Hvs1).
    destruct (IH (S k) (acc ++ vs1) w1) as (vs & w' & Hrun & Hvs & Hcalls).
    exists (vs1 ++ vs), w'. rewrite app_assoc. split; [exact Hrun|]. split.
    + replace (S m * BATCH_EMBEDDING_SIZE)
        with (BATCH_EMBEDDING_SIZE + m * BATCH_EMBEDDING_SIZE) by lia.
      rewrite <- take_take_drop, drop_drop.
      replace (k * BATCH_EMBEDDING_SIZE + BATCH_EMBEDDING_SIZE)
        with (S k * BATCH_EMBEDDING_SIZE) by lia.
      apply Forall2_app; [|exact Hvs].
      fold batch. rewrite map_map in Hvs1.
      apply Forall2_map_left in Hvs1. exact Hvs1.
    + rewrite Hcalls. subst w1. cbn [snd emit modify trace].
      unfold embed_calls at 1. rewrite omap_snoc. cbn.
      rewrite <- app_assoc. cbn [app]. subst batch.
      rewrite <- List.firstn_map, <- List.skipn_map. reflexivity.
Qed.

End Batches.

Lemma page_entry_cases (ocr_data page : json) :
  match page_entry ocr_data page with
  | Ok (Some d) =>
      passes_filter page = true
      /\ PageData.page_info d = page
      /\ Py.get page "markdown" (JStr "") = Ok (JStr (PageData.content d))
  | Ok None => passes_filter page = false
  | Raise _ => True
  end.
Proof.
  unfold page_entry, passes_filter.
  destruct (Py.get page "index" (JNum 0)) as [index|]; [|exact I].
  destruct (Py.add index 1) as [page_number|]; [|exact I].
  destruct (Py.get page "markdown" (JStr "")) as [md|]; [|exact I].
  destruct md as [|b|z|s|l|l]; cbn [Py.truthy negb];
    try solve [ reflexivity | exact I
              | match goal with |- context [if ?c then _ else _] => destruct c end;
                first [exact I | reflexivity] ].
  destruct (String.eqb s ""); cbn [negb andb]; [reflexivity|].
  destruct (Nat.ltb_spec (PyStr.len (PyStr.strip s)) 50);
    destruct (Nat.leb_spec 50 (PyStr.len (PyStr.strip s))); try lia;
    cbv iota.
  all: try reflexivity.
  destruct (Py.get ocr_data "extractedText" (JStr "")); [|exact I].
  repeat split.
Qed.

Lemma page_loop_run (ocr_data : json) (pages : list json) :
  forall acc P,
    page_loop ocr_data pages acc = Ok P ->
    exists kept,
      P = acc ++ kept
      /\ map PageData.page_info kept = List.filter passes_filter pages
      /\ Forall (fun d => Py.get (PageData.page_info d) "markdown" (JStr "")
                          = Ok (JStr (PageData.content d))) kept.
Proof.
  induction pages as [|page rest IH]; intros acc P; simpl.
  - intros [= <-]. exists []. rewrite app_nil_r. repeat split. constructor.
  - pose proof (page_entry_cases ocr_data page) as Hc.
    destruct (page_entry ocr_data page) as [[d|]|e]; [| |discriminate].
    + destruct Hc as (Hpass & Hinfo & Hmd). rewrite Hpass. intros Hrun.
      destruct (IH _ _ Hrun) as (kept & -> & Hmap & Hall).
      exists (d :: kept). rewrite <- app_assoc. split; [reflexivity|].
      split; [simpl; rewrite Hinfo, Hmap; reflexivity|].
      constructor; [rewrite Hinfo; exact Hmd|exact Hall].
    + rewrite Hc. apply IH.
Qed.

(** C7. Let [P] be the list of retained pages the page loop produced, and
    let every call of the embedding endpoint answer one vector per text, in
    order ([R] relates a submitted text to its vector).  Then the embedding
    loop returns; its calls are, in order, the consecutive slices of 10 of
    the page contents, which together are exactly the contents of [P]; the
    vectors returned are as many as the pages and vector [i] belongs to the
    cleaned content of page [i]; and [P] consists of exactly the page
    objects that pass the content filter, in their order, so that a
    filtered page is never submitted. *)
Theorem embeddings_align_with_retained_pages
    (E : Env) (R : string -> vector -> Prop)
    (ocr_data : json) (items : list json) (P : list PageData.t) (w : World) :
  (forall texts w0, exists vs,
      openai_embeddings E texts w0 = Ok vs /\ Forall2 R texts vs) ->
  page_loop ocr_data items [] = Ok P ->
  let contents := map PageData.content P in
  let calls :=
    map (fun k => take BATCH_EMBEDDING_SIZE
                    (drop (k * BATCH_EMBEDDING_SIZE) contents))
        (seq 0 ((length P + BATCH_EMBEDDING_SIZE - 1) / BATCH_EMBEDDING_SIZE)) in
  exists vs w',
    embed_loop E P (py_range (length P) BATCH_EMBEDDING_SIZE) [] w = (Ok vs, w')
    /\ embed_calls (trace w') = embed_calls (trace w) ++ calls
    /\ concat calls = contents
    /\ length vs = length P
    /\ Forall2 (fun p v => R (clean_text (PageData.content p)) v) P vs
    /\ map PageData.page_info P = List.filter passes_filter items
    /\ Forall (fun p => Py.get (PageData.page_info p) "markdown" (JStr "")
                        = Ok (JStr (PageData.content p))) P.
Proof.
  intros Hopenai Hloop contents calls.
  assert (Hcover : length P
                   <= (length P + BATCH_EMBEDDING_SIZE - 1) / BATCH_EMBEDDING_SIZE
                      * BATCH_EMBEDDING_SIZE).
  { apply ceil_div_covers. unfold BATCH_EMBEDDING_SIZE. lia. }
  destruct (embed_loop_run E R Hopenai P
              ((length P + BATCH_EMBEDDING_SIZE - 1) / BATCH_EMBEDDING_SIZE)
              0 [] w) as (vs & w' & Hrun & Hvs & Hcalls).
  rewrite Nat.mul_0_l, drop_0, take_ge in Hvs by exact Hcover.
  destruct (page_loop_run ocr_data items [] P Hloop) as (kept & -> & Hmap & Hall).
  exists vs, w'. unfold py_range. cbn [app] in *.
  split; [exact Hrun|]. split; [exact Hcalls|]. split.
  { subst calls. rewrite chunks_concat, Nat.mul_0_l, drop_0.
    apply take_ge. subst contents. rewrite length_map. exact Hcover. }
  split; [symmetry; eapply Forall2_length; exact Hvs|].
  split; [exact Hvs|]. split; assumption.
Qed.

Lemma embed_each_in_order (texts : list string) :
  Forall2 (fun text v => v = [Z.of_nat (PyStr.len text)]) texts
    (Scenario.embed_each texts).
Proof. induction texts; constructor; auto. Qed.

(** Pages [P0, P1, P2] with [P1] a character short: the single batch
    submitted is [[P0.content, P2.content]] and two vectors come back. *)
Lemma embeddings_align_with_retained_pages_witness :
  exists vs w',
    embed_loop (Scenario.healthy Scenario.one_pdf Scenario.pages_filtered)
      [PageData.make 1 (PyStr.repeat "a"%char 60) (JStr "full text")
         (Scenario.page 0 60);
       PageData.make 3 (PyStr.repeat "a"%char 50) (JStr "full text")
         (Scenario.page 2 50)]
      [0] [] Scenario.world0 = (Ok vs, w')
    /\ embed_calls (trace w')
       = [[PyStr.repeat "a"%char 60; PyStr.repeat "a"%char 50]]
    /\ length vs = 2.
Proof.
  destruct (embeddings_align_with_retained_pages
              (Scenario.healthy Scenario.one_pdf Scenario.pages_filtered)
              (fun text v => v = [Z.of_nat (PyStr.len text)])
              (JObj [("pages"%string, JArr Scenario.pages_filtered);
                     ("extractedText"%string, JStr "full text")])
              Scenario.pages_filtered
              [PageData.make 1 (PyStr.repeat "a"%char 60) (JStr "full text")
                 (Scenario.page 0 60);
               PageData.make 3 (PyStr.repeat "a"%char 50) (JStr "full text")
                 (Scenario.page 2 50)]
              Scenario.world0
              (fun texts _ => ex_intro _ (Scenario.embed_each texts)
                                (conj eq_refl (embed_each_in_order texts)))
              eq_refl)
    as (vs & w' & Hrun & Hcalls & _ & Hlen & _).
  exists vs, w'. split; [exact Hrun|]. split; [exact Hcalls|exact Hlen].
Defined.

(** ** Discovery and fan-out *)

Lemma bind_effect {A B X} (f : World -> X) (g : X -> X) (m : M A) (k : A -> M B) :
  effect f g m -> (forall a, keeps f (k a)) -> effect f g (bind m k).
Proof.
  intros Hm Hk w. unfold bind. specialize (Hm w).
  destruct (m w) as [[a|e] w1]; cbn [snd] in *; [rewrite Hk|]; exact Hm.
Qed.

Lemma try_effect {A X} (f : World -> X) (g : X -> X) (m : M A) (h : exn -> M A) :
  effect f g m -> (forall e, keeps f (h e)) -> effect f g (try_except m h).
Proof.
  intros Hm Hh w. unfold try_except. specialize (Hm w).
  destruct (m w) as [[a|e] w1]; cbn [snd] in *; [|rewrite Hh]; exact Hm.
Qed.

Section FanOut.

Variable E : Env.

Lemma keeps_embed_loop_downloads pdl starts acc :
  keeps (fun w => downloads (trace w)) (embed_loop E pdl starts acc).
Proof.
  revert acc. induction starts as [|i rest IH]; intros acc; simpl.
  - apply keeps_ret.
  - apply keeps_bind; [|intros a; apply IH].
    unfold generate_embeddings_batch. frames.
Qed.

Lemma keeps_store_downloads d t ty u pd ocr vs :
  keeps (fun w => downloads (trace w)) (store_document_pages E d t ty u pd ocr vs).
Proof.
  apply keeps_store_loop.
  - intros p v. apply keeps_store_page_downloads.
  - intros line. unfold print. frames.
Qed.

Lemma download_pdf_logged url :
  effect (fun w => downloads (trace w)) (fun l => l ++ [url]) (download_pdf E url).
Proof.
  unfold download_pdf. apply try_effect.
  - apply bind_effect.
    + intros w. cbn. unfold downloads. rewrite omap_snoc. reflexivity.
    + intros _. unfold browser_launch, print, set_files. frames.
      apply keeps_unlink_downloads.
  - intros e. unfold print. frames.
Qed.

(** Every invocation of the processor starts one download, of its own URL. *)
Lemma process_new_document_logged d t ty u :
  effect (fun w => downloads (trace w)) (fun l => l ++ [u])
    (process_new_document E d t ty u).
Proof.
  unfold process_new_document. apply try_effect.
  - apply bind_effect; [apply download_pdf_logged|].
    intros [p|]; [|apply keeps_ret].
    apply keeps_bind; [apply keeps_extract_downloads|intros j].
    destruct (negb (Py.truthy j)).
    { apply keeps_bind; [apply keeps_unlink_downloads|intros; apply keeps_ret]. }
    apply keeps_bind; [apply keeps_lift|intros pages].
    apply keeps_bind; [apply keeps_lift|intros items].
    apply keeps_bind; [apply keeps_lift|intros pdl].
    destruct pdl as [|pd0 pdl].
    { apply keeps_bind; [apply keeps_unlink_downloads|intros; apply keeps_ret]. }
    apply keeps_bind; [apply keeps_embed_loop_downloads|intros vs].
    apply keeps_bind; [apply keeps_store_downloads|intros n].
    apply keeps_bind; [apply keeps_unlink_downloads|intros; apply keeps_ret].
  - intros e. unfold print. frames.
Qed.

Lemma keeps_process_status d t ty u :
  keeps cron_status (process_new_document E d t ty u).
Proof.
  unfold process_new_document.
  apply keeps_try; [|intros e; unfold print; frames].
  apply keeps_bind; [apply keeps_download_status|].
  intros [p|]; [|apply keeps_ret].
  apply keeps_bind; [apply keeps_extract_status|intros j].
  destruct (negb (Py.truthy j)).
  { apply keeps_bind; [apply keeps_unlink_status|intros; apply keeps_ret]. }
  apply keeps_bind; [apply keeps_lift|intros pages].
  apply keeps_bind; [apply keeps_lift|intros items].
  apply keeps_bind; [apply keeps_lift|intros pdl].
  destruct pdl as [|pd0 pdl].
  { apply keeps_bind; [apply keeps_unlink_status|intros; apply keeps_ret]. }
  apply keeps_bind; [apply keeps_embed_loop, keeps_emit_status|intros vs].
  apply keeps_bind; [|intros n].
  { apply keeps_store_loop.
    - intros p0 v. apply keeps_store_page_status.
    - intros line. apply keeps_emit_status. }
  apply keeps_bind; [apply keeps_unlink_status|intros; apply keeps_ret].
Qed.

End FanOut.

Section Coordinator.

Variable E : Env.

Lemma process_item_logged (item : WorkItem) :
  effect (fun w => downloads (trace w)) (fun l => l ++ [snd item])
    (process_item E item).
Proof.
  destruct item as [[[d t] ty] u]. unfold process_item. apply try_effect.
  - apply bind_effect; [apply process_new_document_logged|].
    intros success. apply keeps_bind; [|intros; apply keeps_sleep_downloads].
    destruct success; unfold set_cron_status; frames.
  - intros e. unfold print, set_cron_status. frames.
Qed.

Lemma no_raise_process_item (item : WorkItem) : no_raise (process_item E item).
Proof.
  destruct item as [[[d t] ty] u]. unfold process_item.
  apply no_raise_try. intros e.
  apply no_raise_bind; [apply no_raise_print|intros; apply no_raise_modify].
Qed.

Lemma process_loop_logged (new_docs : list WorkItem) (w : World) :
  downloads (trace (snd (process_loop E new_docs w)))
  = downloads (trace w) ++ map snd new_docs.
Proof.
  revert w. induction new_docs as [|item rest IH]; intros w; simpl.
  - rewrite app_nil_r. reflexivity.
  - unfold bind. pose proof (process_item_logged item w) as Hi.
    destruct (no_raise_process_item item w) as [[] Hok].
    destruct (process_item E item w) as [r w1]; cbn [fst snd] in *. subst r.
    rewrite IH, Hi, <- app_assoc. reflexivity.
Qed.

(** One work item moves exactly one of the two outcome counters by one. *)
Lemma process_item_counts (item : WorkItem) (w : World) :
  let st := cron_status w in
  let st' := cron_status (snd (process_item E item w)) in
  st' = bump_processed st \/ st' = bump_failed st.
Proof.
  destruct item as [[[d t] ty] u]. cbv zeta. unfold process_item, try_except.
  destruct (no_raise_process E d t ty u w) as [success Hok].
  pose proof (keeps_process_status E d t ty u w) as Hst.
  destruct (process_new_document E d t ty u w) as [r w1] eqn:Hp;
    cbn [fst snd] in *.
  subst r. rewrite (bind_ok _ _ _ _ _ Hp).
  destruct success; cbn; rewrite Hst; [left|right]; reflexivity.
Qed.

Lemma process_loop_counts (new_docs : list WorkItem) (w : World) :
  let st := cron_status w in
  let st' := cron_status (snd (process_loop E new_docs w)) in
  CronStatus.processed st' + CronStatus.failed st'
  = CronStatus.processed st + CronStatus.failed st + length new_docs
  /\ CronStatus.new_documents st' = CronStatus.new_documents st.
Proof.
  cbv zeta. revert w. induction new_docs as [|item rest IH]; intros w; simpl.
  - split; [lia|reflexivity].
  - unfold bind. pose proof (process_item_counts item w) as Hi. cbv zeta in Hi.
    destruct (no_raise_process_item item w) as [[] Hok].
    destruct (process_item E item w) as [r w1]; cbn [fst snd] in *. subst r.
    destruct (IH w1) as [Hsum Hnew]. rewrite Hsum, Hnew.
    destruct Hi as [-> | ->]; cbn; split; lia.
Qed.

(** The body of the discovery loop, run. *)
Lemma discover_run (row : Announcement.t) (new_docs : list WorkItem) (w : World) :
  let date := Announcement.date row in
  let title := Announcement.title row in
  let w1 := snd (emit (CallExists title date) w) in
  forall found,
    fst (check_document_exists E title date w) = Ok found ->
    discover E row new_docs w
    = if found then (Ok new_docs, w1)
      else (Ok (new_docs
                  ++ map (fun pdf_url =>
                            (date, title, Announcement.type row, pdf_url))
                       (List.filter (PyStr.endswith ".pdf")
                          (Announcement.links row))),
            snd (set_cron_status bump_new_documents w1)).
Proof.
  cbv zeta. intros found Hfound. unfold discover. cbv zeta.
  pose proof (check_document_exists_run E (Announcement.title row)
                (Announcement.date row) w) as Hrun.
  cbv zeta in Hrun. rewrite Hrun in Hfound. cbn [fst] in Hfound.
  rewrite Hfound in Hrun. rewrite (bind_ok _ _ _ _ _ Hrun).
  destruct found; reflexivity.
Qed.

End Coordinator.

(** ** Running twice *)

Section SecondRun.

Variable E : Env.

Lemma scrape_run (w : World) :
  scrape_bnm_announcements E w
  = match site_table E (snd (emit CallScrape w)) with
    | Ok rows => (Ok (map announcement_of_row rows), snd (emit CallScrape w))
    | Raise e =>
        (Ok [], snd (print ("[ERROR] Scraping failed: " ++ str_of_exn e)%string
                       (snd (emit CallScrape w))))
    end.
Proof.
  unfold scrape_bnm_announcements, try_except, bind, ask_result.
  cbn [fst snd emit modify].
  match goal with |- context [site_table E ?x] => destruct (site_table E x) end;
    reflexivity.
Qed.

Hypothesis select_answers :
  forall title date w, supabase_select_error E title date w = None.


End SecondRun.




(** ** Failures of the collaborators *)

Lemma extract_absorbs (E : Env) (path : string) (w : World) :
  exists j,
    fst (extract_text_from_pdf E path w) = Ok j
    /\ forall e,
         ocr_webhook E path (snd (emit (CallOcr path) w)) = Raise e ->
         j = JNull.
Proof.
  unfold extract_text_from_pdf, try_except, open_file.
  repeat progress
    (unfold bind, emit, modify, ask, ask_result, raise, ret, print;
     cbn [fst snd files]).
  destruct (bool_decide (path ∈ files w)); cbn [fst snd].
  - match goal with |- context [ocr_webhook E path ?x] =>
      destruct (ocr_webhook E path x) as [j|e0] end; cbn [fst snd].
    + eexists. split; [reflexivity|]. discriminate.
    + eexists. split; [reflexivity|]. reflexivity.
  - eexists. split; [reflexivity|]. reflexivity.
Qed.

Lemma download_absorbs (E : Env) (url : string) (w : World) :
  exists o,
    fst (download_pdf E url w) = Ok o
    /\ (forall e,
          browser_launch_error E (snd (emit (CallDownload url) w)) = Some e ->
          o = None)
    /\ (forall e,
          browser_download E url (snd (emit (CallDownload url) w)) = Raise e ->
          o = None).
Proof.
  unfold download_pdf, try_except, browser_launch.
  repeat progress
    (unfold bind, emit, modify, ask, ask_result, raise, ret, print, set_files,
       unlink;
     cbn [fst snd files]).
  match goal with |- context [browser_launch_error E ?x] =>
    destruct (browser_launch_error E x) end; cbn [fst snd].
  { eexists. split; [reflexivity|]. split; reflexivity. }
  match goal with |- context [browser_download E url ?x] =>
    destruct (browser_download E url x) as [size|e0] end; cbn [fst snd].
  2:{ eexists. split; [reflexivity|]. split; [discriminate|reflexivity]. }
  destruct (size <? 1000); cbn [fst snd files].
  - rewrite bool_decide_eq_true_2 by set_solver. cbn [fst snd].
    eexists. split; [reflexivity|]. split; discriminate.
  - eexists. split; [reflexivity|]. split; discriminate.
Qed.

(** An exception that leaves the embedding loop is one that left
    [generate_embeddings_batch]. *)
Lemma embed_loop_raise_source (E : Env) (P : list PageData.t) (starts : list nat) :
  forall acc w e,
    fst (embed_loop E P starts acc w) = Raise e ->
    exists texts w0, fst (generate_embeddings_batch E texts w0) = Raise e.
Proof.
  induction starts as [|i rest IH]; intros acc w e; cbn [embed_loop].
  - discriminate.
  - unfold bind.
    match goal with |- context [generate_embeddings_batch E ?ts w] =>
      destruct (generate_embeddings_batch E ts w) as [[vs|e0] w1] eqn:Hbatch;
      cbn [fst snd]; [apply IH|];
      intros [= <-]; exists ts, w; rewrite Hbatch; reflexivity
    end.
Qed.

(** The handler of the processor, reached from the embedding loop. *)
Lemma embedding_failure_handled
    (E : Env) (d t ty u : string) (w : World) (p : string) (j pages : json)
    (items : list json) (P : list PageData.t) (e : exn) :
  let w1 := snd (download_pdf E u w) in
  let w2 := snd (extract_text_from_pdf E p w1) in
  let embedding :=
    embed_loop E P (py_range (length P) BATCH_EMBEDDING_SIZE) [] w2 in
  fst (download_pdf E u w) = Ok (Some p) ->
  fst (extract_text_from_pdf E p w1) = Ok j ->
  Py.truthy j = true ->
  Py.get j "pages" (JArr []) = Ok pages ->
  Py.iter pages = Ok items ->
  page_loop j items [] = Ok P ->
  fst embedding = Raise e ->
  process_new_document E d t ty u w
  = (Ok false,
     snd (print ("[ERROR] Processing failed: " ++ str_of_exn e)%string
            (snd embedding))).
Proof.
  intros w1 w2 embedding Hd He Hj Hpages Hitems Hloop Hraise.
  unfold process_new_document, try_except.
  destruct (download_pdf E u w) as [r0 w1'] eqn:Hdl. cbn [fst snd] in *.
  subst r0 w1. rewrite (bind_ok _ _ _ _ _ Hdl).
  destruct (extract_text_from_pdf E p w1') as [r1 w2'] eqn:Hext.
  cbn [fst snd] in *. subst r1 w2. rewrite (bind_ok _ _ _ _ _ Hext).
  rewrite Hj. cbn [negb]. rewrite bind_lift, Hpages, bind_lift, Hitems,
    bind_lift, Hloop.
  destruct P as [|pd0 P'].
  { subst embedding. cbn in Hraise. discriminate Hraise. }
  destruct embedding as [r3 w3] eqn:Hemb. cbn [fst snd] in *. subst r3.
  subst embedding. rewrite (bind_raise _ _ _ _ _ Hemb). reflexivity.
Qed.

(** C2, as the code has it.  The scraper, the OCR extraction, the existence
    check and the download catch every exception of their collaborator and
    answer with the empty table, [None], [False] and [None]; none of them
    ever raises.  [generate_embeddings_batch] has no handler: an exception
    of the embedding endpoint is raised to its caller.  It is
    [process_new_document], one level up, that never raises: when the
    embedding loop raises, the exception is one that left
    [generate_embeddings_batch], the processor prints it and returns
    [False], and the coordinator counts the work item as failed. *)
Theorem leaf_failures_absorbed_except_embeddings (E : Env) (w : World) :
  (exists df,
     fst (scrape_bnm_announcements E w) = Ok df
     /\ forall e, site_table E (snd (emit CallScrape w)) = Raise e -> df = [])
  /\ (forall path, exists j,
        fst (extract_text_from_pdf E path w) = Ok j
        /\ forall e,
             ocr_webhook E path (snd (emit (CallOcr path) w)) = Raise e ->
             j = JNull)
  /\ (forall title date, exists b,
        fst (check_document_exists E title date w) = Ok b
        /\ forall e,
             supabase_select_error E title date
               (snd (emit (CallExists title date) w)) = Some e ->
             b = false)
  /\ (forall url, exists o,
        fst (download_pdf E url w) = Ok o
        /\ (forall e,
              browser_launch_error E (snd (emit (CallDownload url) w)) = Some e ->
              o = None)
        /\ (forall e,
              browser_download E url (snd (emit (CallDownload url) w)) = Raise e ->
              o = None))
  /\ (forall texts e,
        openai_embeddings E (map clean_text texts)
          (snd (emit (CallEmbed texts) w)) = Raise e ->
        fst (generate_embeddings_batch E texts w) = Raise e)
  /\ (forall date title doc_type pdf_url, exists b,
        fst (process_new_document E date title doc_type pdf_url w) = Ok b)
  /\ (forall date title doc_type pdf_url p j pages items P e,
        let w1 := snd (download_pdf E pdf_url w) in
        let w2 := snd (extract_text_from_pdf E p w1) in
        let run := process_new_document E date title doc_type pdf_url w in
        fst (download_pdf E pdf_url w) = Ok (Some p) ->
        fst (extract_text_from_pdf E p w1) = Ok j ->
        Py.truthy j = true ->
        Py.get j "pages" (JArr []) = Ok pages ->
        Py.iter pages = Ok items ->
        page_loop j items [] = Ok P ->
        fst (embed_loop E P (py_range (length P) BATCH_EMBEDDING_SIZE) [] w2)
        = Raise e ->
        (exists texts w0, fst (generate_embeddings_batch E texts w0) = Raise e)
        /\ fst run = Ok false
        /\ last (prints (trace (snd run)))
           = Some ("[ERROR] Processing failed: " ++ str_of_exn e)%string
        /\ cron_status (snd (process_item E (date, title, doc_type, pdf_url) w))
           = bump_failed (cron_status w)).
Proof.
  split; [|split; [|split; [|split; [|split; [|split]]]]].
  - rewrite scrape_run.
    destruct (site_table E (snd (emit CallScrape w))) as [rows|e0]; cbn [fst].
    + eexists. split; [reflexivity|]. discriminate.
    + eexists. split; [reflexivity|]. reflexivity.
  - intros path. apply extract_absorbs.
  - intros title date. rewrite check_document_exists_run. cbn [fst].
    eexists. split; [reflexivity|]. intros e ->. reflexivity.
  - intros url. apply download_absorbs.
  - intros texts e He. rewrite generate_embeddings_batch_run. exact He.
  - intros date title doc_type pdf_url. apply no_raise_process.
  - intros date title doc_type pdf_url p j pages items P e w1 w2 run
      Hd He Hj Hpages Hitems Hloop Hraise.
    pose proof (embedding_failure_handled E date title doc_type pdf_url w p j
                  pages items P e Hd He Hj Hpages Hitems Hloop Hraise) as Hrun.
    fold w1 w2 in Hrun. fold run in Hrun.
    split; [eapply embed_loop_raise_source; exact Hraise|].
    split; [rewrite Hrun; reflexivity|].
    split.
    { rewrite Hrun. cbn [snd print emit modify trace].
      unfold prints. rewrite omap_snoc. cbn. apply last_snoc. }
    pose proof (keeps_process_status E date title doc_type pdf_url w) as Hst.
    fold run in Hst. unfold process_item, try_except.
    fold run. destruct run as [r w'] eqn:Hr. cbn [fst snd] in *.
    injection Hrun as -> _. rewrite (bind_ok _ _ _ _ _ Hr).
    cbn. rewrite Hst. reflexivity.
Qed.

(** With the endpoint unreachable, the work item of the one announcement
    is answered [False] and counted as failed. *)
Lemma leaf_failures_absorbed_except_embeddings_witness :
  let E := Scenario.openai_down Scenario.one_pdf Scenario.pages_kept in
  let item := ("02 Jan 2025"%string, "Policy B"%string,
               "Policy Document"%string,
               "https://www.bnm.gov.my/docs/b.pdf"%string) in
  fst (process_new_document E "02 Jan 2025" "Policy B" "Policy Document"
         "https://www.bnm.gov.my/docs/b.pdf" Scenario.world0) = Ok false
  /\ CronStatus.failed (cron_status (snd (process_item E item Scenario.world0))) = 1.
Proof.
  cbv zeta.
  destruct (leaf_failures_absorbed_except_embeddings
              (Scenario.openai_down Scenario.one_pdf Scenario.pages_kept)
              Scenario.world0) as (_ & _ & _ & _ & _ & _ & H).
  destruct (H "02 Jan 2025"%string "Policy B"%string "Policy Document"%string
              "https://www.bnm.gov.my/docs/b.pdf"%string
              "temp_bnm_downloads/b.pdf"%string
              (JObj [("pages"%string, JArr Scenario.pages_kept);
                     ("extractedText"%string, JStr "full text");
                     ("model"%string, JStr "mistral-ocr-latest")])
              (JArr Scenario.pages_kept) Scenario.pages_kept _
              (Exception "APIConnectionError")
              eq_refl eq_refl eq_refl eq_refl eq_refl eq_refl eq_refl)
    as (_ & Hfalse & _ & Hfailed).
  split; [exact Hfalse|]. rewrite Hfailed. reflexivity.
Defined.

(** C2, as the spec has it, fails for the embedding generator: with the
    endpoint unreachable, [generate_embeddings_batch] raises. *)
Lemma embedding_failure_reaches_the_caller :
  fst (generate_embeddings_batch
         (Scenario.openai_down Scenario.one_pdf Scenario.pages_kept)
         ["Guidelines on capital adequacy"%string] Scenario.world0)
  = Raise (Exception "APIConnectionError")
  /\ ~ no_raise (generate_embeddings_batch
                   (Scenario.openai_down Scenario.one_pdf Scenario.pages_kept)
                   ["Guidelines on capital adequacy"%string]).
Proof.
  split; [reflexivity|].
  intros H. destruct (H Scenario.world0) as [vs Hvs]. discriminate Hvs.
Qed.

(** ** Cleaning up the downloaded payload *)

Section Cleanup.

Variable E : Env.

Lemma keeps_extract_unlinks p :
  keeps (fun w => unlinks (trace w)) (extract_text_from_pdf E p).
Proof. unfold extract_text_from_pdf, open_file, print. frames. Qed.

Lemma keeps_embed_loop_unlinks pdl starts acc :
  keeps (fun w => unlinks (trace w)) (embed_loop E pdl starts acc).
Proof.
  revert acc. induction starts as [|i rest IH]; intros acc; simpl.
  - apply keeps_ret.
  - apply keeps_bind; [|intros a; apply IH].
    unfold generate_embeddings_batch. frames.
Qed.

Lemma keeps_store_unlinks d t ty u pd ocr vs :
  keeps (fun w => unlinks (trace w)) (store_document_pages E d t ty u pd ocr vs).
Proof.
  apply keeps_store_loop.
  - intros p v. unfold store_page, supabase_insert, now, set_table. frames.
  - intros line. unfold print. frames.
Qed.

Lemma download_pdf_keeps_payload url w p :
  fst (download_pdf E url w) = Ok (Some p) ->
  p ∈ files (snd (download_pdf E url w))
  /\ unlinks (trace (snd (download_pdf E url w))) = unlinks (trace w).
Proof.
  unfold download_pdf, try_except, browser_launch.
  repeat progress
    (unfold bind, emit, modify, ask, ask_result, raise, ret, print, set_files,
       unlink;
     cbn [fst snd files]).
  match goal with |- context [browser_launch_error E ?x] =>
    destruct (browser_launch_error E x) end; cbn [fst snd]; [discriminate|].
  match goal with |- context [browser_download E url ?x] =>
    destruct (browser_download E url x) as [size|e0] end; cbn [fst snd];
    [|discriminate].
  destruct (size <? 1000); cbn [fst snd files].
  - rewrite bool_decide_eq_true_2 by set_solver. cbn [fst snd]. discriminate.
  - intros [= <-]. cbn [files trace]. split; [set_solver|].
    unfold unlinks. rewrite omap_snoc. cbn. apply app_nil_r.
Qed.

(** After a successful download the processor ends in one of two ways:
    the payload was unlinked once and is gone, or the exception handler ran,
    nothing was unlinked and the payload is still there. *)
Lemma payload_unlinked_unless_handler_ran d t ty u w p :
  fst (download_pdf E u w) = Ok (Some p) ->
  let run := process_new_document E d t ty u w in
  (unlinks (trace (snd run)) = unlinks (trace w) ++ [p]
   /\ p ∉ files (snd run))
  \/ (unlinks (trace (snd run)) = unlinks (trace w)
      /\ p ∈ files (snd run)
      /\ fst run = Ok false
      /\ exists e, last (prints (trace (snd run)))
                   = Some ("[ERROR] Processing failed: " ++ str_of_exn e)%string).
Proof.
  intros Hdl. cbv zeta.
  destruct (download_pdf_keeps_payload u w p Hdl) as [Hin Hun].
  unfold process_new_document, try_except.
  destruct (download_pdf E u w) as [r w1] eqn:Hd. cbn [fst snd] in *. subst r.
  rewrite (bind_ok _ _ _ _ _ Hd).
  destruct (extract_run E p w1) as (j & w2 & He & _ & Hf2).
  pose proof (keeps_extract_unlinks p w1) as Hu2. rewrite He in Hu2.
  cbn [snd] in Hu2.
  rewrite (bind_ok _ _ _ _ _ He).
  assert (Hin2 : p ∈ files w2) by (rewrite Hf2; exact Hin).
  assert (Hun2 : unlinks (trace w2) = unlinks (trace w)) by congruence.
  clear Hd He Hf2 Hu2 Hin Hun w1.
  assert (Hclean : forall w3 (b : bool),
            p ∈ files w3 -> unlinks (trace w3) = unlinks (trace w) ->
            exists w4,
              (unlink p ;; ret b) w3 = (Ok b, w4)
              /\ unlinks (trace w4) = unlinks (trace w) ++ [p]
              /\ p ∉ files w4).
  { intros w3 b Hin3 Hun3.
    destruct (unlink_present p w3 Hin3) as (w4 & Hu & Ht4 & Hf4 & Hun4).
    exists w4. rewrite (bind_ok _ _ _ _ _ Hu).
    rewrite Hun4, Hun3, Hf4. split; [reflexivity|].
    split; [reflexivity|].
    rewrite not_elem_of_difference, elem_of_singleton. right. reflexivity. }
  assert (Hhandler : forall w3 e,
            p ∈ files w3 -> unlinks (trace w3) = unlinks (trace w) ->
            let run := (print ("[ERROR] Processing failed: " ++ str_of_exn e)%string
                          ;; ret false) w3 in
            unlinks (trace (snd run)) = unlinks (trace w)
            /\ p ∈ files (snd run)
            /\ fst run = Ok false
            /\ exists e0, last (prints (trace (snd run)))
                          = Some ("[ERROR] Processing failed: " ++ str_of_exn e0)%string).
  { intros w3 e Hin3 Hun3. cbn. split.
    - unfold unlinks. rewrite omap_snoc. cbn. rewrite app_nil_r. exact Hun3.
    - split; [exact Hin3|]. split; [reflexivity|]. exists e.
      unfold prints. rewrite omap_snoc. cbn. apply last_snoc. }
  destruct (Py.truthy j); cbn [negb].
  2:{ left. destruct (Hclean w2 false Hin2 Hun2) as (w4 & -> & ? & ?).
      split; assumption. }
  rewrite bind_lift.
  destruct (Py.get j "pages" (JArr [])) as [pages|e];
    [|right; cbv beta iota; apply (Hhandler w2 e Hin2 Hun2)].
  rewrite bind_lift.
  destruct (Py.iter pages) as [items|e];
    [|right; cbv beta iota; apply (Hhandler w2 e Hin2 Hun2)].
  rewrite bind_lift.
  destruct (page_loop j items []) as [pdl|e];
    [|right; cbv beta iota; apply (Hhandler w2 e Hin2 Hun2)].
  destruct pdl as [|pd0 pdl].
  { left. destruct (Hclean w2 false Hin2 Hun2) as (w4 & -> & ? & ?).
    split; assumption. }
  set (P := pd0 :: pdl).
  pose proof (keeps_embed_loop_unlinks P
                (py_range (length P) BATCH_EMBEDDING_SIZE) [] w2) as Hu3.
  pose proof (keeps_embed_loop E files P
                (py_range (length P) BATCH_EMBEDDING_SIZE) [] keeps_emit_files w2) as Hf3.
  destruct (embed_loop E P (py_range (length P) BATCH_EMBEDDING_SIZE) [] w2)
    as [[vs|e] w3] eqn:Hemb; cbn [fst snd] in Hu3, Hf3.
  2:{ rewrite (bind_raise _ _ _ _ _ Hemb). right. cbv beta iota.
      apply Hhandler; [rewrite Hf3; exact Hin2|congruence]. }
  rewrite (bind_ok _ _ _ _ _ Hemb).
  pose proof (keeps_store_unlinks d t ty u P j vs w3) as Hu4.
  unfold store_document_pages in *.
  destruct (store_loop_run E d t ty u P j (combine P vs) 0 w3)
    as (rows & tried & w4 & Hst & _ & Hf4 & _).
  rewrite Hst in Hu4. cbn [snd] in Hu4.
  rewrite (bind_ok _ _ _ _ _ Hst). left.
  destruct (Hclean w4 (0 <? 0 + length rows)) as (w5 & -> & ? & ?);
    [rewrite Hf4, Hf3; exact Hin2|congruence|].
  split; assumption.
Qed.

End Cleanup.

(** C1 does not hold of the code.  The download succeeds and the OCR
    answers three pages that pass the filter, but the embedding endpoint
    cannot be reached: the exception leaves [generate_embeddings_batch],
    the handler of [process_new_document] prints it and returns [False],
    and [unlink] is never called, so the payload stays in the download
    directory.  With the endpoint answering, the same work item ends with
    one [unlink] and an empty directory. *)
Theorem embedding_failure_leaves_payload_behind :
  let failing :=
    process_new_document
      (Scenario.openai_down Scenario.one_pdf Scenario.pages_kept)
      "02 Jan 2025" "Policy B" "Policy Document"
      "https://www.bnm.gov.my/docs/b.pdf" Scenario.world0 in
  let passing :=
    process_new_document
      (Scenario.healthy Scenario.one_pdf Scenario.pages_kept)
      "02 Jan 2025" "Policy B" "Policy Document"
      "https://www.bnm.gov.my/docs/b.pdf" Scenario.world0 in
  (fst failing = Ok false
   /\ downloads (trace (snd failing)) = ["https://www.bnm.gov.my/docs/b.pdf"%string]
   /\ unlinks (trace (snd failing)) = []
   /\ elements (files (snd failing)) = ["temp_bnm_downloads/b.pdf"%string]
   /\ prints (trace (snd failing))
      = ["[ERROR] Processing failed: APIConnectionError"%string])
  /\ (fst passing = Ok true
      /\ unlinks (trace (snd passing)) = ["temp_bnm_downloads/b.pdf"%string]
      /\ elements (files (snd passing)) = []).
Proof. vm_compute. repeat split; reflexivity. Qed.

(** * Further properties of the code *)

(** ** Cleaning a text before it is embedded *)

Lemma slice_to_length (n : nat) (s : string) :
  PyStr.len (PyStr.slice_to n s) = Nat.min n (PyStr.len s).
Proof.
  unfold PyStr.len. revert s. induction n as [|n IH]; intros [|c s]; simpl;
    try reflexivity.
  rewrite IH. reflexivity.
Qed.

Lemma slice_to_all (n : nat) (s : string) :
  PyStr.len s <= n -> PyStr.slice_to n s = s.
Proof.
  unfold PyStr.len. revert s. induction n as [|n IH]; intros [|c s]; simpl;
    intros H; try reflexivity; try lia.
  rewrite IH by lia. reflexivity.
Qed.

(** X1. What is sent to the embedding endpoint for a text is the first 8000
    characters of the text with its newlines turned into spaces and then
    stripped: never more than 8000 characters, exactly 8000 when the
    stripped text is longer, and the stripped text itself when it has 8000
    characters or fewer. *)
Theorem clean_text_truncates (text : string) :
  let stripped := PyStr.strip (PyStr.replace newline space text) in
  clean_text text = PyStr.slice_to MAX_TEXT_CHARS stripped
  /\ PyStr.len (clean_text text) <= MAX_TEXT_CHARS
  /\ (PyStr.len stripped <= MAX_TEXT_CHARS -> clean_text text = stripped)
  /\ (MAX_TEXT_CHARS < PyStr.len stripped ->
      PyStr.len (clean_text text) = MAX_TEXT_CHARS).
Proof.
  cbv zeta. unfold clean_text.
  set (stripped := PyStr.strip (PyStr.replace newline space text)).
  generalize MAX_TEXT_CHARS as n. intros n.
  destruct (Nat.ltb_spec n (PyStr.len stripped)) as [Hlt|Hge].
  - rewrite slice_to_length. repeat split; try lia.
  - rewrite (slice_to_all n stripped Hge). repeat split; try lia.
Qed.

Lemma In_lstrip (c : ascii) (s : string) :
  In c (list_ascii_of_string (PyStr.lstrip s)) -> In c (list_ascii_of_string s).
Proof.
  induction s as [|a s IH]; simpl; [tauto|].
  destruct (PyStr.isspace a); simpl; tauto.
Qed.

Lemma In_rstrip (c : ascii) (s : string) :
  In c (list_ascii_of_string (PyStr.rstrip s)) -> In c (list_ascii_of_string s).
Proof.
  induction s as [|a s IH]; simpl; [tauto|].
  destruct (PyStr.rstrip s) as [|b r]; simpl in *.
  - destruct (PyStr.isspace a); simpl; tauto.
  - tauto.
Qed.

Lemma In_slice_to (c : ascii) (n : nat) (s : string) :
  In c (list_ascii_of_string (PyStr.slice_to n s)) ->
  In c (list_ascii_of_string s).
Proof.
  revert s. induction n as [|n IH]; intros [|a s]; simpl; try tauto.
  intros [H|H]; [left; exact H|right; apply IH; exact H].
Qed.

Lemma In_replace (a b c : ascii) (s : string) :
  a <> b ->
  In c (list_ascii_of_string (PyStr.replace a b s)) -> c <> a.
Proof.
  intros Hab. induction s as [|x s IH]; simpl; [tauto|].
  intros [H|H]; [|apply IH; exact H]. subst c.
  destruct (Ascii.eqb_spec x a) as [->|Hne]; congruence.
Qed.

(** X2. No text sent to the embedding endpoint contains a newline. *)
Theorem clean_text_has_no_newline (text : string) (c : ascii) :
  In c (list_ascii_of_string (clean_text text)) -> c <> newline.
Proof.
  unfold clean_text.
  set (replaced := PyStr.replace newline space text).
  assert (Hstrip : In c (list_ascii_of_string (PyStr.strip replaced)) ->
                   c <> newline).
  { intros H. apply In_rstrip, In_lstrip in H.
    apply (In_replace newline space c text); [discriminate|exact H]. }
  destruct (MAX_TEXT_CHARS <? PyStr.len (PyStr.strip replaced)).
  - intros H. apply Hstrip. eapply In_slice_to. exact H.
  - exact Hstrip.
Qed.

Lemma clean_text_has_no_newline_witness :
  "a"%char <> newline.
Proof.
  apply (clean_text_has_no_newline
           (String "a" (String newline (String "b" EmptyString)))).
  vm_compute. left. reflexivity.
Defined.

Lemma replace_absent (a b : ascii) (s : string) :
  (forall c, In c (list_ascii_of_string s) -> c <> a) ->
  PyStr.replace a b s = s.
Proof.
  induction s as [|x s IH]; simpl; intros H; [reflexivity|].
  destruct (Ascii.eqb_spec x a) as [->|Hne].
  - exfalso. apply (H a); [left; reflexivity|reflexivity].
  - rewrite IH; [reflexivity|]. intros c Hc. apply H. right. exact Hc.
Qed.

(** X3. A text without newlines that [strip] leaves alone and that has at
    most 8000 characters is sent to the endpoint as it is; in particular a
    text of exactly 8000 characters is not cut. *)
Theorem clean_text_keeps_clean_text (text : string) :
  (forall c, In c (list_ascii_of_string text) -> c <> newline) ->
  PyStr.strip text = text ->
  PyStr.len text <= MAX_TEXT_CHARS ->
  clean_text text = text.
Proof.
  intros Hnl Hstrip Hlen. unfold clean_text.
  rewrite (replace_absent newline space text Hnl), Hstrip.
  destruct (Nat.ltb_spec MAX_TEXT_CHARS (PyStr.len text)); [lia|reflexivity].
Qed.

Lemma In_repeat (a c : ascii) (n : nat) :
  In c (list_ascii_of_string (PyStr.repeat a n)) -> c = a.
Proof. induction n as [|n IH]; simpl; [tauto|]. intros [H|H]; auto. Qed.

Lemma clean_text_keeps_clean_text_witness :
  clean_text (PyStr.repeat "a" MAX_TEXT_CHARS) = PyStr.repeat "a" MAX_TEXT_CHARS.
Proof.
  apply clean_text_keeps_clean_text.
  - intros c Hc. apply In_repeat in Hc. subst c. discriminate.
  - vm_compute. reflexivity.
  - vm_compute. reflexivity.
Defined.

(** ** Downloading *)

Lemma rev_app_append (s t u : string) :
  String.rev_app s (t ++ u)%string = (String.rev_app s t ++ u)%string.
Proof. revert t. induction s as [|a s IH]; intros t; simpl; [reflexivity|]. apply (IH (String a t)). Qed.

Lemma rev_app_app (s t u : string) :
  String.rev_app (s ++ t)%string u = String.rev_app t (String.rev_app s u).
Proof. revert u. induction s as [|a s IH]; intros u; simpl; [reflexivity|]. apply IH. Qed.

Lemma rev_append (s t : string) :
  String.rev (s ++ t)%string = (String.rev t ++ String.rev s)%string.
Proof.
  unfold String.rev. rewrite rev_app_app.
  apply (rev_app_append t "" (String.rev_app s "")).
Qed.

Lemma prefix_append (p x : string) : String.prefix p (p ++ x)%string = true.
Proof.
  induction p as [|a p IH]; simpl; [destruct x; reflexivity|].
  destruct (ascii_dec a a); [exact IH|congruence].
Qed.

Lemma endswith_append (p s : string) : PyStr.endswith p (s ++ p)%string = true.
Proof. unfold PyStr.endswith. rewrite rev_append. apply prefix_append. Qed.

Lemma In_append (c : ascii) (s t : string) :
  In c (list_ascii_of_string (s ++ t)%string)
  <-> In c (list_ascii_of_string s) \/ In c (list_ascii_of_string t).
Proof. induction s as [|a s IH]; simpl; [tauto|]. rewrite IH. tauto. Qed.

Lemma last_segment_from_no_slash (seg s : string) (c : ascii) :
  (forall x, In x (list_ascii_of_string seg) -> x <> "/"%char) ->
  In c (list_ascii_of_string (PyStr.last_segment_from seg s)) -> c <> "/"%char.
Proof.
  revert seg. induction s as [|a s IH]; intros seg Hseg; simpl.
  - apply Hseg.
  - destruct (Ascii.eqb_spec a "/"%char) as [->|Hne].
    + apply IH. simpl. tauto.
    + apply IH. intros x Hx. apply In_append in Hx as [Hx|Hx].
      * apply Hseg. exact Hx.
      * simpl in Hx. destruct Hx as [<-|[]]. exact Hne.
Qed.

Section Download.

Variable E : Env.

(** [download_pdf], run against a browser that starts. *)
Lemma download_pdf_saved (url : string) (w : World) (size : nat) :
  let w1 := snd (emit (CallDownload url) w) in
  browser_launch_error E w1 = None ->
  browser_download E url w1 = Ok size ->
  fst (download_pdf E url w)
  = Ok (if size <? 1000 then None else Some (download_path url))
  /\ files (snd (download_pdf E url w))
     = if size <? 1000 then ({[ download_path url ]} ∪ files w) ∖ {[ download_path url ]}
       else {[ download_path url ]} ∪ files w.
Proof.
  cbv zeta. intros Hlaunch Hdl.
  unfold download_pdf, try_except, browser_launch.
  repeat progress
    (unfold bind, emit, modify, ask, ask_result, raise, ret, print, set_files,
       unlink in *;
     cbn [fst snd files] in * ).
  rewrite Hlaunch. cbn [fst snd]. rewrite Hdl. cbn [fst snd].
  fold (download_path url).
  destruct (size <? 1000); cbn [fst snd files].
  - rewrite bool_decide_eq_true_2
      by (apply elem_of_union; left; apply elem_of_singleton; reflexivity).
    cbn [fst snd files]. split; reflexivity.
  - split; reflexivity.
Qed.

Lemma download_pdf_some (url : string) (w : World) (p : string) :
  fst (download_pdf E url w) = Ok (Some p) -> p = download_path url.
Proof.
  unfold download_pdf, try_except, browser_launch.
  repeat progress
    (unfold bind, emit, modify, ask, ask_result, raise, ret, print, set_files,
       unlink;
     cbn [fst snd files]).
  fold (download_path url).
  match goal with |- context [browser_launch_error E ?x] =>
    destruct (browser_launch_error E x) end; cbn [fst snd]; [discriminate|].
  match goal with |- context [browser_download E url ?x] =>
    destruct (browser_download E url x) as [size|e0] end; cbn [fst snd];
    [|discriminate].
  destruct (size <? 1000); cbn [fst snd files].
  - rewrite bool_decide_eq_true_2
      by (apply elem_of_union; left; apply elem_of_singleton; reflexivity).
    cbn [fst snd]. discriminate.
  - intros [= <-]. reflexivity.
Qed.

End Download.

(** X4. A path returned by [download_pdf] names a file that is in the
    download directory when the function returns, directly inside
    [temp_bnm_downloads]: the name after the directory ends in [.pdf] and
    contains no slash, whatever the URL was. *)
Theorem downloaded_file_lies_in_download_dir
    (E : Env) (url : string) (w : World) (p : string) :
  fst (download_pdf E url w) = Ok (Some p) ->
  exists name,
    p = (DOWNLOAD_DIR ++ "/" ++ name)%string
    /\ PyStr.endswith ".pdf" name = true
    /\ (forall c, In c (list_ascii_of_string name) -> c <> "/"%char)
    /\ p ∈ files (snd (download_pdf E url w)).
Proof.
  intros Hp. pose proof (download_pdf_some E url w p Hp) as ->.
  destruct (download_pdf_keeps_payload E url w _ Hp) as [Hin _].
  unfold download_path in *. cbv zeta in *.
  assert (Hseg : forall c,
            In c (list_ascii_of_string (PyStr.last_segment url)) -> c <> "/"%char).
  { intros c. apply last_segment_from_no_slash. simpl. tauto. }
  destruct (PyStr.endswith ".pdf" (PyStr.last_segment url)) eqn:Hends.
  - exists (PyStr.last_segment url). repeat split; assumption.
  - exists (PyStr.last_segment url ++ ".pdf")%string.
    split; [reflexivity|]. split; [apply endswith_append|]. split; [|exact Hin].
    intros c Hc. apply In_append in Hc as [Hc|Hc]; [apply Hseg; exact Hc|].
    simpl in Hc. intuition (subst; discriminate).
Qed.

Lemma downloaded_file_lies_in_download_dir_witness :
  exists name,
    "temp_bnm_downloads/b.pdf"%string = (DOWNLOAD_DIR ++ "/" ++ name)%string
    /\ PyStr.endswith ".pdf" name = true.
Proof.
  destruct (downloaded_file_lies_in_download_dir
              (Scenario.healthy Scenario.one_pdf Scenario.pages_kept)
              "https://www.bnm.gov.my/docs/b.pdf" Scenario.world0
              "temp_bnm_downloads/b.pdf" eq_refl) as (name & Hp & Hends & _).
  exists name. split; assumption.
Defined.

(** X5. When the browser saves a download, [download_pdf] keeps it only if
    it has at least 1000 bytes.  A smaller file is deleted again and [None]
    is returned, and the path is then free even if an earlier file of the
    same name was there; a file of 1000 bytes or more stays in the
    directory and its path is returned. *)
Theorem undersized_download_is_discarded
    (E : Env) (url : string) (w : World) (size : nat) :
  browser_launch_error E (snd (emit (CallDownload url) w)) = None ->
  browser_download E url (snd (emit (CallDownload url) w)) = Ok size ->
  let run := download_pdf E url w in
  (size < 1000 ->
     fst run = Ok None
     /\ (download_path url ∉ files (snd run))
     /\ files (snd run) = files w ∖ {[ download_path url ]})
  /\ (1000 <= size ->
        fst run = Ok (Some (download_path url))
        /\ files (snd run) = {[ download_path url ]} ∪ files w).
Proof.
  intros Hlaunch Hdl run. subst run.
  destruct (download_pdf_saved E url w size Hlaunch Hdl) as [-> ->].
  split; intros Hsize.
  - destruct (Nat.ltb_spec size 1000); [|lia].
    split; [reflexivity|]. split.
    + rewrite not_elem_of_difference, elem_of_singleton. right. reflexivity.
    + apply set_eq. intros x.
      rewrite !elem_of_difference, elem_of_union, elem_of_singleton. tauto.
  - destruct (Nat.ltb_spec size 1000); [lia|]. split; reflexivity.
Qed.

Lemma undersized_download_is_discarded_witness :
  fst (download_pdf (Scenario.healthy Scenario.one_pdf Scenario.pages_kept)
         "https://www.bnm.gov.my/docs/b.pdf" Scenario.world0)
  = Ok (Some (download_path "https://www.bnm.gov.my/docs/b.pdf")).
Proof.
  destruct (undersized_download_is_discarded
              (Scenario.healthy Scenario.one_pdf Scenario.pages_kept)
              "https://www.bnm.gov.my/docs/b.pdf" Scenario.world0 2048
              eq_refl eq_refl) as [_ Hbig].
  apply Hbig. lia.
Defined.

(** ** The gates of the processor *)

(** X6. When the download yields no file, the processor returns [False]
    and does nothing more: the world is as [download_pdf] left it, so the
    OCR webhook, the embedding endpoint and the table are not touched and
    nothing is unlinked. *)
Theorem failed_download_ends_processing
    (E : Env) (d t ty u : string) (w : World) :
  fst (download_pdf E u w) = Ok None ->
  process_new_document E d t ty u w = (Ok false, snd (download_pdf E u w)).
Proof.
  intros Hd. unfold process_new_document, try_except.
  destruct (download_pdf E u w) as [r w1] eqn:Hrun. cbn [fst snd] in *.
  subst r. rewrite (bind_ok _ _ _ _ _ Hrun). reflexivity.
Qed.

Lemma failed_download_ends_processing_witness :
  let run :=
    process_new_document
      (Scenario.browser_down Scenario.one_pdf Scenario.pages_kept)
      "02 Jan 2025" "Policy B" "Policy Document"
      "https://www.bnm.gov.my/docs/b.pdf" Scenario.world0 in
  fst run = Ok false /\ inserts (trace (snd run)) = [].
Proof.
  cbv zeta.
  rewrite (failed_download_ends_processing
             (Scenario.browser_down Scenario.one_pdf Scenario.pages_kept)
             "02 Jan 2025" "Policy B" "Policy Document"
             "https://www.bnm.gov.my/docs/b.pdf" Scenario.world0 eq_refl).
  split; reflexivity.
Defined.

(** X7. When the download succeeds but the OCR step returns nothing usable
    ([None] after a failure, or an empty list or object), the processor
    unlinks the payload and returns [False]: the world is as the OCR step
    left it but for the payload, which is gone, and neither the embedding
    endpoint nor the table was called. *)
Theorem empty_ocr_answer_ends_processing
    (E : Env) (d t ty u : string) (w : World) (p : string) (j : json) :
  let w1 := snd (download_pdf E u w) in
  let w2 := snd (extract_text_from_pdf E p w1) in
  fst (download_pdf E u w) = Ok (Some p) ->
  fst (extract_text_from_pdf E p w1) = Ok j ->
  Py.truthy j = false ->
  process_new_document E d t ty u w = (Ok false, snd (unlink p w2))
  /\ files (snd (unlink p w2)) = files w1 ∖ {[ p ]}
  /\ embed_calls (trace (snd (unlink p w2))) = embed_calls (trace w2)
  /\ inserts (trace (snd (unlink p w2))) = inserts (trace w2).
Proof.
  intros w1 w2 Hd He Hj.
  destruct (download_pdf_keeps_payload E u w p Hd) as [Hin _].
  pose proof (keeps_extract_files E p w1) as Hf. fold w1 in Hin. fold w2 in Hf.
  assert (Hin2 : p ∈ files w2) by (rewrite Hf; exact Hin).
  destruct (unlink_present p w2 Hin2) as (w3 & Hu & _ & Hf3 & _).
  assert (Hproc : process_new_document E d t ty u w = (Ok false, snd (unlink p w2))).
  { unfold process_new_document, try_except.
    destruct (download_pdf E u w) as [r0 w1'] eqn:Hrun. cbn [fst snd] in *.
    subst r0 w1. rewrite (bind_ok _ _ _ _ _ Hrun).
    destruct (extract_text_from_pdf E p w1') as [r1 w2'] eqn:Hext.
    cbn [fst snd] in *. subst r1 w2. rewrite (bind_ok _ _ _ _ _ Hext).
    rewrite Hj. cbn [negb]. rewrite (bind_ok _ _ _ _ _ Hu). rewrite Hu.
    reflexivity. }
  split; [exact Hproc|]. rewrite Hu. cbn [snd].
  split; [congruence|].
  revert Hu. unfold unlink, bind, emit, modify, ask, set_files.
  cbn [fst snd files]. rewrite (bool_decide_eq_true_2 _ Hin2).
  intros [= <-]. cbn [trace].
  unfold embed_calls, inserts. rewrite !omap_snoc. cbn. rewrite !app_nil_r.
  split; reflexivity.
Qed.

Lemma empty_ocr_answer_ends_processing_witness :
  let run :=
    process_new_document (Scenario.ocr_down Scenario.one_pdf)
      "02 Jan 2025" "Policy B" "Policy Document"
      "https://www.bnm.gov.my/docs/b.pdf" Scenario.world0 in
  fst run = Ok false
  /\ unlinks (trace (snd run)) = ["temp_bnm_downloads/b.pdf"%string].
Proof.
  cbv zeta.
  destruct (empty_ocr_answer_ends_processing
              (Scenario.ocr_down Scenario.one_pdf)
              "02 Jan 2025" "Policy B" "Policy Document"
              "https://www.bnm.gov.my/docs/b.pdf" Scenario.world0
              "temp_bnm_downloads/b.pdf" JNull eq_refl eq_refl eq_refl)
    as [-> _].
  split; reflexivity.
Defined.

(** X8. When the OCR answer has no page that passes the content filter,
    the processor unlinks the payload and returns [False] without calling
    the embedding endpoint or the table. *)
Theorem no_retained_page_ends_processing
    (E : Env) (d t ty u : string) (w : World) (p : string) (j pages : json)
    (items : list json) :
  let w1 := snd (download_pdf E u w) in
  let w2 := snd (extract_text_from_pdf E p w1) in
  fst (download_pdf E u w) = Ok (Some p) ->
  fst (extract_text_from_pdf E p w1) = Ok j ->
  Py.truthy j = true ->
  Py.get j "pages" (JArr []) = Ok pages ->
  Py.iter pages = Ok items ->
  page_loop j items [] = Ok [] ->
  process_new_document E d t ty u w = (Ok false, snd (unlink p w2))
  /\ files (snd (unlink p w2)) = files w1 ∖ {[ p ]}
  /\ embed_calls (trace (snd (unlink p w2))) = embed_calls (trace w2)
  /\ inserts (trace (snd (unlink p w2))) = inserts (trace w2).
Proof.
  intros w1 w2 Hd He Hj Hpages Hitems Hloop.
  destruct (download_pdf_keeps_payload E u w p Hd) as [Hin _].
  pose proof (keeps_extract_files E p w1) as Hf. fold w1 in Hin. fold w2 in Hf.
  assert (Hin2 : p ∈ files w2) by (rewrite Hf; exact Hin).
  destruct (unlink_present p w2 Hin2) as (w3 & Hu & _ & Hf3 & _).
  assert (Hproc : process_new_document E d t ty u w = (Ok false, snd (unlink p w2))).
  { unfold process_new_document, try_except.
    destruct (download_pdf E u w) as [r0 w1'] eqn:Hrun. cbn [fst snd] in *.
    subst r0 w1. rewrite (bind_ok _ _ _ _ _ Hrun).
    destruct (extract_text_from_pdf E p w1') as [r1 w2'] eqn:Hext.
    cbn [fst snd] in *. subst r1 w2. rewrite (bind_ok _ _ _ _ _ Hext).
    rewrite Hj. cbn [negb]. rewrite bind_lift, Hpages, bind_lift, Hitems,
      bind_lift, Hloop.
    rewrite (bind_ok _ _ _ _ _ Hu). rewrite Hu. reflexivity. }
  split; [exact Hproc|]. rewrite Hu. cbn [snd].
  split; [congruence|].
  revert Hu. unfold unlink, bind, emit, modify, ask, set_files.
  cbn [fst snd files]. rewrite (bool_decide_eq_true_2 _ Hin2).
  intros [= <-]. cbn [trace].
  unfold embed_calls, inserts. rewrite !omap_snoc. cbn. rewrite !app_nil_r.
  split; reflexivity.
Qed.

Lemma no_retained_page_ends_processing_witness :
  let run :=
    process_new_document
      (Scenario.healthy Scenario.one_pdf [Scenario.page 0 49])
      "02 Jan 2025" "Policy B" "Policy Document"
      "https://www.bnm.gov.my/docs/b.pdf" Scenario.world0 in
  fst run = Ok false /\ embed_calls (trace (snd run)) = [].
Proof.
  cbv zeta.
  destruct (no_retained_page_ends_processing
              (Scenario.healthy Scenario.one_pdf [Scenario.page 0 49])
              "02 Jan 2025" "Policy B" "Policy Document"
              "https://www.bnm.gov.my/docs/b.pdf" Scenario.world0
              "temp_bnm_downloads/b.pdf"
              (JObj [("pages", JArr [Scenario.page 0 49]);
                     ("extractedText", JStr "full text");
                     ("model", JStr "mistral-ocr-latest")])
              (JArr [Scenario.page 0 49]) [Scenario.page 0 49]
              eq_refl eq_refl eq_refl eq_refl eq_refl eq_refl)
    as [-> _].
  split; reflexivity.
Defined.

(** ** What is stored, and finding it again *)

Section Stamps.

Variable E : Env.

Lemma store_page_stamps d t ty u pd ocr p v w :
  let w' := snd (store_page E d t ty u pd ocr p v w) in
  exists new tried,
    table w' = table w ++ new
    /\ inserts (trace w') = inserts (trace w) ++ tried
    /\ Forall (row_stamped d t ty u (length pd)) new
    /\ Forall (row_stamped d t ty u (length pd)) tried.
Proof.
  cbv zeta. remember (store_page E d t ty u pd ocr p v w) as run eqn:Hrun.
  unfold store_page, now in Hrun. cbv zeta in Hrun. rewrite bind_ask in Hrun.
  repeat (rewrite bind_lift in Hrun;
          match type of Hrun with
          | context [match ?x with Ok _ => _ | Raise _ => _ end] => destruct x
          end;
          [ | rewrite Hrun; cbn [fst snd];
              exists [], []; rewrite !app_nil_r; repeat split; constructor ]).
  rewrite bind_ask, supabase_insert_run in Hrun. cbv zeta in Hrun.
  match type of Hrun with context [supabase_insert_error E ?d ?x] =>
    destruct (supabase_insert_error E d x); set (row := d) in * end;
    rewrite Hrun; cbn [fst snd files table trace emit modify].
  - exists [], [row]. rewrite app_nil_r. unfold inserts. rewrite omap_snoc. cbn.
    repeat split; repeat constructor.
  - exists [row], [row]. unfold inserts. rewrite omap_snoc. cbn.
    repeat split; repeat constructor.
Qed.

Lemma store_loop_stamps d t ty u pd ocr pairs :
  forall n w,
    let w' := snd (store_loop E d t ty u pd ocr pairs n w) in
    exists new tried,
      table w' = table w ++ new
      /\ inserts (trace w') = inserts (trace w) ++ tried
      /\ Forall (row_stamped d t ty u (length pd)) new
      /\ Forall (row_stamped d t ty u (length pd)) tried.
Proof.
  cbv zeta. induction pairs as [|[p v] rest IH]; intros n w.
  - exists [], []. simpl. rewrite !app_nil_r. repeat split; constructor.
  - simpl store_loop.
    destruct (store_page_stamps d t ty u pd ocr p v w)
      as (new1 & tried1 & Ht1 & Hi1 & Hn1 & Htr1).
    destruct (store_page E d t ty u pd ocr p v w) as [[[]|e] w1] eqn:Hsp;
      cbn [fst snd] in *.
    + match goal with |- context [bind (try_except ?m ?h) ?k w] =>
        assert (Htry : try_except m h w = (Ok (S n), w1))
          by (unfold try_except; rewrite (bind_ok _ _ _ _ _ Hsp); reflexivity);
        rewrite (bind_ok _ _ _ _ _ Htry) end.
      destruct (IH (S n) w1) as (new2 & tried2 & Ht2 & Hi2 & Hn2 & Htr2).
      exists (new1 ++ new2), (tried1 ++ tried2).
      rewrite Ht2, Hi2, Ht1, Hi1, <- !app_assoc.
      repeat split; try reflexivity; apply Forall_app; split; assumption.
    + match goal with |- context [bind (try_except ?m ?h) ?k w] =>
        assert (Htry : try_except m h w = (Ok n, snd (h e w1)))
          by (unfold try_except; rewrite (bind_raise _ _ _ _ _ Hsp); reflexivity);
        rewrite (bind_ok _ _ _ _ _ Htry) end.
      cbn [fst snd print bind emit modify ret].
      match goal with |- context [store_loop E d t ty u pd ocr rest n ?x] =>
        destruct (IH n x) as (new2 & tried2 & Ht2 & Hi2 & Hn2 & Htr2) end.
      cbn [table trace] in Ht2, Hi2.
      unfold inserts in Hi2 at 2. rewrite omap_snoc in Hi2. cbn in Hi2.
      rewrite app_nil_r in Hi2. fold (inserts (trace w1)) in Hi2.
      exists (new1 ++ new2), (tried1 ++ tried2).
      rewrite Ht2, Hi2, Ht1, Hi1, <- !app_assoc.
      repeat split; try reflexivity; apply Forall_app; split; assumption.
Qed.

(** What the processor adds to the table. *)
Lemma process_new_document_rows d t ty u w :
  exists rows,
    table (snd (process_new_document E d t ty u w)) = table w ++ rows
    /\ fst (process_new_document E d t ty u w) = Ok (0 <? length rows)
    /\ Forall (fun r => Row.date r = d /\ Row.title r = t /\ Row.type r = ty
                        /\ Row.pdf_url r = u) rows.
Proof.
  unfold process_new_document, try_except.
  destruct (download_pdf_run E u w) as (o & w1 & Hd & Ht1 & Hf1).
  rewrite (bind_ok _ _ _ _ _ Hd).
  destruct o as [p|].
  2:{ exists []. rewrite app_nil_r. cbn. repeat split; [exact Ht1|constructor]. }
  specialize (Hf1 p eq_refl).
  destruct (extract_run E p w1) as (j & w2 & He & Ht2 & Hf2).
  rewrite (bind_ok _ _ _ _ _ He).
  assert (Hin : p ∈ files w2) by (rewrite Hf2; exact Hf1).
  assert (Ht : table w2 = table w) by congruence.
  clear Hd He Ht1 Ht2 Hf1 Hf2 w1.
  destruct (Py.truthy j); cbn [negb].
  2:{ destruct (cleanup_exit p w2 Hin) as (w3 & -> & Ht3).
      exists []. rewrite app_nil_r. cbn. repeat split; [congruence|constructor]. }
  rewrite bind_lift.
  destruct (Py.get j "pages" (JArr [])) as [pages|e].
  2:{ destruct (handler_exit ("[ERROR] Processing failed: " ++ str_of_exn e)%string w2)
        as (w3 & -> & Ht3).
      exists []. rewrite app_nil_r. cbn. repeat split; [congruence|constructor]. }
  rewrite bind_lift.
  destruct (Py.iter pages) as [items|e].
  2:{ destruct (handler_exit ("[ERROR] Processing failed: " ++ str_of_exn e)%string w2)
        as (w3 & -> & Ht3).
      exists []. rewrite app_nil_r. cbn. repeat split; [congruence|constructor]. }
  rewrite bind_lift.
  destruct (page_loop j items []) as [pdl|e].
  2:{ destruct (handler_exit ("[ERROR] Processing failed: " ++ str_of_exn e)%string w2)
        as (w3 & -> & Ht3).
      exists []. rewrite app_nil_r. cbn. repeat split; [congruence|constructor]. }
  destruct pdl as [|pd0 pdl].
  { destruct (cleanup_exit p w2 Hin) as (w3 & -> & Ht3).
    exists []. rewrite app_nil_r. cbn. repeat split; [congruence|constructor]. }
  set (P := pd0 :: pdl).
  pose proof (keeps_embed_loop E table P
                (py_range (length P) BATCH_EMBEDDING_SIZE) [] keeps_emit_table w2) as Ht3.
  pose proof (keeps_embed_loop E files P
                (py_range (length P) BATCH_EMBEDDING_SIZE) [] keeps_emit_files w2) as Hf3.
  destruct (embed_loop E P (py_range (length P) BATCH_EMBEDDING_SIZE) [] w2)
    as [[vs|e] w3] eqn:Hemb; cbn [fst snd] in Ht3, Hf3.
  2:{ rewrite (bind_raise _ _ _ _ _ Hemb).
      destruct (handler_exit ("[ERROR] Processing failed: " ++ str_of_exn e)%string w3)
        as (w4 & -> & Ht4).
      exists []. rewrite app_nil_r. cbn. repeat split; [congruence|constructor]. }
  rewrite (bind_ok _ _ _ _ _ Hemb).
  unfold store_document_pages.
  destruct (store_loop_run E d t ty u P j (combine P vs) 0 w3)
    as (rows & tried & w4 & Hst & Ht4 & Hf4 & _).
  destruct (store_loop_stamps d t ty u P j (combine P vs) 0 w3)
    as (new & _ & Hnew & _ & Hstamp & _).
  rewrite Hst in Hnew. cbn [snd] in Hnew. rewrite Ht4 in Hnew.
  apply app_inv_head in Hnew. subst new.
  rewrite (bind_ok _ _ _ _ _ Hst).
  assert (Hin4 : p ∈ files w4) by (rewrite Hf4, Hf3; exact Hin).
  destruct (unlink_present p w4 Hin4) as (w5 & Hu & Ht5 & _).
  rewrite (bind_ok _ _ _ _ _ Hu).
  exists rows. cbn. repeat split; [congruence|].
  eapply Forall_impl; [exact Hstamp|]. cbv beta. unfold row_stamped.
  intros r H. tauto.
Qed.

End Stamps.


(** X10. A document the processor reports as stored is found by the
    existence check: once [process_new_document] has returned [True] for a
    title and date, [check_document_exists] answers [True] for them in every
    later state whose table still holds the rows, provided the query itself
    does not fail. *)
Theorem processed_document_is_found_again
    (E : Env) (d t ty u : string) (w later : World) (more : list Row.t) :
  fst (process_new_document E d t ty u w) = Ok true ->
  table later = table (snd (process_new_document E d t ty u w)) ++ more ->
  supabase_select_error E t d (snd (emit (CallExists t d) later)) = None ->
  fst (check_document_exists E t d later) = Ok true.
Proof.
  intros Hok Hlater Hsel.
  destruct (process_new_document_rows E d t ty u w) as (rows & Htab & Hfst & Hall).
  rewrite Hfst in Hok. injection Hok as Hpos. apply Nat.ltb_lt in Hpos.
  destruct rows as [|r rows]; [simpl in Hpos; lia|].
  apply Forall_cons_1 in Hall as [(Hd & Ht & _) _].
  rewrite check_document_exists_run. cbn [fst]. rewrite Hsel. f_equal.
  apply existsb_exists. exists r. split.
  - rewrite Hlater, Htab. apply in_or_app. left. apply in_or_app. right.
    left. reflexivity.
  - apply row_matches_spec. split; assumption.
Qed.

Lemma processed_document_is_found_again_witness :
  fst (check_document_exists
         (Scenario.healthy Scenario.one_pdf Scenario.pages_kept)
         "Policy B" "02 Jan 2025"
         (snd (process_new_document
                 (Scenario.healthy Scenario.one_pdf Scenario.pages_kept)
                 "02 Jan 2025" "Policy B" "Policy Document"
                 "https://www.bnm.gov.my/docs/b.pdf" Scenario.world0)))
  = Ok true.
Proof.
  apply (processed_document_is_found_again
           (Scenario.healthy Scenario.one_pdf Scenario.pages_kept)
           "02 Jan 2025" "Policy B" "Policy Document"
           "https://www.bnm.gov.my/docs/b.pdf" Scenario.world0 _ []).
  - reflexivity.
  - rewrite app_nil_r. reflexivity.
  - reflexivity.
Defined.

(** ** The daily run *)

Section Run.

Variable E : Env.

(** The processor changes a part of the world only through the log, the
    download directory and the table. *)
Lemma keeps_process_any {X} (f : World -> X) d t ty u :
  (forall ev, keeps f (emit ev)) ->
  (forall g, keeps f (set_files g)) ->
  (forall g, keeps f (set_table g)) ->
  keeps f (process_new_document E d t ty u).
Proof.
  intros Hev Hfiles Htable.
  assert (Hunlink : forall p, keeps f (unlink p)) by (intros p; unfold unlink; frames).
  unfold process_new_document.
  apply keeps_try; [|intros e; unfold print; frames].
  apply keeps_bind.
  { unfold download_pdf, browser_launch, print. frames. }
  intros [p|]; [|apply keeps_ret].
  apply keeps_bind.
  { unfold extract_text_from_pdf, open_file, print. frames. }
  intros j. destruct (negb (Py.truthy j)).
  { apply keeps_bind; [apply Hunlink|intros; apply keeps_ret]. }
  apply keeps_bind; [apply keeps_lift|intros pages].
  apply keeps_bind; [apply keeps_lift|intros items].
  apply keeps_bind; [apply keeps_lift|intros pdl].
  destruct pdl as [|pd0 pdl].
  { apply keeps_bind; [apply Hunlink|intros; apply keeps_ret]. }
  apply keeps_bind; [apply keeps_embed_loop, Hev|intros vs].
  apply keeps_bind; [|intros n].
  { apply keeps_store_loop.
    - intros p0 v. unfold store_page, supabase_insert, now. frames.
    - intros line. apply Hev. }
  apply keeps_bind; [apply Hunlink|intros; apply keeps_ret].
Qed.

Lemma keeps_process_clock d t ty u : keeps clock (process_new_document E d t ty u).
Proof. apply keeps_process_any; intros ? ?; reflexivity. Qed.

(** One work item, run: the rows it adds decide which counter moves, and
    the pause follows in either case. *)
Lemma process_item_run (item : WorkItem) (w : World) :
  exists rows,
    let w' := snd (process_item E item w) in
    fst (process_item E item w) = Ok tt
    /\ table w' = table w ++ rows
    /\ clock w' = clock w + 2
    /\ cron_status w'
       = (if 0 <? length rows then bump_processed else bump_failed) (cron_status w).
Proof.
  destruct item as [[[d t] ty] u]. unfold process_item, try_except.
  destruct (process_new_document_rows E d t ty u w) as (rows & Htab & Hfst & _).
  pose proof (keeps_process_status E d t ty u w) as Hst.
  pose proof (keeps_process_clock d t ty u w) as Hck.
  destruct (process_new_document E d t ty u w) as [r w1] eqn:Hp;
    cbn [fst snd] in *.
  subst r. rewrite (bind_ok _ _ _ _ _ Hp).
  exists rows. cbv zeta.
  destruct (0 <? length rows); cbn; rewrite Htab, Hst, Hck; repeat split.
Qed.

Lemma process_loop_run (items : list WorkItem) :
  forall w,
  exists rows k,
    let w' := snd (process_loop E items w) in
    let st := cron_status w in
    let st' := cron_status w' in
    fst (process_loop E items w) = Ok tt
    /\ table w' = table w ++ rows
    /\ clock w' = clock w + 2 * length items
    /\ CronStatus.processed st' = CronStatus.processed st + k
    /\ CronStatus.failed st' = CronStatus.failed st + (length items - k)
    /\ k <= length items /\ k <= length rows /\ (k = 0 -> rows = [])
    /\ CronStatus.new_documents st' = CronStatus.new_documents st
    /\ CronStatus.status st' = CronStatus.status st
    /\ CronStatus.last_run st' = CronStatus.last_run st
    /\ CronStatus.message st' = CronStatus.message st.
Proof.
  induction items as [|item rest IH]; intros w.
  - exists [], 0. simpl. rewrite app_nil_r. repeat split; lia.
  - simpl process_loop.
    destruct (process_item_run item w) as (rows1 & Hok & Ht1 & Hc1 & Hs1).
    cbv zeta in *.
    destruct (process_item E item w) as [r w1] eqn:Hi; cbn [fst snd] in *.
    subst r. rewrite (bind_ok _ _ _ _ _ Hi).
    destruct (IH w1)
      as (rows2 & k2 & Hok2 & Ht2 & Hc2 & Hp2 & Hf2 & Hk2 & Hr2 & Hz2
            & Hn2 & Hst2 & Hl2 & Hm2).
    cbv zeta in *. rewrite Hs1 in *.
    exists (rows1 ++ rows2), ((if 0 <? length rows1 then 1 else 0) + k2).
    rewrite Ht2, Ht1, Hc2, Hc1, Hp2, Hf2, Hn2, Hst2, Hl2, Hm2, length_app.
    cbn [length].
    destruct (Nat.ltb_spec 0 (length rows1)) as [Hpos|Hzero]; cbn.
    + repeat split; try lia; try assumption. symmetry. apply app_assoc.
    + assert (rows1 = []) as -> by (destruct rows1; [reflexivity|simpl in Hzero; lia]).
      cbn. repeat split; try lia; try assumption;
        try (rewrite app_nil_r; reflexivity).
Qed.

Lemma iter_bump_new (k : nat) (st : CronStatus.t) :
  Nat.iter k bump_new_documents st
  = CronStatus.make (CronStatus.last_run st) (CronStatus.status st)
      (CronStatus.new_documents st + k) (CronStatus.processed st)
      (CronStatus.failed st) (CronStatus.message st).
Proof.
  induction k as [|k IH]; simpl.
  - destruct st; cbn. rewrite Nat.add_0_r. reflexivity.
  - rewrite IH. unfold bump_new_documents. cbn. f_equal. lia.
Qed.

(** The discovery loop, run: one existence check per announcement, in
    order, and work items only for links ending in [.pdf]. *)
Lemma discover_loop_run (df : list Announcement.t) :
  forall new_docs w,
  exists items k,
    let w' := snd (discover_loop E df new_docs w) in
    fst (discover_loop E df new_docs w) = Ok (new_docs ++ items)
    /\ table w' = table w /\ files w' = files w /\ clock w' = clock w
    /\ downloads (trace w') = downloads (trace w)
    /\ exists_calls (trace w')
       = exists_calls (trace w)
         ++ map (fun a => (Announcement.title a, Announcement.date a)) df
    /\ cron_status w' = Nat.iter k bump_new_documents (cron_status w)
    /\ k <= length df
    /\ Forall (fun item : WorkItem =>
                 PyStr.endswith ".pdf" (snd item) = true
                 /\ exists a, In a df
                      /\ item = (Announcement.date a, Announcement.title a,
                                 Announcement.type a, snd item)
                      /\ In (snd item) (Announcement.links a)) items.
Proof.
  induction df as [|a rest IH]; intros new_docs w.
  - exists [], 0. simpl. rewrite !app_nil_r. repeat split; constructor.
  - simpl discover_loop.
    destruct (no_raise_exists E (Announcement.title a) (Announcement.date a) w)
      as [found Hfound].
    pose proof (discover_run E a new_docs w found Hfound) as Hrun.
    cbv zeta in Hrun.
    set (w1 := snd (emit (CallExists (Announcement.title a)
                            (Announcement.date a)) w)) in *.
    assert (Hex1 : exists_calls (trace w1)
                   = exists_calls (trace w)
                     ++ [(Announcement.title a, Announcement.date a)]).
    { subst w1. cbn. unfold exists_calls. rewrite omap_snoc. reflexivity. }
    assert (Hdl1 : downloads (trace w1) = downloads (trace w)).
    { subst w1. cbn. unfold downloads. rewrite omap_snoc. cbn.
      apply app_nil_r. }
    destruct found.
    + rewrite (bind_ok _ _ _ _ _ Hrun).
      destruct (IH new_docs w1)
        as (items & k & Hok & Ht & Hf & Hc & Hd & He & Hs & Hk & Hall).
      cbv zeta in *. exists items, k.
      rewrite Hok, Ht, Hf, Hc, Hd, He, Hs, Hex1, Hdl1, <- app_assoc.
      cbn [map length app]. repeat split; try lia.
      eapply Forall_impl; [exact Hall|]. cbv beta.
      intros item (Hpdf & a' & Hin & Hitem & Hlink).
      split; [exact Hpdf|]. exists a'. split; [right; exact Hin|]. split; assumption.
    + rewrite (bind_ok _ _ _ _ _ Hrun).
      set (mine := map (fun pdf_url =>
                          (Announcement.date a, Announcement.title a,
                           Announcement.type a, pdf_url))
                     (List.filter (PyStr.endswith ".pdf") (Announcement.links a))).
      destruct (IH (new_docs ++ mine) (snd (set_cron_status bump_new_documents w1)))
        as (items & k & Hok & Ht & Hf & Hc & Hd & He & Hs & Hk & Hall).
      cbv zeta in *. exists (mine ++ items), (S k).
      rewrite Hok, Ht, Hf, Hc, Hd, He, Hs. cbn [snd set_cron_status modify
        table files clock trace cron_status].
      rewrite Hex1, Hdl1, <- !app_assoc. cbn [map length app].
      rewrite Nat.iter_succ_r.
      repeat split; try lia.
      apply Forall_app. split.
      * subst mine. apply List.Forall_forall. intros item Hin.
        apply in_map_iff in Hin as (url & <- & Hurl).
        apply filter_In in Hurl as [Hlink Hpdf]. cbn [snd].
        split; [exact Hpdf|]. exists a. split; [left; reflexivity|].
        split; [reflexivity|exact Hlink].
      * eapply Forall_impl; [exact Hall|]. cbv beta.
        intros item (Hpdf & a' & Hin & Hitem & Hlink).
        split; [exact Hpdf|]. exists a'. split; [right; exact Hin|].
        split; assumption.
Qed.

End Run.

Section RunTotal.

Variable E : Env.

(** The rows a work item adds are rows of that item. *)
Lemma process_item_rows (item : WorkItem) (w : World) :
  exists rows,
    table (snd (process_item E item w)) = table w ++ rows
    /\ Forall (fun r => (Row.date r, Row.title r, Row.type r, Row.pdf_url r) = item)
         rows.
Proof.
  destruct (process_item_run E item w) as (rows0 & _ & Ht0 & _). cbv zeta in Ht0.
  destruct item as [[[d t] ty] u]. unfold process_item, try_except in *.
  destruct (process_new_document_rows E d t ty u w) as (rows & Htab & Hfst & Hall).
  destruct (process_new_document E d t ty u w) as [r w1] eqn:Hp;
    cbn [fst snd] in *.
  subst r. rewrite (bind_ok _ _ _ _ _ Hp) in *.
  exists rows. split.
  - destruct (0 <? length rows); cbn; exact Htab.
  - eapply Forall_impl; [exact Hall|]. cbv beta.
    intros r (-> & -> & -> & ->). reflexivity.
Qed.

Lemma process_loop_rows (items : list WorkItem) :
  forall w,
  exists rows,
    table (snd (process_loop E items w)) = table w ++ rows
    /\ Forall (fun r => In (Row.date r, Row.title r, Row.type r, Row.pdf_url r) items)
         rows.
Proof.
  induction items as [|item rest IH]; intros w.
  - exists []. simpl. rewrite app_nil_r. split; [reflexivity|constructor].
  - simpl process_loop.
    destruct (process_item_rows item w) as (rows1 & Ht1 & Hall1).
    destruct (no_raise_process_item E item w) as [[] Hok].
    destruct (process_item E item w) as [r w1] eqn:Hi; cbn [fst snd] in *.
    subst r. rewrite (bind_ok _ _ _ _ _ Hi).
    destruct (IH w1) as (rows2 & Ht2 & Hall2).
    exists (rows1 ++ rows2). rewrite Ht2, Ht1, <- app_assoc.
    split; [reflexivity|]. apply Forall_app. split.
    + eapply Forall_impl; [exact Hall1|]. cbv beta. intros r ->. left. reflexivity.
    + eapply Forall_impl; [exact Hall2|]. cbv beta. intros r Hin. right. exact Hin.
Qed.

(** The whole run, in one statement. *)
Lemma run_daily_scrape_run (w : World) :
  exists df items rows k n,
    let run := run_daily_scrape E w in
    fst (scrape_bnm_announcements E (run_started w)) = Ok df
    /\ fst run = Ok tt
    /\ table (snd run) = table w ++ rows
    /\ clock (snd run) = clock w + 2 * length items
    /\ downloads (trace (snd run)) = downloads (trace w) ++ map snd items
    /\ cron_status (snd run)
       = CronStatus.make (Some (clock w)) "completed" n k (length items - k)
           (match df with
            | [] => "No data scraped from BNM website"
            | _ => "Processed " ++ PyStr.of_nat k ++ " new documents, "
                     ++ PyStr.of_nat (length items - k) ++ " failed"
            end)%string
    /\ n <= length df /\ k <= length items /\ k <= length rows
    /\ (k = 0 -> rows = [])
    /\ (df = [] -> items = [] /\ n = 0
                   /\ exists_calls (trace (snd run)) = exists_calls (trace w))
    /\ Forall (fun item : WorkItem =>
                 PyStr.endswith ".pdf" (snd item) = true
                 /\ exists a, In a df
                      /\ item = (Announcement.date a, Announcement.title a,
                                 Announcement.type a, snd item)
                      /\ In (snd item) (Announcement.links a)) items
    /\ Forall (fun r => In (Row.date r, Row.title r, Row.type r, Row.pdf_url r) items)
         rows.
Proof.
  cbv zeta.
  remember (run_daily_scrape E w) as run eqn:Hrun.
  unfold run_daily_scrape, now in Hrun.
  rewrite bind_ask in Hrun. unfold set_cron_status at 1 in Hrun.
  rewrite bind_modify in Hrun.
  fold (run_started w) in Hrun.
  set (wa := run_started w) in *.
  assert (Hscr : exists df w1,
             scrape_bnm_announcements E wa = (Ok df, w1)
             /\ table w1 = table w /\ clock w1 = clock w
             /\ cron_status w1 = cron_status wa
             /\ downloads (trace w1) = downloads (trace w)
             /\ exists_calls (trace w1) = exists_calls (trace w)).
  { rewrite scrape_run.
    destruct (site_table E (snd (emit CallScrape wa))); eexists _, _;
      (split; [reflexivity|]); cbn;
      unfold downloads, exists_calls; rewrite !omap_snoc; cbn;
      rewrite ?omap_snoc; cbn; rewrite ?app_nil_r; repeat split. }
  destruct Hscr as (df & w1 & Hscr & Ht1 & Hc1 & Hs1 & Hd1 & He1).
  unfold try_except in Hrun. rewrite (bind_ok _ _ _ _ _ Hscr) in Hrun.
  exists df. rewrite Hscr. cbn [fst].
  destruct df as [|a df].
  - exists [], [], 0, 0. rewrite Hrun.
    cbn [fst snd set_cron_status modify table clock trace cron_status length map].
    rewrite Ht1, Hc1, Hd1, He1, Hs1.
    cbn. rewrite !app_nil_r.
    repeat split; try lia; try constructor.
  - destruct (discover_loop_run E (a :: df) [] w1)
      as (items & n & Hok & Ht2 & _ & Hc2 & Hd2 & _ & Hs2 & Hn & Hall).
    cbv zeta in *. cbn [app] in Hok.
    destruct (discover_loop E (a :: df) [] w1) as [r2 w2] eqn:Hdisc;
      cbn [fst snd] in *. subst r2.
    rewrite (bind_ok _ _ _ _ _ Hdisc) in Hrun.
    destruct (process_loop_run E items w2)
      as (rows & k & Hok3 & Ht3 & Hc3 & Hp3 & Hf3 & Hk3 & Hr3 & Hz3
            & Hn3 & Hst3 & Hl3 & Hm3).
    destruct (process_loop_rows items w2) as (rows' & Ht3' & Hrows).
    pose proof (process_loop_logged E items w2) as Hd3.
    cbv zeta in *.
    destruct (process_loop E items w2) as [r3 w3] eqn:Hproc;
      cbn [fst snd] in *. subst r3.
    rewrite Ht3 in Ht3'. apply app_inv_head in Ht3'. subst rows'.
    rewrite (bind_ok _ _ _ _ _ Hproc) in Hrun.
    exists items, rows, k, n. rewrite Hrun.
    cbn [fst snd set_cron_status modify table clock trace cron_status].
    rewrite Ht3, Ht2, Ht1, Hc3, Hc2, Hc1, Hd3, Hd2, Hd1.
    rewrite Hs2, Hs1, iter_bump_new in Hp3, Hf3, Hn3, Hl3.
    subst wa. cbn in Hp3, Hf3, Hn3, Hl3.
    unfold finish, summary. rewrite Hp3, Hf3, Hn3, Hl3.
    repeat split; try lia; try assumption; try discriminate.
Qed.

End RunTotal.

(** X11. A run always comes to an end and reports [completed], whatever
    the site, the browser, the OCR webhook, the embedding endpoint and the
    table answer and whatever the status was before: every collaborator
    failure is absorbed below the coordinator or counted as a failed
    document, so the run never raises and its status is never left at
    [running] nor set to [error].  [last_run] is the instant the run
    started, and the message is either the no-data message, with all
    counters at zero, or the summary of the two outcome counters. *)
Theorem daily_run_always_completes (E : Env) (w : World) :
  let run := run_daily_scrape E w in
  let st := cron_status (snd run) in
  fst run = Ok tt
  /\ CronStatus.status st = "completed"%string
  /\ CronStatus.last_run st = Some (clock w)
  /\ ((CronStatus.message st = "No data scraped from BNM website"%string
       /\ CronStatus.new_documents st = 0
       /\ CronStatus.processed st = 0 /\ CronStatus.failed st = 0)
      \/ CronStatus.message st = summary st).
Proof.
  cbv zeta.
  destruct (run_daily_scrape_run E w)
    as (df & items & rows & k & n & _ & Hok & _ & _ & _ & Hst & _ & Hk & _ & _
          & Hempty & _).
  cbv zeta in *. rewrite Hst. cbn.
  split; [exact Hok|]. split; [reflexivity|]. split; [reflexivity|].
  destruct df as [|a df].
  - left. destruct (Hempty eq_refl) as (-> & -> & _).
    simpl in Hk. assert (k = 0) as -> by lia. repeat split.
  - right. reflexivity.
Qed.

(** X12. The counters of a run account for every download it attempts: the
    run calls [download_pdf] once per work item, each for a link ending in
    [.pdf], and [processed + failed] is the number of those calls, counted
    from zero whatever the counters held before.  The two-second pause is
    taken after every work item, failed ones and the last one included. *)
Theorem daily_run_counts_every_download (E : Env) (w : World) :
  let run := run_daily_scrape E w in
  let st := cron_status (snd run) in
  exists urls,
    downloads (trace (snd run)) = downloads (trace w) ++ urls
    /\ CronStatus.processed st + CronStatus.failed st = length urls
    /\ Forall (fun url => PyStr.endswith ".pdf" url = true) urls
    /\ clock (snd run) = clock w + 2 * length urls.
Proof.
  cbv zeta.
  destruct (run_daily_scrape_run E w)
    as (df & items & rows & k & n & _ & _ & _ & Hclock & Hdl & Hst & _ & Hk & _
          & _ & _ & Hitems & _).
  cbv zeta in *. exists (map snd items).
  rewrite Hst, Hclock, Hdl, length_map. cbn.
  split; [reflexivity|]. split; [lia|]. split; [|reflexivity].
  apply Forall_fmap. eapply Forall_impl; [exact Hitems|]. cbv beta.
  intros item [Hpdf _]. exact Hpdf.
Qed.

(** X13. A run only appends to the table: the rows that were there stay,
    in place and unchanged.  Every row it adds carries the date, title and
    type of an announcement the site listed in this run and one of that
    announcement's links ending in [.pdf]; there are at least as many new
    rows as documents counted [processed], and when none is counted the
    table is as it was. *)
Theorem daily_run_only_appends_rows (E : Env) (w : World) :
  let run := run_daily_scrape E w in
  let st := cron_status (snd run) in
  exists df rows,
    fst (scrape_bnm_announcements E (run_started w)) = Ok df
    /\ table (snd run) = table w ++ rows
    /\ CronStatus.processed st <= length rows
    /\ (CronStatus.processed st = 0 -> rows = [])
    /\ CronStatus.new_documents st <= length df
    /\ Forall (fun r =>
                 exists a, In a df
                   /\ Row.date r = Announcement.date a
                   /\ Row.title r = Announcement.title a
                   /\ Row.type r = Announcement.type a
                   /\ In (Row.pdf_url r) (Announcement.links a)
                   /\ PyStr.endswith ".pdf" (Row.pdf_url r) = true) rows.
Proof.
  cbv zeta.
  destruct (run_daily_scrape_run E w)
    as (df & items & rows & k & n & Hdf & _ & Htab & _ & _ & Hst & Hn & _ & Hk
          & Hz & _ & Hitems & Hrows).
  cbv zeta in *. exists df, rows. rewrite Hst. cbn.
  split; [exact Hdf|]. split; [exact Htab|]. split; [exact Hk|].
  split; [exact Hz|]. split; [exact Hn|].
  eapply Forall_impl; [exact Hrows|]. cbv beta. intros r Hin.
  rewrite List.Forall_forall in Hitems.
  destruct (Hitems _ Hin) as (Hpdf & a & Ha & Heq & Hlink). cbn [snd] in *.
  injection Heq as Hd Ht Hty.
  exists a. repeat split; assumption.
Qed.

(** X14. When the scraper returns no announcement (the site lists none, or
    scraping failed and the scraper returned its empty frame), the run ends
    [completed] with the no-data message and all three counters at zero,
    and neither the existence check nor the downloader is called; the table
    and the clock are as they were. *)
Theorem empty_catalogue_ends_the_run (E : Env) (w : World) :
  fst (scrape_bnm_announcements E (run_started w)) = Ok [] ->
  let run := run_daily_scrape E w in
  fst run = Ok tt
  /\ cron_status (snd run)
     = CronStatus.make (Some (clock w)) "completed" 0 0 0
         "No data scraped from BNM website"
  /\ exists_calls (trace (snd run)) = exists_calls (trace w)
  /\ downloads (trace (snd run)) = downloads (trace w)
  /\ table (snd run) = table w
  /\ clock (snd run) = clock w.
Proof.
  intros Hnone. cbv zeta.
  destruct (run_daily_scrape_run E w)
    as (df & items & rows & k & n & Hdf & Hok & Htab & Hclock & Hdl & Hst & _
          & Hk & _ & Hz & Hempty & _).
  cbv zeta in *. rewrite Hnone in Hdf. injection Hdf as <-.
  destruct (Hempty eq_refl) as (-> & -> & Hex).
  simpl in Hk. assert (k = 0) as -> by lia. rewrite (Hz eq_refl) in Htab.
  rewrite Hst, Hex, Hdl, Htab, Hclock. cbn. rewrite !app_nil_r.
  repeat split; try assumption; lia.
Qed.

Lemma empty_catalogue_ends_the_run_witness :
  CronStatus.message
    (cron_status (snd (run_daily_scrape Scenario.site_down Scenario.world0)))
  = "No data scraped from BNM website"%string.
Proof.
  destruct (empty_catalogue_ends_the_run Scenario.site_down Scenario.world0
              eq_refl) as (_ & -> & _).
  reflexivity.
Defined.

(** ** The trigger and the run *)

(** X15. The gate of the trigger follows the run.  From the moment a run
    has marked its start until it ends, a trigger is refused with 409 and
    queues nothing; once the run has ended, whatever happened in it, a
    trigger is accepted again.  Accepting does not itself close the gate:
    the status only changes when the queued task starts, so a second
    trigger that arrives before then is accepted as well and the queue
    holds two runs. *)
Theorem trigger_gate_follows_the_run
    (E : Env) (background_tasks : list Task) (w : World) :
  let started := "BNM scraping job started in background"%string in
  let w' := snd (run_daily_scrape E w) in
  trigger_bnm_scrape background_tasks (run_started w)
  = (Raise (HTTPException 409 "Cron job already running"),
     background_tasks, run_started w)
  /\ trigger_bnm_scrape background_tasks w'
     = (Ok (mkCronResponse "started" started (Some (clock w'))),
        background_tasks ++ [Task_run_daily_scrape], w')
  /\ trigger_bnm_scrape (background_tasks ++ [Task_run_daily_scrape]) w'
     = (Ok (mkCronResponse "started" started (Some (clock w'))),
        background_tasks ++ [Task_run_daily_scrape; Task_run_daily_scrape], w').
Proof.
  cbv zeta. split; [reflexivity|].
  destruct (run_daily_scrape_run E w)
    as (df & items & rows & k & n & _ & _ & _ & _ & _ & Hst & _).
  cbv zeta in Hst.
  assert (Hs : CronStatus.status (cron_status (snd (run_daily_scrape E w)))
               = "completed"%string) by (rewrite Hst; reflexivity).
  unfold trigger_bnm_scrape. rewrite Hs.
  replace ("completed" =? "running")%string with false by reflexivity.
  rewrite <- app_assoc. split; reflexivity.
Qed.

(** ** What the scraper hands on *)

Lemma announcement_links_absolute (tr : SiteRow) :
  Forall (fun link => PyStr.startswith "http" link = true)
    (Announcement.links (announcement_of_row tr)).
Proof.
  destruct tr as [[[date title] type] hrefs]. cbn.
  apply Forall_fmap, Forall_forall. intros href _. cbn.
  destruct (PyStr.startswith "http" href) eqn:Habs; [exact Habs|].
  unfold PyStr.startswith, SITE_ORIGIN.
  change ("https://www.bnm.gov.my" ++ href)%string
    with ("http" ++ ("s://www.bnm.gov.my" ++ href))%string.
  apply prefix_append.
Qed.

(** X16. Every link of every announcement the scraper returns is absolute:
    an [href] that starts with [http] is handed on as it is, any other is
    prefixed with the origin of the site, and links are neither dropped nor
    reordered.  So every URL a run hands to [download_pdf] starts with
    [http] and ends in [.pdf]. *)
Theorem scraped_links_are_absolute (E : Env) (w : World) :
  (forall df, fst (scrape_bnm_announcements E w) = Ok df ->
     Forall (fun a => Forall (fun link => PyStr.startswith "http" link = true)
                        (Announcement.links a)) df)
  /\ (forall date title type hrefs,
        let a := announcement_of_row (date, title, type, hrefs) in
        Announcement.date a = date /\ Announcement.title a = title
        /\ Announcement.type a = type
        /\ Forall2 (fun href link =>
                      link = if PyStr.startswith "http" href then href
                             else ("https://www.bnm.gov.my" ++ href)%string)
             hrefs (Announcement.links a))
  /\ exists urls,
       downloads (trace (snd (run_daily_scrape E w)))
       = downloads (trace w) ++ urls
       /\ Forall (fun url => PyStr.startswith "http" url = true
                             /\ PyStr.endswith ".pdf" url = true) urls.
Proof.
  assert (Hscrape : forall w0 df,
            fst (scrape_bnm_announcements E w0) = Ok df ->
            Forall (fun a => Forall (fun link => PyStr.startswith "http" link = true)
                               (Announcement.links a)) df).
  { intros w0 df. rewrite scrape_run.
    destruct (site_table E (snd (emit CallScrape w0))) as [rows|e]; cbn [fst];
      intros [= <-]; [|constructor].
    apply Forall_fmap, Forall_forall. intros tr _.
    apply announcement_links_absolute. }
  split; [apply Hscrape|]. split.
  - intros date title type hrefs. cbn. repeat split.
    induction hrefs as [|href rest IH]; constructor; [reflexivity|exact IH].
  - destruct (run_daily_scrape_run E w)
      as (df & items & rows & k & n & Hdf & _ & _ & _ & Hdl & _ & _ & _ & _
            & _ & _ & Hitems & _).
    cbv zeta in *. exists (map snd items). split; [exact Hdl|].
    apply Forall_fmap. eapply Forall_impl; [exact Hitems|]. cbv beta.
    intros item (Hpdf & a & Ha & _ & Hlink). split; [|exact Hpdf].
    pose proof (Hscrape _ _ Hdf) as Hall.
    rewrite List.Forall_forall in Hall. specialize (Hall a Ha).
    rewrite List.Forall_forall in Hall. apply Hall. exact Hlink.
Qed.

(** ** The embedding calls *)

(** X17. [generate_embedding_single] sends the endpoint the request
    [generate_embeddings_batch] sends for the one-element list of the same
    text, cleaned in the same way, and returns the first vector of the
    answer.  The two differ on an empty answer only: the batch function
    returns the empty list, the single one raises [IndexError].  Neither
    catches what the endpoint raises. *)
Theorem single_embedding_is_batch_of_one (E : Env) (text : string) (w : World) :
  let single := generate_embedding_single E text w in
  let batch := generate_embeddings_batch E [text] w in
  snd single = snd batch
  /\ embed_calls (trace (snd single)) = embed_calls (trace w) ++ [[text]]
  /\ fst batch
     = openai_embeddings E [clean_text text] (snd (emit (CallEmbed [text]) w))
  /\ match fst batch with
     | Ok (v :: _) => fst single = Ok v
     | Ok [] => fst single = Raise (Exception "IndexError: list index out of range")
     | Raise e => fst single = Raise e
     end.
Proof.
  cbv zeta. rewrite generate_embeddings_batch_run. cbn [fst snd map].
  set (w1 := snd (emit (CallEmbed [text]) w)).
  assert (Hsingle :
            generate_embedding_single E text w
            = match openai_embeddings E [clean_text text] w1 with
              | Ok (v :: _) => (Ok v, w1)
              | Ok [] => (Raise (Exception "IndexError: list index out of range"), w1)
              | Raise e => (Raise e, w1)
              end).
  { unfold generate_embedding_single, bind, emit, modify, ask_result, ret, raise.
    subst w1. cbn [fst snd emit modify].
    match goal with |- context [openai_embeddings E ?ts ?x] =>
      destruct (openai_embeddings E ts x) as [[|v vs]|e] end; reflexivity. }
  rewrite Hsingle.
  assert (Hw1 : embed_calls (trace w1) = embed_calls (trace w) ++ [[text]]).
  { subst w1. cbn. unfold embed_calls. rewrite omap_snoc. reflexivity. }
  destruct (openai_embeddings E [clean_text text] w1) as [[|v vs]|e];
    cbn [fst snd]; repeat split; exact Hw1.
Qed.

Lemma after_embed_calls_app (w : World) (a b : list (list string)) :
  after_embed_calls (after_embed_calls w a) b = after_embed_calls w (a ++ b).
Proof.
  unfold after_embed_calls. cbn [files table cron_status clock trace].
  rewrite map_app, app_assoc. reflexivity.
Qed.

Lemma after_embed_calls_nil (w : World) : after_embed_calls w [] = w.
Proof.
  unfold after_embed_calls. cbn [map]. rewrite app_nil_r. destruct w; reflexivity.
Qed.

Lemma embed_calls_after (w : World) (calls : list (list string)) :
  embed_calls (trace (after_embed_calls w calls)) = embed_calls (trace w) ++ calls.
Proof.
  unfold after_embed_calls. cbn [trace].
  induction calls as [|c calls IH] using rev_ind.
  - cbn [map]. rewrite !app_nil_r. reflexivity.
  - rewrite map_app, app_assoc. cbn [map]. unfold embed_calls in *.
    rewrite omap_snoc, IH, <- app_assoc. reflexivity.
Qed.

(** The embedding loop stops at the first call that raises: every call
    before the last one sent was answered, and when the loop raises, the
    last call sent is the one that raised. *)
Lemma embed_loop_stops (E : Env) (P : list PageData.t) (m : nat) :
  forall k acc w,
  let slice j :=
    take BATCH_EMBEDDING_SIZE
      (drop (j * BATCH_EMBEDDING_SIZE) (map PageData.content P)) in
  let run :=
    embed_loop E P (map (fun j => j * BATCH_EMBEDDING_SIZE) (seq k m)) acc w in
  let asked i :=
    openai_embeddings E (map clean_text (slice (k + i)))
      (after_embed_calls w (map slice (seq k (S i)))) in
  exists c,
    snd run = after_embed_calls w (map slice (seq k c))
    /\ c <= m
    /\ (forall i, S i < c -> exists vs, asked i = Ok vs)
    /\ (forall vs, fst run = Ok vs ->
          c = m /\ forall i, i < c -> exists vs0, asked i = Ok vs0)
    /\ (forall e, fst run = Raise e ->
          exists c', c = S c' /\ asked c' = Raise e).
Proof.
  induction m as [|m IH]; intros k acc w; cbv zeta.
  - exists 0. cbn [seq map embed_loop ret fst snd].
    rewrite after_embed_calls_nil.
    split; [reflexivity|]. split; [lia|]. split; [intros; lia|].
    split; [intros vs _; split; [reflexivity|intros; lia]|discriminate].
  - cbn [seq map embed_loop].
    set (slice := fun j => take BATCH_EMBEDDING_SIZE
                             (drop (j * BATCH_EMBEDDING_SIZE) (map PageData.content P))).
    set (batch := take BATCH_EMBEDDING_SIZE (drop (k * BATCH_EMBEDDING_SIZE) P)).
    assert (Hbatch : map PageData.content batch = slice k).
    { subst batch slice. cbv beta.
      rewrite <- List.firstn_map, <- List.skipn_map. reflexivity. }
    unfold bind. rewrite generate_embeddings_batch_run. rewrite Hbatch.
    assert (Hw1 : snd (emit (CallEmbed (slice k)) w) = after_embed_calls w [slice k])
      by reflexivity.
    rewrite Hw1. set (w1 := after_embed_calls w [slice k]).
    assert (Hstep : forall i,
              after_embed_calls w1 (map slice (seq (S k) i))
              = after_embed_calls w (map slice (seq k (S i)))).
    { intros i. subst w1. rewrite after_embed_calls_app. reflexivity. }
    destruct (openai_embeddings E (map clean_text (slice k)) w1)
      as [vs1|e1] eqn:Hask; cbn [fst snd].
    + destruct (IH (S k) (acc ++ vs1) w1) as (c & Hw & Hc & Hbefore & Hok & Hraise).
      cbv zeta in Hw, Hbefore, Hok, Hraise. fold slice in Hw, Hbefore, Hok, Hraise.
      assert (Hshift : forall i r,
                openai_embeddings E (map clean_text (slice (S k + i)))
                  (after_embed_calls w1 (map slice (seq (S k) (S i)))) = r ->
                openai_embeddings E (map clean_text (slice (k + S i)))
                  (after_embed_calls w (map slice (seq k (S (S i))))) = r).
      { intros i r Hr. rewrite <- Hstep.
        replace (k + S i) with (S k + i) by lia. exact Hr. }
      assert (Hfirst : exists vs,
                openai_embeddings E (map clean_text (slice (k + 0)))
                  (after_embed_calls w (map slice (seq k 1))) = Ok vs).
      { exists vs1. rewrite Nat.add_0_r. exact Hask. }
      exists (S c). rewrite Hw, Hstep.
      split; [reflexivity|]. split; [lia|]. split.
      { intros [|i] Hi; [exact Hfirst|].
        destruct (Hbefore i) as [vs Hvs]; [lia|]. exists vs. apply Hshift, Hvs. }
      split.
      { intros vs Hvs. destruct (Hok vs Hvs) as [-> Hall]. split; [reflexivity|].
        intros [|i] Hi; [exact Hfirst|].
        destruct (Hall i) as [vs0 Hvs0]; [lia|]. exists vs0. apply Hshift, Hvs0. }
      intros e He. destruct (Hraise e He) as (c' & -> & Hc').
      exists (S c'). split; [reflexivity|]. apply Hshift, Hc'.
    + exists 1. cbn [seq map].
      split; [reflexivity|]. split; [lia|]. split; [intros; lia|].
      split; [discriminate|].
      intros e [= <-]. exists 0. split; [reflexivity|].
      rewrite Nat.add_0_r. exact Hask.
Qed.

(** X18. Whatever the embedding endpoint does, the embedding loop never
    sends it an empty batch nor one of more than ten texts.  Its calls are
    the consecutive slices of ten of the page contents, in order, and it
    stops at the first call that raises: every call before the last one
    sent was answered; when the loop returns, all [ceil(len(pages) / 10)]
    slices were sent and answered; when it raises, the last call sent is
    the one that raised, with that exception, and no later slice is sent.
    Nothing but the log of calls changes. *)
Theorem embedding_batches_hold_one_to_ten_texts
    (E : Env) (P : list PageData.t) (w : World) :
  let run := embed_loop E P (py_range (length P) BATCH_EMBEDDING_SIZE) [] w in
  let contents := map PageData.content P in
  let planned := (length P + BATCH_EMBEDDING_SIZE - 1) / BATCH_EMBEDDING_SIZE in
  let slice j :=
    take BATCH_EMBEDDING_SIZE (drop (j * BATCH_EMBEDDING_SIZE) contents) in
  let asked i :=
    openai_embeddings E (map clean_text (slice i))
      (after_embed_calls w (map slice (seq 0 (S i)))) in
  exists sent,
    embed_calls (trace (snd run))
    = embed_calls (trace w) ++ map slice (seq 0 sent)
    /\ snd run = after_embed_calls w (map slice (seq 0 sent))
    /\ sent <= planned
    /\ (forall i, S i < sent -> exists vs, asked i = Ok vs)
    /\ (forall vs, fst run = Ok vs ->
          sent = planned /\ forall i, i < sent -> exists vs0, asked i = Ok vs0)
    /\ (forall e, fst run = Raise e ->
          exists last, sent = S last /\ asked last = Raise e)
    /\ Forall (fun texts => 1 <= length texts <= 10) (map slice (seq 0 sent)).
Proof.
  cbv zeta. unfold py_range.
  destruct (embed_loop_stops E P
              ((length P + BATCH_EMBEDDING_SIZE - 1) / BATCH_EMBEDDING_SIZE) 0 [] w)
    as (c & Hw & Hc & Hbefore & Hok & Hraise).
  cbv zeta in *. exists c.
  split; [rewrite Hw; apply embed_calls_after|].
  split; [exact Hw|]. split; [exact Hc|].
  split; [exact Hbefore|]. split; [exact Hok|]. split; [exact Hraise|].
  apply Forall_fmap, Forall_forall. intros j Hj. cbn.
  apply elem_of_seq in Hj. rewrite length_take, length_drop, length_map.
  unfold BATCH_EMBEDDING_SIZE in *.
  assert (Hlt : j * 10 < length P).
  { assert (j < (length P + 10 - 1) / 10) by lia.
    assert (Hdiv : (length P + 10 - 1) / 10 * 10 <= length P + 10 - 1).
    { rewrite Nat.mul_comm. apply Nat.Div0.mul_div_le. }
    nia. }
  lia.
Qed.

(** ** From the OCR answer to the rows *)

(** What the page loop keeps of a page object. *)
Lemma page_entry_fields (ocr_data page : json) (d : PageData.t) :
  page_entry ocr_data page = Ok (Some d) ->
  PageData.page_info d = page
  /\ (exists index, Py.get page "index" (JNum 0) = Ok index
                    /\ Py.add index 1 = Ok (PageData.page_number d))
  /\ Py.get ocr_data "extractedText" (JStr "") = Ok (PageData.original_text d).
Proof.
  unfold page_entry.
  destruct (Py.get page "index" (JNum 0)) as [index|]; [|discriminate].
  destruct (Py.add index 1) as [page_number|] eqn:Hadd; [|discriminate].
  destruct (Py.get page "markdown" (JStr "")) as [md|]; [|discriminate].
  destruct (negb (Py.truthy md)); [discriminate|].
  destruct md as [|b|z|s|l|l]; try discriminate.
  destruct (PyStr.len (PyStr.strip s) <? 50); [discriminate|].
  destruct (Py.get ocr_data "extractedText" (JStr "")) as [text|]; [|discriminate].
  intros [= <-]. cbn. split; [reflexivity|]. split; [|reflexivity].
  exists index. split; [reflexivity|exact Hadd].
Qed.

Lemma page_loop_fields (ocr_data : json) (pages : list json) :
  forall acc P,
    page_loop ocr_data pages acc = Ok P ->
    exists kept,
      P = acc ++ kept
      /\ Forall (fun d =>
                   In (PageData.page_info d) pages
                   /\ (exists index,
                         Py.get (PageData.page_info d) "index" (JNum 0) = Ok index
                         /\ Py.add index 1 = Ok (PageData.page_number d))
                   /\ Py.get ocr_data "extractedText" (JStr "")
                      = Ok (PageData.original_text d)) kept.
Proof.
  induction pages as [|page rest IH]; intros acc P; simpl.
  - intros [= <-]. exists []. rewrite app_nil_r. split; [reflexivity|constructor].
  - destruct (page_entry ocr_data page) as [[d|]|e] eqn:Hentry; [| |discriminate].
    + intros Hrun. destruct (IH _ _ Hrun) as (kept & -> & Hall).
      destruct (page_entry_fields _ _ _ Hentry) as (Hinfo & Hnum & Htext).
      exists (d :: kept). rewrite <- app_assoc. split; [reflexivity|].
      constructor.
      * rewrite Hinfo. split; [left; reflexivity|]. split; assumption.
      * eapply Forall_impl; [exact Hall|]. cbv beta.
        intros d' (Hin & H1 & H2). split; [right; exact Hin|]. split; assumption.
    + intros Hrun. destruct (IH _ _ Hrun) as (kept & -> & Hall).
      exists kept. split; [reflexivity|].
      eapply Forall_impl; [exact Hall|]. cbv beta.
      intros d' (Hin & H1 & H2). split; [right; exact Hin|]. split; assumption.
Qed.

Section Stored.

Variable E : Env.

Lemma store_page_sublist d t ty u pd ocr p v w :
  let w' := snd (store_page E d t ty u pd ocr p v w) in
  exists new tried,
    table w' = table w ++ new
    /\ inserts (trace w') = inserts (trace w) ++ tried
    /\ sublist new tried.
Proof.
  cbv zeta. pose proof (store_page_run E d t ty u pd ocr p v w) as Hrun.
  cbv zeta in Hrun. destruct Hrun as (_ & _ & tried & Hins & _ & Hres).
  destruct (fst (store_page E d t ty u pd ocr p v w)) as [[]|e].
  - destruct Hres as (row & -> & Htab). exists [row], [row].
    split; [exact Htab|]. split; [exact Hins|]. reflexivity.
  - exists [], tried. rewrite app_nil_r.
    split; [exact Hres|]. split; [exact Hins|]. apply sublist_nil_l.
Qed.

Lemma store_loop_sublist d t ty u pd ocr pairs :
  forall n w,
    let w' := snd (store_loop E d t ty u pd ocr pairs n w) in
    exists new tried,
      table w' = table w ++ new
      /\ inserts (trace w') = inserts (trace w) ++ tried
      /\ sublist new tried.
Proof.
  cbv zeta. induction pairs as [|[p v] rest IH]; intros n w.
  - exists [], []. simpl. rewrite !app_nil_r. repeat split. constructor.
  - simpl store_loop.
    destruct (store_page_sublist d t ty u pd ocr p v w)
      as (new1 & tried1 & Ht1 & Hi1 & Hs1).
    destruct (store_page E d t ty u pd ocr p v w) as [[[]|e] w1] eqn:Hsp;
      cbn [fst snd] in *.
    + match goal with |- context [bind (try_except ?m ?h) ?k w] =>
        assert (Htry : try_except m h w = (Ok (S n), w1))
          by (unfold try_except; rewrite (bind_ok _ _ _ _ _ Hsp); reflexivity);
        rewrite (bind_ok _ _ _ _ _ Htry) end.
      destruct (IH (S n) w1) as (new2 & tried2 & Ht2 & Hi2 & Hs2).
      exists (new1 ++ new2), (tried1 ++ tried2).
      rewrite Ht2, Hi2, Ht1, Hi1, <- !app_assoc.
      repeat split. apply sublist_app; assumption.
    + match goal with |- context [bind (try_except ?m ?h) ?k w] =>
        assert (Htry : try_except m h w = (Ok n, snd (h e w1)))
          by (unfold try_except; rewrite (bind_raise _ _ _ _ _ Hsp); reflexivity);
        rewrite (bind_ok _ _ _ _ _ Htry) end.
      cbn [fst snd print bind emit modify ret].
      match goal with |- context [store_loop E d t ty u pd ocr rest n ?x] =>
        destruct (IH n x) as (new2 & tried2 & Ht2 & Hi2 & Hs2) end.
      cbn [table trace] in Ht2, Hi2.
      unfold inserts in Hi2 at 2. rewrite omap_snoc in Hi2. cbn in Hi2.
      rewrite app_nil_r in Hi2. fold (inserts (trace w1)) in Hi2.
      exists (new1 ++ new2), (tried1 ++ tried2).
      rewrite Ht2, Hi2, Ht1, Hi1, <- !app_assoc.
      repeat split. apply sublist_app; assumption.
Qed.

End Stored.

(** X19. From the OCR answer to the table.  When the page loop has kept the
    pages [P] of an OCR answer and [P] is stored, the rows that reach the
    table are, in order, among the inserts attempted, and each insert is
    built from a page object of the answer: its page number is that
    object's [index] plus one ([index] absent counting as 0), its content
    is the object's [markdown], and its [original_text] is the
    [extractedText] of the whole answer, the same in every row of the
    document. *)
Theorem stored_rows_come_from_the_ocr_pages
    (E : Env) (d t ty u : string) (ocr_data : json) (items : list json)
    (P : list PageData.t) (vs : list vector) (w : World) :
  page_loop ocr_data items [] = Ok P ->
  let w' := snd (store_document_pages E d t ty u P ocr_data vs w) in
  exists rows tried,
    table w' = table w ++ rows
    /\ inserts (trace w') = inserts (trace w) ++ tried
    /\ sublist rows tried
    /\ Forall (fun r =>
                 exists page,
                   In page items
                   /\ passes_filter page = true
                   /\ (exists index, Py.get page "index" (JNum 0) = Ok index
                                     /\ Py.add index 1 = Ok (Row.page_number r))
                   /\ Py.get page "markdown" (JStr "") = Ok (JStr (Row.content r))
                   /\ Py.get ocr_data "extractedText" (JStr "")
                      = Ok (Row.original_text r)) tried.
Proof.
  intros Hloop w'. subst w'. unfold store_document_pages.
  destruct (store_loop_sublist E d t ty u P ocr_data (combine P vs) 0 w)
    as (rows & tried & Htab & Hins & Hsub).
  destruct (store_loop_run E d t ty u P ocr_data (combine P vs) 0 w)
    as (rows' & tried' & w' & Hrun & _ & _ & Hins' & Hall & _).
  rewrite Hrun in Hins. cbn [snd] in Hins. rewrite Hins' in Hins.
  apply app_inv_head in Hins. subst tried'.
  exists rows, tried. split; [exact Htab|]. split; [rewrite Hrun; exact Hins'|].
  split; [exact Hsub|].
  destruct (page_loop_fields ocr_data items [] P Hloop) as (kept & -> & Hfields).
  destruct (page_loop_run ocr_data items [] _ Hloop) as (kept' & Heq & Hmap & Hmd).
  cbn [app] in *. subst kept'.
  eapply Forall_impl; [exact Hall|]. cbv beta.
  intros r (p & v & Hin & Hp & Hc & Ho & _).
  apply in_combine_l in Hin.
  rewrite List.Forall_forall in Hfields, Hmd.
  destruct (Hfields p Hin) as (Hpage & Hnum & Htext). specialize (Hmd p Hin).
  exists (PageData.page_info p). rewrite Hp, Hc, Ho.
  split; [exact Hpage|]. split.
  { assert (Hf : In (PageData.page_info p) (List.filter passes_filter items)).
    { rewrite <- Hmap. apply in_map. exact Hin. }
    apply filter_In in Hf. apply Hf. }
  split; [exact Hnum|]. split; [exact Hmd|exact Htext].
Qed.

Lemma stored_rows_come_from_the_ocr_pages_witness :
  let E := Scenario.healthy Scenario.one_pdf Scenario.pages_filtered in
  let ocr_data := JObj [("pages", JArr Scenario.pages_filtered);
                        ("extractedText", JStr "full text")] in
  exists P rows tried,
    page_loop ocr_data Scenario.pages_filtered [] = Ok P
    /\ table (snd (store_document_pages E "02 Jan 2025" "Policy B"
                     "Policy Document" "https://www.bnm.gov.my/docs/b.pdf" P
                     ocr_data [[1%Z]; [2%Z]] Scenario.world0))
       = table Scenario.world0 ++ rows
    /\ sublist rows tried.
Proof.
  cbv zeta. eexists.
  destruct (stored_rows_come_from_the_ocr_pages
              (Scenario.healthy Scenario.one_pdf Scenario.pages_filtered)
              "02 Jan 2025" "Policy B" "Policy Document"
              "https://www.bnm.gov.my/docs/b.pdf"
              (JObj [("pages", JArr Scenario.pages_filtered);
                     ("extractedText", JStr "full text")])
              Scenario.pages_filtered _ [[1%Z]; [2%Z]] Scenario.world0 eq_refl)
    as (rows & tried & Htab & _ & Hsub & _).
  exists rows, tried. split; [reflexivity|]. split; [exact Htab|exact Hsub].
Defined.

(** ** When the embedding endpoint fails *)

Lemma inserts_print (tr : list Event) (line : string) :
  inserts (tr ++ [Print line]) = inserts tr.
Proof. unfold inserts. rewrite omap_snoc. apply app_nil_r. Qed.

Lemma unlinks_print (tr : list Event) (line : string) :
  unlinks (tr ++ [Print line]) = unlinks tr.
Proof. unfold unlinks. rewrite omap_snoc. apply app_nil_r. Qed.

Section NoInsert.

Variable E : Env.

Lemma keeps_download_inserts url :
  keeps (fun w => inserts (trace w)) (download_pdf E url).
Proof. unfold download_pdf, browser_launch, print, unlink, set_files. frames. Qed.

Lemma keeps_extract_inserts p :
  keeps (fun w => inserts (trace w)) (extract_text_from_pdf E p).
Proof. unfold extract_text_from_pdf, open_file, print. frames. Qed.

Lemma keeps_embed_loop_inserts pdl starts acc :
  keeps (fun w => inserts (trace w)) (embed_loop E pdl starts acc).
Proof.
  revert acc. induction starts as [|i rest IH]; intros acc; simpl.
  - apply keeps_ret.
  - apply keeps_bind; [|intros a; apply IH].
    unfold generate_embeddings_batch. frames.
Qed.

End NoInsert.

(** X20. When a call of the embedding endpoint raises, the processor stops
    at its handler: it prints the exception and returns [False], no insert
    is attempted and no row of the document is written (not even for the
    batches already embedded), and [unlink] is not reached, so the
    downloaded file stays in the download directory. *)
Theorem failed_embedding_stores_nothing
    (E : Env) (d t ty u : string) (w : World) (p : string) (j pages : json)
    (items : list json) (P : list PageData.t) (e : exn) :
  let w1 := snd (download_pdf E u w) in
  let w2 := snd (extract_text_from_pdf E p w1) in
  let embedding :=
    embed_loop E P (py_range (length P) BATCH_EMBEDDING_SIZE) [] w2 in
  fst (download_pdf E u w) = Ok (Some p) ->
  fst (extract_text_from_pdf E p w1) = Ok j ->
  Py.truthy j = true ->
  Py.get j "pages" (JArr []) = Ok pages ->
  Py.iter pages = Ok items ->
  page_loop j items [] = Ok P ->
  fst embedding = Raise e ->
  let run := process_new_document E d t ty u w in
  run = (Ok false,
         snd (print ("[ERROR] Processing failed: " ++ str_of_exn e)%string
                (snd embedding)))
  /\ table (snd run) = table w
  /\ inserts (trace (snd run)) = inserts (trace w)
  /\ unlinks (trace (snd run)) = unlinks (trace w)
  /\ p ∈ files (snd run).
Proof.
  intros w1 w2 embedding Hd He Hj Hpages Hitems Hloop Hraise run.
  destruct (download_pdf_keeps_payload E u w p Hd) as [Hin Hun].
  pose proof (keeps_download_table E u w) as Ht1.
  pose proof (keeps_download_inserts E u w) as Hi1.
  pose proof (keeps_extract_files E p w1) as Hf2.
  pose proof (keeps_extract_table E p w1) as Ht2.
  pose proof (keeps_extract_unlinks E p w1) as Hu2.
  pose proof (keeps_extract_inserts E p w1) as Hi2.
  pose proof (keeps_embed_loop E table P
                (py_range (length P) BATCH_EMBEDDING_SIZE) [] keeps_emit_table w2) as Ht3.
  pose proof (keeps_embed_loop E files P
                (py_range (length P) BATCH_EMBEDDING_SIZE) [] keeps_emit_files w2) as Hf3.
  pose proof (keeps_embed_loop_unlinks E P
                (py_range (length P) BATCH_EMBEDDING_SIZE) [] w2) as Hu3.
  pose proof (keeps_embed_loop_inserts E P
                (py_range (length P) BATCH_EMBEDDING_SIZE) [] w2) as Hi3.
  cbv beta in *.
  fold w1 in Hin, Hun, Ht1, Hi1. fold w2 in Hf2, Ht2, Hu2, Hi2.
  fold embedding in Ht3, Hf3, Hu3, Hi3.
  assert (Hrun : run = (Ok false,
                        snd (print ("[ERROR] Processing failed: " ++ str_of_exn e)%string
                               (snd embedding)))).
  { subst run. unfold process_new_document, try_except.
    destruct (download_pdf E u w) as [r0 w1'] eqn:Hdl. cbn [fst snd] in *.
    subst r0 w1. rewrite (bind_ok _ _ _ _ _ Hdl).
    destruct (extract_text_from_pdf E p w1') as [r1 w2'] eqn:Hext.
    cbn [fst snd] in *. subst r1 w2. rewrite (bind_ok _ _ _ _ _ Hext).
    rewrite Hj. cbn [negb]. rewrite bind_lift, Hpages, bind_lift, Hitems,
      bind_lift, Hloop.
    destruct P as [|pd0 P'].
    { subst embedding. cbn in Hraise. discriminate Hraise. }
    destruct embedding as [r3 w3] eqn:Hemb. cbn [fst snd] in *. subst r3.
    subst embedding. rewrite (bind_raise _ _ _ _ _ Hemb). reflexivity. }
  split; [exact Hrun|]. rewrite Hrun. cbn [snd print emit modify table files trace].
  split; [rewrite Ht3, Ht2, Ht1; reflexivity|].
  split; [rewrite inserts_print, Hi3, Hi2, Hi1; reflexivity|].
  split; [rewrite unlinks_print, Hu3, Hu2, Hun; reflexivity|].
  rewrite Hf3, Hf2. exact Hin.
Qed.

Lemma failed_embedding_stores_nothing_witness :
  let run :=
    process_new_document
      (Scenario.openai_down Scenario.one_pdf Scenario.pages_kept)
      "02 Jan 2025" "Policy B" "Policy Document"
      "https://www.bnm.gov.my/docs/b.pdf" Scenario.world0 in
  table (snd run) = [] /\ "temp_bnm_downloads/b.pdf"%string ∈ files (snd run).
Proof.
  cbv zeta.
  destruct (failed_embedding_stores_nothing
              (Scenario.openai_down Scenario.one_pdf Scenario.pages_kept)
              "02 Jan 2025" "Policy B" "Policy Document"
              "https://www.bnm.gov.my/docs/b.pdf" Scenario.world0
              "temp_bnm_downloads/b.pdf"
              (JObj [("pages", JArr Scenario.pages_kept);
                     ("extractedText", JStr "full text");
                     ("model", JStr "mistral-ocr-latest")])
              (JArr Scenario.pages_kept) Scenario.pages_kept _
              (Exception "APIConnectionError")
              eq_refl eq_refl eq_refl eq_refl eq_refl eq_refl eq_refl)
    as (_ & Htab & _ & _ & Hin).
  split; [exact Htab|exact Hin].
Defined.

(** ** The download directory *)

Lemma keeps_bind_fst {A B X} (f : World -> X) (m : M A) (k : A -> M B) :
  keeps f m ->
  (forall w a, fst (m w) = Ok a -> keeps f (k a)) ->
  keeps f (bind m k).
Proof.
  intros Hm Hk w. unfold bind. specialize (Hm w).
  destruct (m w) as [[a|e] w1] eqn:Hmw; simpl in *.
  - rewrite (Hk w a); [exact Hm|rewrite Hmw; reflexivity].
  - exact Hm.
Qed.

Section Payload.

Variable E : Env.
Variable u : string.

Lemma keeps_other_files_emit ev : keeps (other_files u) (emit ev).
Proof. intros w. reflexivity. Qed.

Lemma keeps_other_files_set_table g : keeps (other_files u) (set_table g).
Proof. intros w. reflexivity. Qed.

Lemma keeps_other_files_unlink : keeps (other_files u) (unlink (download_path u)).
Proof.
  intros w. unfold unlink, bind, emit, modify, ask, set_files, raise, other_files.
  cbn [fst snd files].
  destruct (bool_decide (download_path u ∈ files w));
    cbn [fst snd files modify].
  - apply set_eq. intros x.
    rewrite !elem_of_difference, !elem_of_singleton. intuition.
  - reflexivity.
Qed.

Lemma keeps_other_files_save :
  keeps (other_files u) (set_files (fun fs => {[ download_path u ]} ∪ fs)).
Proof.
  intros w. unfold other_files. cbn. apply set_eq. intros x.
  rewrite !elem_of_difference, elem_of_union, !elem_of_singleton. intuition.
Qed.

Lemma keeps_other_files_download : keeps (other_files u) (download_pdf E u).
Proof.
  unfold download_pdf, browser_launch, print. fold (download_path u).
  repeat first [ frame_step | apply keeps_other_files_emit | apply keeps_other_files_unlink
               | apply keeps_other_files_save ].
Qed.

Lemma keeps_other_files_process d t ty :
  keeps (other_files u) (process_new_document E d t ty u).
Proof.
  unfold process_new_document.
  apply keeps_try; [|intros e; unfold print; frame_step;
                     [apply keeps_other_files_emit|intros; apply keeps_ret]].
  apply keeps_bind_fst; [apply keeps_other_files_download|].
  intros w [p|] Hp; [|apply keeps_ret].
  apply download_pdf_some in Hp. subst p.
  apply keeps_bind.
  { unfold extract_text_from_pdf, open_file, print.
    repeat first [ frame_step | apply keeps_other_files_emit ]. }
  intros j. destruct (negb (Py.truthy j)).
  { apply keeps_bind; [apply keeps_other_files_unlink|intros; apply keeps_ret]. }
  apply keeps_bind; [apply keeps_lift|intros pages].
  apply keeps_bind; [apply keeps_lift|intros items].
  apply keeps_bind; [apply keeps_lift|intros pdl].
  destruct pdl as [|pd0 pdl].
  { apply keeps_bind; [apply keeps_other_files_unlink|intros; apply keeps_ret]. }
  apply keeps_bind; [apply keeps_embed_loop, keeps_other_files_emit|intros vs].
  apply keeps_bind; [|intros n].
  { apply keeps_store_loop.
    - intros p0 v. unfold store_page, supabase_insert, now.
      repeat first [ frame_step | apply keeps_other_files_emit
                   | apply keeps_other_files_set_table ].
    - intros line. apply keeps_other_files_emit. }
  apply keeps_bind; [apply keeps_other_files_unlink|intros; apply keeps_ret].
Qed.

End Payload.

(** X21. The processor touches one path of the download directory only,
    the one its URL is saved to: every other file that was there is still
    there afterwards, and no other file appears. *)
Theorem processor_touches_only_its_payload
    (E : Env) (d t ty u : string) (w : World) :
  let run := process_new_document E d t ty u w in
  (forall path, path <> download_path u ->
     (path ∈ files (snd run) <-> path ∈ files w))
  /\ (forall path, path ∈ files (snd run) ->
        path ∈ files w \/ path = download_path u).
Proof.
  cbv zeta. pose proof (keeps_other_files_process E u d t ty w) as Hkeep.
  unfold other_files in Hkeep.
  assert (Hiff : forall path, path <> download_path u ->
            (path ∈ files (snd (process_new_document E d t ty u w))
             <-> path ∈ files w)).
  { intros path Hne.
    assert (Hx : path ∈ files (snd (process_new_document E d t ty u w))
                          ∖ {[ download_path u ]}
                 <-> path ∈ files w ∖ {[ download_path u ]})
      by (rewrite Hkeep; reflexivity).
    rewrite !elem_of_difference, !elem_of_singleton in Hx. intuition. }
  split; [exact Hiff|].
  intros path Hin. destruct (decide (path = download_path u)) as [->|Hne].
  - right. reflexivity.
  - left. apply Hiff; assumption.
Qed.

(** ** The standalone service *)

Section StandaloneRuns.

Variable E : Env.

Lemma standalone_download_payload url w p :
  fst (Standalone.download_pdf E url w) = Ok (Some p) ->
  p ∈ files (snd (Standalone.download_pdf E url w))
  /\ table (snd (Standalone.download_pdf E url w)) = table w.
Proof.
  unfold Standalone.download_pdf, try_except, browser_launch.
  repeat progress
    (unfold bind, emit, modify, ask, ask_result, raise, ret, print, set_files,
       unlink;
     cbn [fst snd files]).
  match goal with |- context [browser_launch_error E ?x] =>
    destruct (browser_launch_error E x) end; cbn [fst snd]; [discriminate|].
  match goal with |- context [browser_download E url ?x] =>
    destruct (browser_download E url x) as [size|e0] end; cbn [fst snd];
    [|discriminate].
  destruct (size <? 1000); cbn [fst snd files].
  - rewrite bool_decide_eq_true_2
      by (apply elem_of_union; left; apply elem_of_singleton; reflexivity).
    cbn [fst snd]. discriminate.
  - intros [= <-]. cbn [files table]. split; [|reflexivity].
    apply elem_of_union. left. apply elem_of_singleton. reflexivity.
Qed.

Lemma keeps_standalone_extract_files p :
  keeps files (Standalone.extract_text_from_pdf E p).
Proof. unfold Standalone.extract_text_from_pdf, open_file. frames. Qed.

Lemma keeps_standalone_extract_table p :
  keeps table (Standalone.extract_text_from_pdf E p).
Proof. unfold Standalone.extract_text_from_pdf, open_file. frames. Qed.

(** A row as the standalone service stamps it. *)
Lemma standalone_store_page_run d t ty u pages ocr p v w :
  let r := fst (Standalone.store_page E d t ty u pages ocr p v w) in
  let w' := snd (Standalone.store_page E d t ty u pages ocr p v w) in
  files w' = files w
  /\ exists new,
       table w' = table w ++ new
       /\ length new <= 1
       /\ (forall e, r = Raise e -> new = [])
       /\ Forall (fun row =>
                    Row.date row = d /\ Row.title row = t /\ Row.type row = ty
                    /\ Row.pdf_url row = u
                    /\ Row.page_number row = PageData.page_number p
                    /\ Row.embedding row = v
                    /\ Py.len pages = Ok (Metadata.total_pages (Row.metadata row))
                    /\ SourceMetadata.source (Row.source_metadata row)
                       = "BNM Website - Daily Cron"%string) new.
Proof.
  cbv zeta. remember (Standalone.store_page E d t ty u pages ocr p v w) as run eqn:Hrun.
  unfold Standalone.store_page, now in Hrun. cbv zeta in Hrun.
  rewrite bind_ask in Hrun.
  rewrite bind_lift in Hrun.
  destruct (Py.len pages) as [total|e0] eqn:Hlen;
    [|rewrite Hrun; cbn [fst snd]; split; [reflexivity|];
      exists []; rewrite app_nil_r; repeat split; auto; constructor].
  repeat (rewrite bind_lift in Hrun;
          match type of Hrun with
          | context [match ?x with Ok _ => _ | Raise _ => _ end] => destruct x
          end;
          [ | rewrite Hrun; cbn [fst snd]; split; [reflexivity|];
              exists []; rewrite app_nil_r; repeat split; auto; constructor ]).
  rewrite bind_ask, supabase_insert_run in Hrun. cbv zeta in Hrun.
  match type of Hrun with context [supabase_insert_error E ?d ?x] =>
    destruct (supabase_insert_error E d x); set (row := d) in * end;
    rewrite Hrun; cbn [fst snd files table trace emit modify];
    (split; [reflexivity|]).
  - exists []. rewrite app_nil_r. repeat split; auto; constructor.
  - exists [row]. split; [reflexivity|]. split; [simpl; lia|].
    split; [discriminate|]. constructor; [|constructor]. repeat split.
Qed.

Lemma standalone_store_loop_run d t ty u pages ocr pairs :
  forall w,
  exists rows w',
    Standalone.store_loop E d t ty u pages ocr pairs w = (Ok tt, w')
    /\ files w' = files w
    /\ table w' = table w ++ rows
    /\ length rows <= length pairs
    /\ Forall (fun row =>
                 Row.date row = d /\ Row.title row = t /\ Row.type row = ty
                 /\ Row.pdf_url row = u
                 /\ (exists p v, In (p, v) pairs
                       /\ Row.page_number row = PageData.page_number p
                       /\ Row.embedding row = v)
                 /\ Py.len pages = Ok (Metadata.total_pages (Row.metadata row))
                 /\ SourceMetadata.source (Row.source_metadata row)
                    = "BNM Website - Daily Cron"%string) rows.
Proof.
  induction pairs as [|[p v] rest IH]; intros w.
  - exists [], w. simpl. rewrite app_nil_r. repeat split; auto.
  - simpl Standalone.store_loop.
    destruct (standalone_store_page_run d t ty u pages ocr p v w)
      as (Hf1 & new & Ht1 & Hn1 & Hr1 & Hall1).
    cbv zeta in *.
    destruct (Standalone.store_page E d t ty u pages ocr p v w)
      as [[[]|e] w1] eqn:Hsp; cbn [fst snd] in *.
    + match goal with |- context [bind (try_except ?m ?h) ?k w] =>
        assert (Htry : try_except m h w = (Ok tt, w1))
          by (unfold try_except; rewrite Hsp; reflexivity);
        rewrite (bind_ok _ _ _ _ _ Htry) end.
      destruct (IH w1) as (rows & w' & Hrun & Hf2 & Ht2 & Hn2 & Hall2).
      exists (new ++ rows), w'. rewrite Hrun, Hf2, Ht2, Hf1, Ht1, length_app,
        <- app_assoc. cbn [length].
      repeat split; try lia. apply Forall_app. split.
      * eapply Forall_impl; [exact Hall1|]. cbv beta.
        intros row (H1 & H2 & H3 & H4 & H5 & H6 & H7 & H8).
        repeat split; try assumption. exists p, v.
        split; [left; reflexivity|]. split; assumption.
      * eapply Forall_impl; [exact Hall2|]. cbv beta.
        intros row (H1 & H2 & H3 & H4 & (p' & v' & Hin & H5 & H6) & H7 & H8).
        repeat split; try assumption. exists p', v'.
        split; [right; exact Hin|]. split; assumption.
    + match goal with |- context [bind (try_except ?m ?h) ?k w] =>
        assert (Htry : try_except m h w = (Ok tt, snd (h e w1)))
          by (unfold try_except; rewrite Hsp; reflexivity);
        rewrite (bind_ok _ _ _ _ _ Htry) end.
      cbn [fst snd print bind emit modify ret].
      match goal with |- context [Standalone.store_loop E d t ty u pages ocr rest ?x] =>
        destruct (IH x) as (rows & w' & Hrun & Hf2 & Ht2 & Hn2 & Hall2) end.
      cbn [files table] in Hf2, Ht2.
      rewrite (Hr1 e eq_refl), app_nil_r in Ht1.
      exists rows, w'. rewrite Hrun, Hf2, Ht2, Hf1, Ht1. cbn [length].
      repeat split; try lia.
      eapply Forall_impl; [exact Hall2|]. cbv beta.
      intros row (H1 & H2 & H3 & H4 & (p' & v' & Hin & H5 & H6) & H7 & H8).
      repeat split; try assumption. exists p', v'.
      split; [right; exact Hin|]. split; assumption.
Qed.

Hypothesis inserts_fail :
  forall row w, supabase_insert_error E row w <> None.

Lemma keeps_failing_insert_table row : keeps table (supabase_insert E row).
Proof.
  intros w. rewrite supabase_insert_run. cbv zeta.
  match goal with |- context [supabase_insert_error E row ?x] =>
    pose proof (inserts_fail row x) as Hfail;
    destruct (supabase_insert_error E row x) end; [reflexivity|congruence].
Qed.

Lemma keeps_failing_standalone_store d t ty u pages ocr pairs :
  keeps table (Standalone.store_loop E d t ty u pages ocr pairs).
Proof.
  induction pairs as [|[p v] rest IH]; simpl.
  - apply keeps_ret.
  - apply keeps_bind; [|intros; apply IH].
    apply keeps_try; [|intros e; apply keeps_emit_table].
    unfold Standalone.store_page, now.
    repeat first [ frame_step | apply keeps_failing_insert_table ].
Qed.

Lemma keeps_failing_process_table d t ty u :
  keeps table (process_new_document E d t ty u).
Proof.
  unfold process_new_document.
  apply keeps_try; [|intros e; unfold print; frames].
  apply keeps_bind; [apply keeps_download_table|].
  intros [p|]; [|apply keeps_ret].
  apply keeps_bind; [apply keeps_extract_table|intros j].
  destruct (negb (Py.truthy j)).
  { apply keeps_bind; [apply keeps_unlink_table|intros; apply keeps_ret]. }
  apply keeps_bind; [apply keeps_lift|intros pages].
  apply keeps_bind; [apply keeps_lift|intros items].
  apply keeps_bind; [apply keeps_lift|intros pdl].
  destruct pdl as [|pd0 pdl].
  { apply keeps_bind; [apply keeps_unlink_table|intros; apply keeps_ret]. }
  apply keeps_bind; [apply keeps_embed_loop, keeps_emit_table|intros vs].
  apply keeps_bind; [|intros n].
  { apply keeps_store_loop.
    - intros p0 v. unfold store_page, now.
      repeat first [ frame_step | apply keeps_failing_insert_table ].
    - intros line. apply keeps_emit_table. }
  apply keeps_bind; [apply keeps_unlink_table|intros; apply keeps_ret].
Qed.

Lemma failing_store_answers_false d t ty u w :
  fst (process_new_document E d t ty u w) = Ok false.
Proof.
  pose proof (keeps_failing_process_table d t ty u w) as Hkeep.
  destruct (process_new_document_run E d t ty u w) as (rows & Htab & ->).
  rewrite Hkeep in Htab. rewrite <- (app_nil_r (table w)) in Htab at 1.
  apply app_inv_head in Htab. subst rows. reflexivity.
Qed.

End StandaloneRuns.

(** X22. The two copies of the processor disagree on what success is.  The
    standalone service returns [True] as soon as it has been through the
    storing loop: once the download, the OCR step, the page loop and the
    embedding calls have succeeded, it answers [True] whatever the inserts
    do, the payload is unlinked, and the table has grown by at most one row
    per page-vector pair, possibly by none.  When no insert goes through,
    the table is unchanged and it still answers [True], where
    [process_new_document] of the application answers [False]. *)
Theorem standalone_reports_success_without_rows
    (E : Env) (d t ty u : string) (w : World) (p : string) (j pages : json)
    (items : list json) (pd0 : PageData.t) (P : list PageData.t)
    (vs : list vector) :
  let w1 := snd (Standalone.download_pdf E u w) in
  let w2 := snd (Standalone.extract_text_from_pdf E p w1) in
  let embedding :=
    embed_loop E (pd0 :: P) (py_range (length (pd0 :: P)) 10) [] w2 in
  fst (Standalone.download_pdf E u w) = Ok (Some p) ->
  fst (Standalone.extract_text_from_pdf E p w1) = Ok j ->
  Py.truthy j = true ->
  Py.get j "pages" (JArr []) = Ok pages ->
  Py.iter pages = Ok items ->
  page_loop j items [] = Ok (pd0 :: P) ->
  fst embedding = Ok vs ->
  let run := Standalone.process_new_document E d t ty u w in
  fst run = Ok true
  /\ (p ∉ files (snd run))
  /\ (exists rows,
        table (snd run) = table w ++ rows
        /\ length rows <= Nat.min (length (pd0 :: P)) (length vs))
  /\ ((forall row w0, supabase_insert_error E row w0 <> None) ->
        table (snd run) = table w
        /\ fst (process_new_document E d t ty u w) = Ok false).
Proof.
  intros w1 w2 embedding Hd He Hj Hpages Hitems Hloop Hemb run.
  destruct (standalone_download_payload E u w p Hd) as [Hin Ht1].
  pose proof (keeps_standalone_extract_files E p w1) as Hf2.
  pose proof (keeps_standalone_extract_table E p w1) as Ht2.
  pose proof (keeps_embed_loop E table (pd0 :: P)
                (py_range (length (pd0 :: P)) 10) [] keeps_emit_table w2) as Ht3.
  pose proof (keeps_embed_loop E files (pd0 :: P)
                (py_range (length (pd0 :: P)) 10) [] keeps_emit_files w2) as Hf3.
  cbv beta in *.
  fold w1 in Hin, Ht1. fold w2 in Hf2, Ht2. fold embedding in Ht3, Hf3.
  destruct (standalone_store_loop_run E d t ty u pages j
              (combine (pd0 :: P) vs) (snd embedding))
    as (rows & w4 & Hst & Hf4 & Ht4 & Hn4 & _).
  assert (Hin4 : p ∈ files w4) by (rewrite Hf4, Hf3, Hf2; exact Hin).
  destruct (unlink_present p w4 Hin4) as (w5 & Hu & Ht5 & Hf5 & _).
  assert (Hrun : run = (Ok true, w5)).
  { subst run. unfold Standalone.process_new_document, try_except.
    destruct (Standalone.download_pdf E u w) as [r0 w1'] eqn:Hdl.
    cbn [fst snd] in *. subst r0 w1. rewrite (bind_ok _ _ _ _ _ Hdl).
    destruct (Standalone.extract_text_from_pdf E p w1') as [r1 w2'] eqn:Hext.
    cbn [fst snd] in *. subst r1 w2. rewrite (bind_ok _ _ _ _ _ Hext).
    rewrite Hj. cbn [negb]. rewrite bind_lift, Hpages, bind_lift, Hitems,
      bind_lift, Hloop. cbv zeta.
    destruct embedding as [r3 w3] eqn:Hrun3. cbn [fst snd] in *. subst r3.
    subst embedding. rewrite (bind_ok _ _ _ _ _ Hrun3).
    rewrite (bind_ok _ _ _ _ _ Hst). rewrite (bind_ok _ _ _ _ _ Hu).
    reflexivity. }
  rewrite Hrun. cbn [fst snd].
  split; [reflexivity|]. split.
  { rewrite Hf5, not_elem_of_difference, elem_of_singleton. right. reflexivity. }
  split.
  { exists rows. rewrite Ht5, Ht4, Ht3, Ht2, Ht1. split; [reflexivity|].
    rewrite length_combine in Hn4. exact Hn4. }
  intros Hfail. split; [|apply failing_store_answers_false; exact Hfail].
  rewrite Ht5.
  pose proof (keeps_failing_standalone_store E Hfail d t ty u pages j
                (combine (pd0 :: P) vs) (snd embedding)) as Hkeep.
  rewrite Hst in Hkeep. cbn [snd] in Hkeep.
  rewrite Hkeep, Ht3, Ht2, Ht1. reflexivity.
Qed.

(** With every insert refused, the standalone processor answers [True] and
    the table stays empty. *)
Lemma standalone_reports_success_without_rows_witness :
  let run :=
    Standalone.process_new_document
      (Scenario.store_down Scenario.one_pdf Scenario.pages_kept)
      "02 Jan 2025" "Policy B" "Policy Document"
      "https://www.bnm.gov.my/docs/b.pdf" Scenario.world0 in
  fst run = Ok true /\ table (snd run) = [].
Proof.
  cbv zeta.
  destruct (standalone_reports_success_without_rows
              (Scenario.store_down Scenario.one_pdf Scenario.pages_kept)
              "02 Jan 2025" "Policy B" "Policy Document"
              "https://www.bnm.gov.my/docs/b.pdf" Scenario.world0
              "temp_bnm_downloads/b.pdf"
              (JObj [("pages", JArr Scenario.pages_kept);
                     ("extractedText", JStr "full text");
                     ("model", JStr "mistral-ocr-latest")])
              (JArr Scenario.pages_kept) Scenario.pages_kept _ _ _
              eq_refl eq_refl eq_refl eq_refl eq_refl eq_refl eq_refl)
    as (Hok & _ & _ & Hnone).
  split; [exact Hok|].
  apply Hnone. intros row w0. discriminate.
Defined.

(** X23. The rows of the standalone service carry the date, title, type
    and URL of the document and the source [BNM Website - Daily Cron];
    their [total_pages] is the number of pages of the OCR answer, the pages
    the filter dropped included, so it is never less than the number of
    pages retained, which is what [store_document_pages] of the application
    records. *)
Theorem standalone_total_pages_counts_filtered_pages
    (E : Env) (d t ty u : string) (ocr_data : json) (items : list json)
    (P : list PageData.t) (vs : list vector) (w : World) :
  page_loop ocr_data items [] = Ok P ->
  let w' := snd (Standalone.store_loop E d t ty u (JArr items) ocr_data
                   (combine P vs) w) in
  length P = length (List.filter passes_filter items)
  /\ length P <= length items
  /\ exists rows,
       table w' = table w ++ rows
       /\ Forall (fun row =>
                    Row.date row = d /\ Row.title row = t /\ Row.type row = ty
                    /\ Row.pdf_url row = u
                    /\ Metadata.total_pages (Row.metadata row) = length items
                    /\ SourceMetadata.source (Row.source_metadata row)
                       = "BNM Website - Daily Cron"%string) rows.
Proof.
  intros Hloop w'. subst w'.
  destruct (page_loop_run ocr_data items [] P Hloop) as (kept & Heq & Hmap & _).
  cbn [app] in Heq. subst kept.
  assert (Hlen : length P = length (List.filter passes_filter items)).
  { rewrite <- Hmap, length_map. reflexivity. }
  split; [exact Hlen|]. split.
  { rewrite Hlen. apply List.filter_length_le. }
  destruct (standalone_store_loop_run E d t ty u (JArr items) ocr_data
              (combine P vs) w) as (rows & w' & Hst & _ & Htab & _ & Hall).
  exists rows. rewrite Hst. split; [exact Htab|].
  eapply Forall_impl; [exact Hall|]. cbv beta.
  intros row (H1 & H2 & H3 & H4 & _ & H5 & H6). cbn in H5.
  injection H5 as H5. repeat split; try assumption. symmetry. exact H5.
Qed.

Lemma standalone_total_pages_counts_filtered_pages_witness :
  exists P,
    page_loop (JObj [("extractedText", JStr "full text")])
      Scenario.pages_filtered [] = Ok P
    /\ length P = 2 /\ length Scenario.pages_filtered = 3.
Proof.
  eexists. split; [reflexivity|].
  destruct (standalone_total_pages_counts_filtered_pages
              (Scenario.healthy Scenario.one_pdf Scenario.pages_filtered)
              "02 Jan 2025" "Policy B" "Policy Document"
              "https://www.bnm.gov.my/docs/b.pdf"
              (JObj [("extractedText", JStr "full text")])
              Scenario.pages_filtered _ [[1%Z]; [2%Z]] Scenario.world0 eq_refl)
    as (Hlen & _).
  split; [exact Hlen|reflexivity].
Defined.

(** ** Discovery and fan-out, over the whole run *)

Lemma reported_new_cons (a : Announcement.t) (df : list Announcement.t)
    (found : bool) (founds : list bool) :
  reported_new (a :: df) (found :: founds)
  = if found then reported_new df founds else a :: reported_new df founds.
Proof. unfold reported_new. cbn. destruct found; reflexivity. Qed.

Section FanOutRun.

Variable E : Env.

Lemma keeps_unlink_checks p : keeps (fun w => exists_calls (trace w)) (unlink p).
Proof. unfold unlink, set_files. frames. Qed.

Lemma keeps_download_checks url : keeps (fun w => exists_calls (trace w)) (download_pdf E url).
Proof. unfold download_pdf, browser_launch, print, unlink, set_files. frames. Qed.

Lemma keeps_extract_checks p : keeps (fun w => exists_calls (trace w)) (extract_text_from_pdf E p).
Proof. unfold extract_text_from_pdf, open_file, print. frames. Qed.

Lemma keeps_embed_loop_checks pdl starts acc :
  keeps (fun w => exists_calls (trace w)) (embed_loop E pdl starts acc).
Proof.
  revert acc. induction starts as [|i rest IH]; intros acc; simpl.
  - apply keeps_ret.
  - apply keeps_bind; [|intros a; apply IH].
    unfold generate_embeddings_batch. frames.
Qed.

Lemma keeps_store_checks d t ty u pd ocr vs :
  keeps (fun w => exists_calls (trace w)) (store_document_pages E d t ty u pd ocr vs).
Proof.
  apply keeps_store_loop.
  - intros p v. unfold store_page, supabase_insert, now, set_table. frames.
  - intros line. unfold print. frames.
Qed.

(** The processor never asks the existence check. *)
Lemma keeps_process_checks d t ty u :
  keeps (fun w => exists_calls (trace w)) (process_new_document E d t ty u).
Proof.
  unfold process_new_document.
  apply keeps_try; [|intros e; unfold print; frames].
  apply keeps_bind; [apply keeps_download_checks|].
  intros [p|]; [|apply keeps_ret].
  apply keeps_bind; [apply keeps_extract_checks|intros j].
  destruct (negb (Py.truthy j)).
  { apply keeps_bind; [apply keeps_unlink_checks|intros; apply keeps_ret]. }
  apply keeps_bind; [apply keeps_lift|intros pages].
  apply keeps_bind; [apply keeps_lift|intros items].
  apply keeps_bind; [apply keeps_lift|intros pdl].
  destruct pdl as [|pd0 pdl].
  { apply keeps_bind; [apply keeps_unlink_checks|intros; apply keeps_ret]. }
  apply keeps_bind; [apply keeps_embed_loop_checks|intros vs].
  apply keeps_bind; [apply keeps_store_checks|intros n].
  apply keeps_bind; [apply keeps_unlink_checks|intros; apply keeps_ret].
Qed.

Lemma keeps_process_item_checks (item : WorkItem) :
  keeps (fun w => exists_calls (trace w)) (process_item E item).
Proof.
  destruct item as [[[d t] ty] u]. unfold process_item.
  apply keeps_try.
  - apply keeps_bind; [apply keeps_process_checks|intros success].
    apply keeps_bind; [|intros; unfold sleep; frames].
    destruct success; unfold set_cron_status; frames.
  - intros e. unfold print, set_cron_status. frames.
Qed.

Lemma keeps_process_loop_checks (items : list WorkItem) :
  keeps (fun w => exists_calls (trace w)) (process_loop E items).
Proof.
  induction items as [|item rest IH]; simpl.
  - apply keeps_ret.
  - apply keeps_bind; [apply keeps_process_item_checks|intros; apply IH].
Qed.

(** The discovery loop, run: its work items are those of the announcements
    the existence check answered [False] for. *)
Lemma discover_loop_exact (df : list Announcement.t) :
  forall new_docs w,
  exists founds w',
    discover_loop E df new_docs w
    = (Ok (new_docs ++ flat_map work_items (reported_new df founds)), w')
    /\ Forall2 (fun a found =>
                  exists w0,
                    table w0 = table w
                    /\ fst (check_document_exists E (Announcement.title a)
                              (Announcement.date a) w0) = Ok found) df founds
    /\ table w' = table w /\ clock w' = clock w
    /\ downloads (trace w') = downloads (trace w)
    /\ exists_calls (trace w')
       = exists_calls (trace w)
         ++ map (fun a => (Announcement.title a, Announcement.date a)) df
    /\ cron_status w'
       = Nat.iter (length (reported_new df founds)) bump_new_documents
           (cron_status w).
Proof.
  induction df as [|a rest IH]; intros new_docs w.
  - exists [], w. cbn. rewrite !app_nil_r. repeat split. constructor.
  - cbn [discover_loop].
    destruct (no_raise_exists E (Announcement.title a) (Announcement.date a) w)
      as [found Hfound].
    pose proof (discover_run E a new_docs w found Hfound) as Hrun.
    cbv zeta in Hrun.
    set (w1 := snd (emit (CallExists (Announcement.title a)
                            (Announcement.date a)) w)) in *.
    assert (Hex1 : exists_calls (trace w1)
                   = exists_calls (trace w)
                     ++ [(Announcement.title a, Announcement.date a)]).
    { subst w1. cbn. unfold exists_calls. rewrite omap_snoc. reflexivity. }
    assert (Hdl1 : downloads (trace w1) = downloads (trace w)).
    { subst w1. cbn. unfold downloads. rewrite omap_snoc. cbn.
      apply app_nil_r. }
    destruct found; rewrite (bind_ok _ _ _ _ _ Hrun).
    + destruct (IH new_docs w1)
        as (founds & w' & Hloop & Hall & Ht & Hc & Hd & He & Hs).
      exists (true :: founds), w'. rewrite reported_new_cons.
      rewrite Hloop, Ht, Hc, Hd, He, Hs, Hex1, Hdl1, <- app_assoc.
      cbn [map app]. repeat split.
      constructor.
      * exists w. split; [reflexivity|exact Hfound].
      * eapply Forall2_impl; [exact Hall|]. cbv beta.
        intros a' f' (w0 & Hw0 & Hchk). exists w0. split; [exact Hw0|exact Hchk].
    + fold (work_items a).
      destruct (IH (new_docs ++ work_items a)
                  (snd (set_cron_status bump_new_documents w1)))
        as (founds & w' & Hloop & Hall & Ht & Hc & Hd & He & Hs).
      exists (false :: founds), w'. rewrite reported_new_cons.
      rewrite Hloop, Ht, Hc, Hd, He, Hs.
      cbn [snd set_cron_status modify table clock trace cron_status
           flat_map length].
      rewrite Hex1, Hdl1, <- !app_assoc. cbn [map app].
      rewrite Nat.iter_succ_r.
      repeat split.
      constructor.
      * exists w. split; [reflexivity|exact Hfound].
      * eapply Forall2_impl; [exact Hall|]. cbv beta.
        intros a' f' (w0 & Hw0 & Hchk). exists w0. split; [exact Hw0|exact Hchk].
Qed.

End FanOutRun.

Lemma founds_when_select_answers (E : Env) (tab : list Row.t)
    (df : list Announcement.t) (founds : list bool) :
  (forall title date w0, supabase_select_error E title date w0 = None) ->
  Forall2 (fun a found =>
             exists w0,
               table w0 = tab
               /\ fst (check_document_exists E (Announcement.title a)
                         (Announcement.date a) w0) = Ok found) df founds ->
  founds
  = map (fun a => existsb (row_matches (Announcement.title a)
                             (Announcement.date a)) tab) df.
Proof.
  intros Hsel Hall. induction Hall as [|a found df founds Ha _ IH].
  - reflexivity.
  - destruct Ha as (w0 & Htab & Hchk).
    rewrite check_document_exists_run in Hchk. cbn [fst] in Hchk.
    rewrite Hsel, Htab in Hchk. injection Hchk as <-.
    cbn [map]. f_equal. exact IH.
Qed.

(** C9. Over a whole run.  Let [df] be the announcements the scraper
    returned and [founds] the answers of the existence check, asked once
    per announcement against the table as the run found it.  Then
    [new_documents] ends as the number of announcements answered [False];
    the work items are, announcement by announcement and link by link, one
    per link ending in [.pdf] of those announcements, and the processor is
    invoked once per work item (each invocation starts by logging the
    download of its URL), every invocation moving one of [processed] and
    [failed].  The existence check is asked exactly once per announcement:
    no link and no work item causes another query.  When the query itself
    never fails, an announcement counts as new exactly when the table holds
    no row with its title and date. *)
Theorem new_announcement_fans_out (E : Env) (w : World) :
  let run := run_daily_scrape E w in
  let st := cron_status (snd run) in
  exists df founds,
    fst (scrape_bnm_announcements E (run_started w)) = Ok df
    /\ Forall2 (fun a found =>
                  exists w0,
                    table w0 = table w
                    /\ fst (check_document_exists E (Announcement.title a)
                              (Announcement.date a) w0) = Ok found) df founds
    /\ CronStatus.new_documents st = length (reported_new df founds)
    /\ exists_calls (trace (snd run))
       = exists_calls (trace w)
         ++ map (fun a => (Announcement.title a, Announcement.date a)) df
    /\ downloads (trace (snd run))
       = downloads (trace w)
         ++ map snd (flat_map work_items (reported_new df founds))
    /\ CronStatus.processed st + CronStatus.failed st
       = length (flat_map work_items (reported_new df founds))
    /\ (forall a, length (work_items a)
                  = length (List.filter (PyStr.endswith ".pdf")
                              (Announcement.links a))
                  /\ map snd (work_items a)
                     = List.filter (PyStr.endswith ".pdf") (Announcement.links a))
    /\ ((forall title date w0, supabase_select_error E title date w0 = None) ->
        founds
        = map (fun a => existsb (row_matches (Announcement.title a)
                                   (Announcement.date a)) (table w)) df).
Proof.
  cbv zeta.
  remember (run_daily_scrape E w) as run eqn:Hrun.
  unfold run_daily_scrape, now in Hrun.
  rewrite bind_ask in Hrun. unfold set_cron_status at 1 in Hrun.
  rewrite bind_modify in Hrun.
  fold (run_started w) in Hrun.
  set (wa := run_started w) in *.
  assert (Hscr : exists df w1,
             scrape_bnm_announcements E wa = (Ok df, w1)
             /\ table w1 = table w /\ clock w1 = clock w
             /\ cron_status w1 = cron_status wa
             /\ downloads (trace w1) = downloads (trace w)
             /\ exists_calls (trace w1) = exists_calls (trace w)).
  { rewrite scrape_run.
    destruct (site_table E (snd (emit CallScrape wa))); eexists _, _;
      (split; [reflexivity|]); cbn;
      unfold downloads, exists_calls; rewrite !omap_snoc; cbn;
      rewrite ?omap_snoc; cbn; rewrite ?app_nil_r; repeat split. }
  destruct Hscr as (df & w1 & Hscr & Ht1 & Hc1 & Hs1 & Hd1 & He1).
  unfold try_except in Hrun. rewrite (bind_ok _ _ _ _ _ Hscr) in Hrun.
  assert (Hitems : forall a,
            length (work_items a)
            = length (List.filter (PyStr.endswith ".pdf") (Announcement.links a))
            /\ map snd (work_items a)
               = List.filter (PyStr.endswith ".pdf") (Announcement.links a)).
  { intros a. unfold work_items. rewrite length_map, map_map. cbn [snd].
    rewrite map_id. split; reflexivity. }
  exists df. rewrite Hscr. cbn [fst].
  destruct df as [|a df].
  - exists []. rewrite Hrun.
    cbn [fst snd set_cron_status modify table clock trace cron_status length map].
    rewrite Hd1, He1, Hs1. cbn. rewrite !app_nil_r.
    repeat split; try constructor; try apply Hitems.
  - destruct (discover_loop_exact E (a :: df) [] w1)
      as (founds & w2 & Hdisc & Hall & Ht2 & Hc2 & Hd2 & He2 & Hs2).
    cbn [app] in Hdisc.
    rewrite (bind_ok _ _ _ _ _ Hdisc) in Hrun.
    set (items := flat_map work_items (reported_new (a :: df) founds)) in *.
    destruct (process_loop_run E items w2)
      as (rows & k & Hok3 & Ht3 & Hc3 & Hp3 & Hf3 & Hk3 & Hr3 & Hz3
            & Hn3 & Hst3 & Hl3 & Hm3).
    pose proof (process_loop_logged E items w2) as Hd3.
    pose proof (keeps_process_loop_checks E items w2) as He3.
    cbv zeta beta in *.
    destruct (process_loop E items w2) as [r3 w3] eqn:Hproc;
      cbn [fst snd] in *. subst r3.
    rewrite (bind_ok _ _ _ _ _ Hproc) in Hrun.
    assert (Hall' : Forall2 (fun a0 found =>
                      exists w0,
                        table w0 = table w
                        /\ fst (check_document_exists E (Announcement.title a0)
                                  (Announcement.date a0) w0) = Ok found)
                      (a :: df) founds).
    { eapply Forall2_impl; [exact Hall|]. cbv beta.
      intros a0 f0 (w0 & Hw0 & Hchk). exists w0.
      split; [rewrite Hw0; exact Ht1|exact Hchk]. }
    exists founds. rewrite Hrun.
    cbn [fst snd set_cron_status modify table clock trace cron_status].
    rewrite Hd3, Hd2, Hd1, He3, He2, He1.
    rewrite Hs2, Hs1, iter_bump_new in Hp3, Hf3, Hn3.
    subst wa. unfold run_started in Hp3, Hf3, Hn3.
    cbn [cron_status CronStatus.new_documents CronStatus.processed
         CronStatus.failed] in Hp3, Hf3, Hn3.
    unfold finish. cbn [CronStatus.new_documents CronStatus.processed
                        CronStatus.failed].
    rewrite Hp3, Hf3, Hn3.
    split; [reflexivity|].
    split; [exact Hall'|]. split; [reflexivity|]. split; [reflexivity|].
    split; [reflexivity|]. split; [subst items; lia|]. split; [exact Hitems|].
    intros Hsel. eapply founds_when_select_answers; [exact Hsel|exact Hall'].
Qed.

(** An announcement with two PDF links and a page link, not yet stored:
    it is counted once and gives two work items, one per PDF. *)
Lemma new_announcement_fans_out_witness :
  let run :=
    run_daily_scrape (Scenario.healthy Scenario.two_pdfs Scenario.pages_filtered)
      Scenario.world0 in
  CronStatus.new_documents (cron_status (snd run)) = 1
  /\ downloads (trace (snd run))
     = ["https://www.bnm.gov.my/docs/one.pdf"%string;
        "https://www.bnm.gov.my/docs/two.pdf"%string]
  /\ exists_calls (trace (snd run))
     = [("Policy A"%string, "01 Jan 2025"%string)].
Proof.
  cbv zeta.
  destruct (new_announcement_fans_out
              (Scenario.healthy Scenario.two_pdfs Scenario.pages_filtered)
              Scenario.world0)
    as (df & founds & Hdf & _ & Hnew & Hex & Hdl & _ & _ & Hpin).
  specialize (Hpin (fun _ _ _ => eq_refl)).
  vm_compute in Hdf. injection Hdf as <-. subst founds.
  rewrite Hnew, Hdl, Hex. repeat split.
Defined.

(** ** The page filter, through the processor *)

Lemma passes_filter_spec (page : json) :
  (passes_filter page = true
   <-> markdown_of page <> ""%string
       /\ 50 <= PyStr.len (PyStr.strip (markdown_of page)))
  /\ (PyStr.len (PyStr.strip (markdown_of page)) = 49 -> passes_filter page = false)
  /\ (PyStr.len (PyStr.strip (markdown_of page)) = 50 -> passes_filter page = true).
Proof.
  unfold passes_filter, markdown_of.
  destruct page as [|b|z|s|l|fields]; cbn [Py.get];
    try (split; [split; [discriminate|intros [H _]; congruence]
                |split; [reflexivity|discriminate]]).
  destruct (default (JStr "") (Py.assoc "markdown" fields)) as [|b|z|s|l|l];
    try (split; [split; [discriminate|intros [H _]; congruence]
                |split; [reflexivity|]];
         intros Hlen; cbn in Hlen; discriminate Hlen).
  destruct (String.eqb_spec s "") as [->|Hne]; cbn [negb andb].
  - split; [split; [discriminate|intros [H _]; congruence]|].
    split; [reflexivity|]. intros Hlen. cbn in Hlen. discriminate Hlen.
  - destruct (Nat.leb_spec 50 (PyStr.len (PyStr.strip s))) as [Hge|Hlt].
    + split; [split; [intros _; split; assumption|reflexivity]|].
      split; [intros Hlen; lia|reflexivity].
    + split; [split; [discriminate|intros [_ H]; lia]|].
      split; [reflexivity|intros Hlen; lia].
Qed.

Lemma page_entry_well_formed (doc : list (string * json)) (page : json) :
  page_well_formed page = true ->
  exists r, page_entry (JObj doc) page = Ok r.
Proof.
  unfold page_well_formed, page_entry.
  destruct page as [|b|z|s|l|fields]; try discriminate. cbn [Py.get].
  destruct (default (JNum 0) (Py.assoc "index" fields)) as [|b|z|s|l|l];
    try discriminate; cbn [Py.add];
    (destruct (default (JStr "") (Py.assoc "markdown" fields)) as [|b'|z'|s'|l'|l'];
     cbn [Py.truthy];
     [ intros _; eexists; reflexivity
     | intros ->; eexists; reflexivity
     | intros ->; eexists; reflexivity
     | intros _; destruct (negb (negb (s' =? ""))%string);
         [eexists; reflexivity|];
         destruct (PyStr.len (PyStr.strip s') <? 50); eexists; reflexivity
     | intros ->; eexists; reflexivity
     | intros ->; eexists; reflexivity ]).
Qed.

Lemma page_entry_malformed (doc : list (string * json)) (page : json) :
  page_well_formed page = false ->
  exists e, page_entry (JObj doc) page = Raise e.
Proof.
  unfold page_well_formed, page_entry.
  destruct page as [|b|z|s|l|fields]; try (intros _; eexists; reflexivity).
  cbn [Py.get].
  destruct (default (JNum 0) (Py.assoc "index" fields)) as [|b|z|s|l|l];
    cbn [Py.add]; try (intros _; eexists; reflexivity);
    (destruct (default (JStr "") (Py.assoc "markdown" fields)) as [|b'|z'|s'|l'|l'];
     cbn [Py.truthy]; try discriminate;
     intros H; apply negb_false_iff in H; rewrite H; cbn [negb];
     eexists; reflexivity).
Qed.

Lemma page_loop_total (doc : list (string * json)) (items : list json) :
  Forall (fun page => page_well_formed page = true) items ->
  forall acc, exists P, page_loop (JObj doc) items acc = Ok P.
Proof.
  induction 1 as [|page rest Hpage _ IH]; intros acc; cbn [page_loop].
  - eexists. reflexivity.
  - destruct (page_entry_well_formed doc page Hpage) as [[d|] ->]; apply IH.
Qed.

Lemma page_loop_malformed (doc : list (string * json)) (items : list json) :
  Exists (fun page => page_well_formed page = false) items ->
  forall acc, exists e, page_loop (JObj doc) items acc = Raise e.
Proof.
  induction 1 as [page rest Hpage|page rest _ IH]; intros acc; cbn [page_loop].
  - destruct (page_entry_malformed doc page Hpage) as [e ->]. eexists. reflexivity.
  - destruct (page_entry (JObj doc) page) as [[d|]|e]; [apply IH|apply IH|].
    eexists. reflexivity.
Qed.

(** The contents of the pages the loop keeps are their markdowns. *)
Lemma page_loop_contents (ocr_data : json) (items : list json) (P : list PageData.t) :
  page_loop ocr_data items [] = Ok P ->
  map PageData.page_info P = List.filter passes_filter items
  /\ map PageData.content P = map markdown_of (List.filter passes_filter items).
Proof.
  intros Hloop.
  destruct (page_loop_run ocr_data items [] P Hloop) as (kept & -> & Hmap & Hmd).
  cbn [app]. split; [exact Hmap|]. rewrite <- Hmap, map_map.
  apply map_ext_Forall. eapply Forall_impl; [exact Hmd|]. cbv beta.
  intros d Hd. unfold markdown_of. rewrite Hd. reflexivity.
Qed.

Section Retained.

Variable E : Env.

Lemma keeps_unlink_embeds p :
  keeps (fun w => embed_calls (trace w)) (unlink p).
Proof. unfold unlink, set_files. frames. Qed.

Lemma keeps_unlink_inserts p :
  keeps (fun w => inserts (trace w)) (unlink p).
Proof. unfold unlink, set_files. frames. Qed.

Lemma keeps_download_embeds url :
  keeps (fun w => embed_calls (trace w)) (download_pdf E url).
Proof. unfold download_pdf, browser_launch, print, unlink, set_files. frames. Qed.

Lemma keeps_extract_embeds p :
  keeps (fun w => embed_calls (trace w)) (extract_text_from_pdf E p).
Proof. unfold extract_text_from_pdf, open_file, print. frames. Qed.

Lemma keeps_store_embeds d t ty u pd ocr vs :
  keeps (fun w => embed_calls (trace w)) (store_document_pages E d t ty u pd ocr vs).
Proof.
  apply keeps_store_loop.
  - intros p v. unfold store_page, supabase_insert, now, set_table. frames.
  - intros line. unfold print. frames.
Qed.

Lemma embeds_print (tr : list Event) (line : string) :
  embed_calls (tr ++ [Print line]) = embed_calls tr.
Proof. unfold embed_calls. rewrite omap_snoc. apply app_nil_r. Qed.

(** The processor after a download and an OCR answer, stage by stage. *)
Lemma process_new_document_stages
    (d t ty u : string) (w : World) (p : string) (j pages : json)
    (items : list json) :
  let w1 := snd (download_pdf E u w) in
  let w2 := snd (extract_text_from_pdf E p w1) in
  let failed e w0 :=
    (Ok false,
     snd (print ("[ERROR] Processing failed: " ++ str_of_exn e)%string w0)) in
  fst (download_pdf E u w) = Ok (Some p) ->
  fst (extract_text_from_pdf E p w1) = Ok j ->
  Py.truthy j = true ->
  Py.get j "pages" (JArr []) = Ok pages ->
  Py.iter pages = Ok items ->
  p ∈ files w2
  /\ process_new_document E d t ty u w
     = match page_loop j items [] with
       | Raise e => failed e w2
       | Ok [] => (Ok false, snd (unlink p w2))
       | Ok P =>
           let embedding :=
             embed_loop E P (py_range (length P) BATCH_EMBEDDING_SIZE) [] w2 in
           match fst embedding with
           | Raise e => failed e (snd embedding)
           | Ok vs =>
               let stored :=
                 store_document_pages E d t ty u P j vs (snd embedding) in
               match fst stored with
               | Raise e => failed e (snd stored)
               | Ok n => (Ok (0 <? n), snd (unlink p (snd stored)))
               end
           end
       end.
Proof.
  intros w1 w2 failed Hd He Hj Hpages Hitems.
  destruct (download_pdf_keeps_payload E u w p Hd) as [Hin _].
  pose proof (keeps_extract_files E p w1) as Hf2.
  fold w1 in Hin. fold w2 in Hf2.
  assert (Hin2 : p ∈ files w2) by (rewrite Hf2; exact Hin).
  split; [exact Hin2|].
  unfold process_new_document, try_except.
  destruct (download_pdf E u w) as [r0 w1'] eqn:Hdl. cbn [fst snd] in *.
  subst r0 w1. rewrite (bind_ok _ _ _ _ _ Hdl).
  destruct (extract_text_from_pdf E p w1') as [r1 w2'] eqn:Hext.
  cbn [fst snd] in *. subst r1 w2. rewrite (bind_ok _ _ _ _ _ Hext).
  rewrite Hj. cbn [negb]. rewrite bind_lift, Hpages, bind_lift, Hitems, bind_lift.
  destruct (page_loop j items []) as [P|e]; [|reflexivity].
  destruct P as [|pd0 P'].
  { destruct (unlink_present p w2' Hin2) as (w3 & Hu & _).
    rewrite (bind_ok _ _ _ _ _ Hu), Hu. reflexivity. }
  set (P := pd0 :: P'). cbv zeta.
  pose proof (keeps_embed_loop E files P
                (py_range (length P) BATCH_EMBEDDING_SIZE) [] keeps_emit_files w2') as Hf3.
  destruct (embed_loop E P (py_range (length P) BATCH_EMBEDDING_SIZE) [] w2')
    as [[vs|e] w3] eqn:Hemb; cbn [fst snd] in *.
  2:{ rewrite (bind_raise _ _ _ _ _ Hemb). reflexivity. }
  rewrite (bind_ok _ _ _ _ _ Hemb).
  unfold store_document_pages.
  destruct (store_loop_run E d t ty u P j (combine P vs) 0 w3)
    as (rows & tried & w4 & Hst & _ & Hf4 & _).
  rewrite Hst. cbn [fst snd]. rewrite (bind_ok _ _ _ _ _ Hst).
  assert (Hin4 : p ∈ files w4) by (rewrite Hf4, Hf3; exact Hin2).
  destruct (unlink_present p w4 Hin4) as (w5 & Hu & _).
  rewrite (bind_ok _ _ _ _ _ Hu), Hu. reflexivity.
Qed.

Lemma process_new_document_falsy
    (d t ty u : string) (w : World) (p : string) (j : json) :
  let w1 := snd (download_pdf E u w) in
  let w2 := snd (extract_text_from_pdf E p w1) in
  fst (download_pdf E u w) = Ok (Some p) ->
  fst (extract_text_from_pdf E p w1) = Ok j ->
  Py.truthy j = false ->
  p ∈ files w2
  /\ process_new_document E d t ty u w = (Ok false, snd (unlink p w2)).
Proof.
  intros w1 w2 Hd He Hj.
  destruct (download_pdf_keeps_payload E u w p Hd) as [Hin _].
  pose proof (keeps_extract_files E p w1) as Hf2.
  fold w1 in Hin. fold w2 in Hf2.
  assert (Hin2 : p ∈ files w2) by (rewrite Hf2; exact Hin).
  split; [exact Hin2|].
  unfold process_new_document, try_except.
  destruct (download_pdf E u w) as [r0 w1'] eqn:Hdl. cbn [fst snd] in *.
  subst r0 w1. rewrite (bind_ok _ _ _ _ _ Hdl).
  destruct (extract_text_from_pdf E p w1') as [r1 w2'] eqn:Hext.
  cbn [fst snd] in *. subst r1 w2. rewrite (bind_ok _ _ _ _ _ Hext).
  rewrite Hj. cbn [negb].
  destruct (unlink_present p w2' Hin2) as (w3 & Hu & _).
  rewrite (bind_ok _ _ _ _ _ Hu), Hu. reflexivity.
Qed.

(** What is in the log and the table before the page loop. *)
Lemma before_the_page_loop (u : string) (w : World) (p : string) :
  let w1 := snd (download_pdf E u w) in
  let w2 := snd (extract_text_from_pdf E p w1) in
  embed_calls (trace w2) = embed_calls (trace w)
  /\ inserts (trace w2) = inserts (trace w)
  /\ table w2 = table w.
Proof.
  cbv zeta.
  rewrite (keeps_extract_embeds p _), (keeps_download_embeds u w).
  rewrite (keeps_extract_inserts E p _), (keeps_download_inserts E u w).
  rewrite (keeps_extract_table E p _), (keeps_download_table E u w).
  repeat split.
Qed.

(** The exits of the processor that embed and store nothing. *)
Lemma nothing_embedded_or_stored (p : string) (w2 : World) (line : string) :
  p ∈ files w2 ->
  (embed_calls (trace (snd (unlink p w2))) = embed_calls (trace w2)
   /\ inserts (trace (snd (unlink p w2))) = inserts (trace w2)
   /\ table (snd (unlink p w2)) = table w2)
  /\ (embed_calls (trace (snd (print line w2))) = embed_calls (trace w2)
      /\ inserts (trace (snd (print line w2))) = inserts (trace w2)
      /\ table (snd (print line w2)) = table w2).
Proof.
  intros Hin. split.
  - rewrite (keeps_unlink_embeds p w2), (keeps_unlink_inserts p w2),
      (keeps_unlink_table p w2). repeat split.
  - cbn [snd print emit modify trace table].
    rewrite embeds_print, inserts_print. repeat split.
Qed.

(** The pages the loop keeps are the pages embedded and stored. *)
Lemma retained_pages_through
    (d t ty u : string) (w : World) (p : string) (j pages : json)
    (items : list json) (P : list PageData.t) :
  let w1 := snd (download_pdf E u w) in
  let w2 := snd (extract_text_from_pdf E p w1) in
  let run := process_new_document E d t ty u w in
  let embedding :=
    embed_loop E P (py_range (length P) BATCH_EMBEDDING_SIZE) [] w2 in
  let texts := map PageData.content P in
  let slice k :=
    take BATCH_EMBEDDING_SIZE (drop (k * BATCH_EMBEDDING_SIZE) texts) in
  fst (download_pdf E u w) = Ok (Some p) ->
  fst (extract_text_from_pdf E p w1) = Ok j ->
  Py.truthy j = true ->
  Py.get j "pages" (JArr []) = Ok pages ->
  Py.iter pages = Ok items ->
  page_loop j items [] = Ok P ->
  (exists sent,
     embed_calls (trace (snd run))
     = embed_calls (trace w) ++ map slice (seq 0 sent)
     /\ sent <= (length P + BATCH_EMBEDDING_SIZE - 1) / BATCH_EMBEDDING_SIZE
     /\ (forall vs, fst embedding = Ok vs ->
           P <> [] ->
           sent = (length P + BATCH_EMBEDDING_SIZE - 1) / BATCH_EMBEDDING_SIZE))
  /\ (exists rows tried,
        table (snd run) = table w ++ rows
        /\ inserts (trace (snd run)) = inserts (trace w) ++ tried
        /\ sublist rows tried
        /\ Forall (fun r => exists pd, In pd P
                              /\ Row.content r = PageData.content pd
                              /\ Row.page_number r = PageData.page_number pd)
             tried)
  /\ (forall vs, fst embedding = Ok vs -> P <> [] ->
        snd run
        = snd (unlink p (snd (store_document_pages E d t ty u P j vs
                                (snd embedding))))).
Proof.
  intros w1 w2 run embedding texts slice Hd He Hj Hpages Hitems Hloop.
  destruct (process_new_document_stages d t ty u w p j pages items
              Hd He Hj Hpages Hitems) as [Hin2 Hrun].
  destruct (before_the_page_loop u w p) as (Hb1 & Hb2 & Hb3).
  fold w1 w2 in Hin2, Hrun, Hb1, Hb2, Hb3. fold run in Hrun.
  rewrite Hloop in Hrun.
  destruct P as [|pd0 P'].
  { destruct (nothing_embedded_or_stored p w2 "" Hin2) as [(H1 & H2 & H3) _].
    rewrite Hrun. cbn [snd]. rewrite H1, H2, H3, Hb1, Hb2, Hb3.
    split.
    { exists 0. cbn [seq map]. rewrite app_nil_r.
      split; [reflexivity|]. split; [lia|]. intros vs _ Hne. congruence. }
    split.
    { exists [], []. rewrite !app_nil_r. repeat split; constructor. }
    intros vs _ Hne. congruence. }
  cbv beta iota zeta in Hrun.
  set (P := pd0 :: P') in *.
  destruct (embed_loop_stops E P
              ((length P + BATCH_EMBEDDING_SIZE - 1) / BATCH_EMBEDDING_SIZE)
              0 [] w2) as (c & Hw3 & Hc & _ & Hok & _).
  cbv zeta in Hw3, Hok. fold (py_range (length P) BATCH_EMBEDDING_SIZE) in Hw3, Hok.
  fold embedding in Hw3, Hok, Hrun. fold texts in Hw3. fold slice in Hw3.
  assert (He3 : embed_calls (trace (snd embedding))
                = embed_calls (trace w) ++ map slice (seq 0 c)).
  { rewrite Hw3, embed_calls_after, Hb1. reflexivity. }
  pose proof (keeps_embed_loop_inserts E P
                (py_range (length P) BATCH_EMBEDDING_SIZE) [] w2) as Hi3.
  pose proof (keeps_embed_loop E table P
                (py_range (length P) BATCH_EMBEDDING_SIZE) [] keeps_emit_table w2) as Ht3.
  cbv beta in Hi3, Ht3. fold embedding in Hi3, Ht3.
  destruct (fst embedding) as [vs|e] eqn:Hfst.
  2:{ destruct (nothing_embedded_or_stored p (snd embedding)
                  ("[ERROR] Processing failed: " ++ str_of_exn e)%string)
        as [_ (H1 & H2 & H3)].
      { pose proof (keeps_embed_loop E files P
                      (py_range (length P) BATCH_EMBEDDING_SIZE) []
                      keeps_emit_files w2) as Hf3.
        cbv beta in Hf3. fold embedding in Hf3. rewrite Hf3. exact Hin2. }
      rewrite Hrun. cbn [snd]. rewrite H1, H2, H3, He3, Hi3, Ht3, Hb2, Hb3.
      split; [exists c; split; [reflexivity|]; split; [exact Hc|discriminate]|].
      split; [|discriminate].
      exists [], []. rewrite !app_nil_r. repeat split; constructor. }
  destruct (Hok vs eq_refl) as [-> _].
  unfold store_document_pages in *.
  destruct (store_loop_run E d t ty u P j (combine P vs) 0 (snd embedding))
    as (rows & tried & w4 & Hst & Ht4 & Hf4 & Hi4 & Hall & _).
  destruct (store_loop_sublist E d t ty u P j (combine P vs) 0 (snd embedding))
    as (rows' & tried' & Ht4' & Hi4' & Hsub).
  pose proof (keeps_store_embeds d t ty u P j vs (snd embedding)) as He4.
  unfold store_document_pages in He4. cbv beta in He4.
  rewrite Hst in Hrun, Ht4', Hi4', He4. cbn [fst snd] in Hrun, Ht4', Hi4', He4.
  rewrite Ht4 in Ht4'. apply app_inv_head in Ht4'. subst rows'.
  rewrite Hi4 in Hi4'. apply app_inv_head in Hi4'. subst tried'.
  rewrite (keeps_embed_loop E files P (py_range (length P) BATCH_EMBEDDING_SIZE)
             [] keeps_emit_files w2 : files (snd embedding) = files w2) in Hf4.
  assert (Hin4 : p ∈ files w4) by (rewrite Hf4; exact Hin2).
  destruct (nothing_embedded_or_stored p w4 "" Hin4) as [(H1 & H2 & H3) _].
  rewrite Hrun. cbn [snd]. rewrite H1, H2, H3, He4, He3, Hi4, Hi3, Ht4, Ht3, Hb2, Hb3.
  split.
  { eexists. split; [reflexivity|]. split; [lia|]. intros; reflexivity. }
  split.
  { exists rows, tried. repeat split; try assumption.
    eapply Forall_impl; [exact Hall|]. cbv beta.
    intros r (pd & v & Hin & Hnum & Hcontent & _).
    exists pd. split; [eapply in_combine_l; exact Hin|]. split; assumption. }
  intros vs' Hvs' _. injection Hvs' as <-. rewrite Hst. reflexivity.
Qed.

End Retained.

(** C8. Let the download succeed and the OCR step answer a document whose
    [pages] is the list [items].  A page passes the filter exactly when its
    markdown is non-empty and its stripped length is at least 50: at 49 it
    does not, at 50 it does.

    When every page object is well formed, the page loop returns, without
    raising or printing, the pages that pass the filter, in their order,
    each with its markdown as content.  These pages and no others are what
    the processor embeds and stores: the texts it sends to the embedding
    endpoint are the consecutive slices of ten of their markdowns (all of
    them when the endpoint answers), every insert it attempts carries the
    content and page number of one of them, and [store_document_pages] is
    called with exactly that list.

    When some page object is malformed the loop raises at it, and no page
    of the document is embedded or stored. *)
Theorem page_retained_iff
    (E : Env) (d t ty u : string) (w : World) (p : string)
    (doc : list (string * json)) (items : list json) :
  let ocr_data := JObj doc in
  let w1 := snd (download_pdf E u w) in
  let w2 := snd (extract_text_from_pdf E p w1) in
  let run := process_new_document E d t ty u w in
  let kept := List.filter passes_filter items in
  let texts := map markdown_of kept in
  let slice k :=
    take BATCH_EMBEDDING_SIZE (drop (k * BATCH_EMBEDDING_SIZE) texts) in
  let planned := (length kept + BATCH_EMBEDDING_SIZE - 1) / BATCH_EMBEDDING_SIZE in
  fst (download_pdf E u w) = Ok (Some p) ->
  fst (extract_text_from_pdf E p w1) = Ok ocr_data ->
  Py.get ocr_data "pages" (JArr []) = Ok (JArr items) ->
  (forall page,
     (passes_filter page = true
      <-> markdown_of page <> ""%string
          /\ 50 <= PyStr.len (PyStr.strip (markdown_of page)))
     /\ (PyStr.len (PyStr.strip (markdown_of page)) = 49 ->
         passes_filter page = false)
     /\ (PyStr.len (PyStr.strip (markdown_of page)) = 50 ->
         passes_filter page = true))
  /\ (Forall (fun page => page_well_formed page = true) items ->
      exists P,
        page_loop ocr_data items [] = Ok P
        /\ map PageData.page_info P = kept
        /\ map PageData.content P = texts
        /\ (forall page, In page items ->
              (In page (map PageData.page_info P)
               <-> markdown_of page <> ""%string
                   /\ 50 <= PyStr.len (PyStr.strip (markdown_of page))))
        /\ (exists sent,
              embed_calls (trace (snd run))
              = embed_calls (trace w) ++ map slice (seq 0 sent)
              /\ sent <= planned
              /\ (forall vs,
                    fst (embed_loop E P
                           (py_range (length P) BATCH_EMBEDDING_SIZE) [] w2)
                    = Ok vs ->
                    kept <> [] ->
                    sent = planned
                    /\ concat (map slice (seq 0 sent)) = texts))
        /\ (exists rows tried,
              table (snd run) = table w ++ rows
              /\ inserts (trace (snd run)) = inserts (trace w) ++ tried
              /\ sublist rows tried
              /\ Forall (fun r => exists page,
                           In page kept
                           /\ Row.content r = markdown_of page) tried)
        /\ (forall vs,
              fst (embed_loop E P
                     (py_range (length P) BATCH_EMBEDDING_SIZE) [] w2)
              = Ok vs ->
              kept <> [] ->
              snd run
              = snd (unlink p
                       (snd (store_document_pages E d t ty u P ocr_data vs
                               (snd (embed_loop E P
                                       (py_range (length P) BATCH_EMBEDDING_SIZE)
                                       [] w2)))))))
  /\ (Exists (fun page => page_well_formed page = false) items ->
      (exists e, page_loop ocr_data items [] = Raise e)
      /\ fst run = Ok false
      /\ embed_calls (trace (snd run)) = embed_calls (trace w)
      /\ inserts (trace (snd run)) = inserts (trace w)
      /\ table (snd run) = table w).
Proof.
  intros ocr_data w1 w2 run kept texts slice planned Hd He Hpages.
  destruct (before_the_page_loop E u w p) as (Hb1 & Hb2 & Hb3).
  fold w1 w2 in Hb1, Hb2, Hb3.
  split; [intros page; apply passes_filter_spec|].
  destruct doc as [|field doc'].
  { (* an empty object is falsy: the processor stops before the page loop *)
    cbn in Hpages. injection Hpages as <-.
    destruct (process_new_document_falsy E d t ty u w p (JObj []) Hd He eq_refl)
      as [Hin2 Hrun].
    fold w1 w2 in Hin2, Hrun. fold run in Hrun.
    destruct (nothing_embedded_or_stored p w2 "" Hin2) as [(H1 & H2 & H3) _].
    split; [|intros Hex; inversion Hex].
    intros _. exists []. subst kept texts. cbn [List.filter map].
    split; [reflexivity|]. split; [reflexivity|]. split; [reflexivity|].
    split; [intros page []|].
    rewrite Hrun. cbn [snd]. rewrite H1, H2, H3, Hb1, Hb2, Hb3.
    split.
    { exists 0. cbn [seq map]. rewrite app_nil_r.
      split; [reflexivity|]. split; [lia|]. intros vs _ Hne. congruence. }
    split.
    { exists [], []. rewrite !app_nil_r. repeat split; constructor. }
    intros vs _ Hne. congruence. }
  set (fields := field :: doc') in *.
  assert (Hj : Py.truthy ocr_data = true) by reflexivity.
  assert (Hitems : Py.iter (JArr items) = Ok items) by reflexivity.
  destruct (process_new_document_stages E d t ty u w p ocr_data (JArr items)
              items Hd He Hj Hpages Hitems) as [Hin2 Hrun].
  fold w1 w2 in Hin2, Hrun. fold run in Hrun.
  split.
  - intros Hwf.
    destruct (page_loop_total fields items Hwf []) as [P Hloop].
    fold ocr_data in Hloop.
    destruct (page_loop_contents ocr_data items P Hloop) as [Hinfo Hcontent].
    fold kept in Hinfo, Hcontent. fold texts in Hcontent.
    assert (Hlen : length P = length kept).
    { rewrite <- Hinfo, length_map. reflexivity. }
    destruct (retained_pages_through E d t ty u w p ocr_data (JArr items) items P
                Hd He Hj Hpages Hitems Hloop)
      as ((sent & Hcalls & Hsent & Hall) & (rows & tried & Htab & Hins & Hsub & Htried)
          & Hstore).
    fold w1 w2 in Hcalls, Hall, Hstore. fold run in Hcalls, Htab, Hins, Hstore.
    assert (Hplanned :
              (length P + BATCH_EMBEDDING_SIZE - 1) / BATCH_EMBEDDING_SIZE = planned)
      by (subst planned; rewrite Hlen; reflexivity).
    rewrite Hcontent in Hcalls. rewrite Hplanned in Hsent, Hall.
    fold slice in Hcalls.
    assert (HP : kept <> [] -> P <> []).
    { intros Hne ->. apply Hne. symmetry. exact Hinfo. }
    exists P. split; [exact Hloop|]. split; [exact Hinfo|]. split; [exact Hcontent|].
    split.
    { intros page Hin. rewrite Hinfo. subst kept. rewrite filter_In.
      destruct (passes_filter_spec page) as [Hiff _]. rewrite <- Hiff. tauto. }
    split.
    { exists sent. split; [exact Hcalls|]. split; [exact Hsent|].
      intros vs Hvs Hne. rewrite (Hall vs Hvs (HP Hne)).
      split; [reflexivity|].
      subst slice. cbv beta.
      rewrite (chunks_concat BATCH_EMBEDDING_SIZE texts planned 0).
      rewrite Nat.mul_0_l, drop_0. apply take_ge.
      subst texts planned. rewrite length_map.
      apply ceil_div_covers. unfold BATCH_EMBEDDING_SIZE. lia. }
    split.
    { exists rows, tried. split; [exact Htab|]. split; [exact Hins|].
      split; [exact Hsub|].
      destruct (page_loop_run ocr_data items [] P Hloop) as (kept' & Heq & _ & Hmd).
      cbn [app] in Heq. subst kept'.
      rewrite List.Forall_forall in Hmd.
      eapply Forall_impl; [exact Htried|]. cbv beta.
      intros r (pd & Hin & Hc & _).
      exists (PageData.page_info pd). split.
      - rewrite <- Hinfo. apply in_map. exact Hin.
      - rewrite Hc. unfold markdown_of. rewrite (Hmd pd Hin). reflexivity. }
    intros vs Hvs Hne. apply (Hstore vs Hvs (HP Hne)).
  - intros Hbad.
    destruct (page_loop_malformed fields items Hbad []) as [e Hloop].
    fold ocr_data in Hloop.
    split; [exists e; exact Hloop|].
    rewrite Hloop in Hrun.
    destruct (nothing_embedded_or_stored p w2
                ("[ERROR] Processing failed: " ++ str_of_exn e)%string Hin2)
      as [_ (H1 & H2 & H3)].
    rewrite Hrun. cbn [fst snd]. rewrite H1, H2, H3, Hb1, Hb2, Hb3.
    repeat split.
Qed.

(** Three pages of 60, 49 and 50 letters: the first and the third are
    kept and embedded in one call, the second is dropped. *)
Lemma page_retained_iff_witness :
  let E := Scenario.healthy Scenario.one_pdf Scenario.pages_filtered in
  let run :=
    process_new_document E "02 Jan 2025" "Policy B" "Policy Document"
      "https://www.bnm.gov.my/docs/b.pdf" Scenario.world0 in
  embed_calls (trace (snd run))
  = [[PyStr.repeat "a"%char 60; PyStr.repeat "a"%char 50]]
  /\ passes_filter (Scenario.page 1 49) = false
  /\ passes_filter (Scenario.page 2 50) = true.
Proof.
  cbv zeta.
  destruct (page_retained_iff
              (Scenario.healthy Scenario.one_pdf Scenario.pages_filtered)
              "02 Jan 2025" "Policy B" "Policy Document"
              "https://www.bnm.gov.my/docs/b.pdf" Scenario.world0
              "temp_bnm_downloads/b.pdf"
              [("pages"%string, JArr Scenario.pages_filtered);
               ("extractedText"%string, JStr "full text");
               ("model"%string, JStr "mistral-ocr-latest")]
              Scenario.pages_filtered eq_refl eq_refl eq_refl)
    as (Hfilter & Hgood & _).
  split.
  - destruct Hgood as (P & Hloop & _ & _ & _ & (sent & Hcalls & _ & Hall) & _).
    { repeat constructor. }
    vm_compute in Hloop. injection Hloop as <-.
    destruct (Hall [[60%Z]; [50%Z]]) as [-> _]; [reflexivity|discriminate|].
    rewrite Hcalls. reflexivity.
  - split.
    + destruct (Hfilter (Scenario.page 1 49)) as (_ & H49 & _).
      apply H49. reflexivity.
    + destruct (Hfilter (Scenario.page 2 50)) as (_ & _ & H50).
      apply H50. reflexivity.
Defined.
